(** * xsession_manager: save, restore and move the windows of a desktop session

    A shallow embedding of [xsession_manager/xsession_manager.py] (class
    [XSessionManager]) and the properties of its restore engine.

    Conventions of the embedding:
    - Python values whose type the code itself mixes (process ids are
      compared as [int] in one place and as [str] in another) are kept as
      [pyval]s with Python's equality;
    - the object [self], the gsettings store, the file system and the log of
      external commands are threaded explicitly ([State]); a method is a
      computation [M A] that returns a value or raises ([result]);
    - what the collaborators answer (wmctrl, psutil, wnck, the wall clock) is
      an [Env]; the restore path reads the environment of the current
      instant from a [World], a function of the time slept so far. *)

From Stdlib Require Import ZArith QArith String List Permutation Lia.
From stdpp Require Import base decidable list strings gmap pretty.

#[local] Set Warnings "-clear-no-such-hyp".

Local Open Scope Z_scope.

(** ** Python values *)

Module Py.

Inductive pyval : Type :=
| PInt (z : Z)
| PStr (s : string).

#[global] Instance pyval_eq_dec : EqDecision pyval.
Proof. solve_decision. Defined.

(** [str(v)]: decimal text for an [int], the text itself for a [str]. *)
Definition str (v : pyval) : pyval :=
  match v with
  | PInt z => PStr (pretty z)
  | PStr s => PStr s
  end.

(** [v in l] on a Python list: equality never identifies an [int] with
    a [str]. *)
Definition contains (v : pyval) (l : list pyval) : bool :=
  bool_decide (v ∈ l).

(** Truth value of an optional [int] argument ([if pid:]). *)
Definition truthy (p : option Z) : bool :=
  match p with
  | Some z => negb (z =? 0)
  | None => false
  end.

End Py.
Import Py.
#[global] Arguments str : simpl never.

(** ** Data model *)

(** [XSessionConfigObject]: one window of a session.  [pid] is kept as the
    Python value found in the object. *)
Record XSessionConfigObject : Type := {
  window_id : string;
  window_id_the_int_type : Z;
  desktop_number : Z;
  pid : pyval;
  window_title : string;
  app_name : string;
  cmd : list string;
  process_create_time : option string
}.

#[global] Instance XSessionConfigObject_eq_dec : EqDecision XSessionConfigObject.
Proof. solve_decision. Defined.

(** [XSessionConfig]: a named session. *)
Record XSessionConfig : Type := {
  session_name : string;
  session_create_time : option string;
  backup_time : option string;
  x_session_config_objects : list XSessionConfigObject
}.

#[global] Instance XSessionConfig_eq_dec : EqDecision XSessionConfig.
Proof. solve_decision. Defined.

(** A session filter, [SessionFilter.__call__]. *)
Definition SessionFilter : Type :=
  list XSessionConfigObject → list XSessionConfigObject.

(** The attributes of [self] that the methods only read. *)
Record XSessionManager : Type := {
  session_filters : option (list (option SessionFilter));
  base_location_of_sessions : string;
  base_location_of_backup_sessions : string
}.

(** ** Exceptions, log and state *)

Inductive exn : Type :=
| NeedRetryException (o : XSessionConfigObject)
| FileNotFoundError (dir name : string)
| ValueError
| TypeError
| NoSuchProcess (p : Z)
| OtherException (what : string).

Inductive result (A : Type) : Type :=
| Ok (a : A)
| Raise (e : exn).
Arguments Ok {A} a.
Arguments Raise {A} e.

(** Lines written by [print]. *)
Inductive message : Type :=
| Restoring_session_located (dir name : string)
| Restoring_application (app : string)
| Failure_empty_commandline (app : string)
| Moving_window_to_desktop (title : string) (desktop : Z)
| No_application_to_restore
| Done
| Saving_the_session_to (dir name : string)
| Saving_the_new_json_format_x_session
| Backing_up_session_located (dir name : string)
| Backup_the_old_session_file (dir name dir' name' : string)
| Got_the_process_list_according_to_wmctl
| Failed_to_get_process_info (app : string)
| Complete_the_process_list_according_to_psutil
| Traceback (e : exn).

(** What the program does to the outside, in order. *)
Inductive event : Type :=
| Log (m : message)
| MoveWindowTo (wid : string) (desktop : Z)
| RunCmd (c : list string) (child : result Z)
| Sleep (d : Q)
| PoolCreated
| DisableDynamicWorkspaces
| EnableDynamicWorkspaces
| SetWorkspacesNumber (n : Z).

(** A path: the directory and the file name in it. *)
Abbreviation Path := (string * string)%type (only parsing).

Record State : Type := {
  _moved_windowids_cache : list string;
  clock : Q;
  dynamic_workspaces : bool;
  workspaces_number : Z;
  dirs : gset string;
  files : gmap Path XSessionConfig;
  time_calls : nat;
  trace : list event
}.

Definition set_cache (c : list string) (s : State) : State :=
  Build_State c (clock s) (dynamic_workspaces s) (workspaces_number s)
    (dirs s) (files s) (time_calls s) (trace s).
Definition set_clock (t : Q) (s : State) : State :=
  Build_State (_moved_windowids_cache s) t (dynamic_workspaces s)
    (workspaces_number s) (dirs s) (files s) (time_calls s) (trace s).
Definition set_dynamic (b : bool) (s : State) : State :=
  Build_State (_moved_windowids_cache s) (clock s) b (workspaces_number s)
    (dirs s) (files s) (time_calls s) (trace s).
Definition set_number (n : Z) (s : State) : State :=
  Build_State (_moved_windowids_cache s) (clock s) (dynamic_workspaces s) n
    (dirs s) (files s) (time_calls s) (trace s).
Definition set_dirs (d : gset string) (s : State) : State :=
  Build_State (_moved_windowids_cache s) (clock s) (dynamic_workspaces s)
    (workspaces_number s) d (files s) (time_calls s) (trace s).
Definition set_files (f : gmap Path XSessionConfig) (s : State) : State :=
  Build_State (_moved_windowids_cache s) (clock s) (dynamic_workspaces s)
    (workspaces_number s) (dirs s) f (time_calls s) (trace s).
Definition set_time_calls (n : nat) (s : State) : State :=
  Build_State (_moved_windowids_cache s) (clock s) (dynamic_workspaces s)
    (workspaces_number s) (dirs s) (files s) n (trace s).
Definition set_trace (t : list event) (s : State) : State :=
  Build_State (_moved_windowids_cache s) (clock s) (dynamic_workspaces s)
    (workspaces_number s) (dirs s) (files s) (time_calls s) t.

(** A broken-down local time, [datetime.datetime]. *)
Record datetime : Type := {
  year : N; month : N; day : N;
  hour : N; minute : N; second : N; microsecond : N
}.

(** The answers of the collaborators at one instant. *)
Record Env : Type := {
  (* wmctl_wrapper.get_running_windows, converted without deduplication *)
  running_windows : list XSessionConfigObject;
  (* psutil.Process(p).children(); None: psutil.NoSuchProcess *)
  children : Z → option (list Z);
  (* psutil.process_iter(attrs=['pid', 'cmdline']) *)
  process_iter : list (Z * list string);
  (* name, cmdline and formatted create_time of a process *)
  process_info : Z → option (string * list string * string);
  (* subprocess_utils.run_cmd(c).pid, or what run_cmd raises when the
     program cannot be started *)
  run_cmd_pid : list string → result Z;
  is_gnome : bool;
  get_workspace_count : Z;
  (* datetime.datetime.fromtimestamp(time()), at the n-th reading of the
     wall clock *)
  time : nat → datetime
}.

Definition World : Type := Q → Env.

(** ** Computations *)

Definition M (A : Type) : Type := State → State * result A.

Definition ret {A} (a : A) : M A := λ s, (s, Ok a).

Definition raise {A} (e : exn) : M A := λ s, (s, Raise e).

Definition bind {A B} (c : M A) (k : A → M B) : M B := λ s,
  match c s with
  | (s', Ok a) => k a s'
  | (s', Raise e) => (s', Raise e)
  end.

Notation "x <- c ;; k" := (bind c (λ x, k))
  (at level 100, c at next level, right associativity).
Notation "c ;; k" := (bind c (λ _, k))
  (at level 100, right associativity).

(** [try: c  except ... as e: h e] *)
Definition try_except {A} (c : M A) (h : exn → M A) : M A := λ s,
  match c s with
  | (s', Ok a) => (s', Ok a)
  | (s', Raise e) => h e s'
  end.

(** [try: c  finally: f] *)
Definition try_finally {A} (c : M A) (f : M unit) : M A := λ s,
  match c s with
  | (s', r) =>
      match f s' with
      | (s'', Ok _) => (s'', r)
      | (s'', Raise e) => (s'', Raise e)
      end
  end.

(** [for x in l: f x] *)
Fixpoint for_each {A} (l : list A) (f : A → M unit) : M unit :=
  match l with
  | [] => ret tt
  | x :: l' => f x ;; for_each l' f
  end.

Definition emit (e : event) : M unit := λ s,
  (set_trace (trace s ++ [e]) s, Ok tt).

Definition print (m : message) : M unit := emit (Log m).

(** [time.sleep(d)]: a negative delay raises [ValueError]. *)
Definition sleep (d : Q) : M unit := λ s,
  if Qle_bool 0 d then
    (set_trace (trace s ++ [Sleep d]) (set_clock (clock s + d)%Q s), Ok tt)
  else (s, Raise ValueError).

(** Run [f] on the environment of the current instant. *)
Definition at_now {A} (world : World) (f : Env → M A) : M A := λ s,
  f (world (clock s)) s.

(** ** Collaborators *)

(** Modelled from the spec: [XSessionConfigObject.convert_wmctl_result_2_list]
    is declared in [settings/xsession_config.py], which is not among the
    sources.  It turns the rows of [wmctrl] into records; with
    [remove_duplicates_by_pid] only one record per distinct [processId] is
    retained, in first-seen order.  [Env.running_windows] holds the rows
    already turned into records. *)
Fixpoint first_seen_by_pid (seen : list pyval) (l : list XSessionConfigObject)
  : list XSessionConfigObject :=
  match l with
  | [] => []
  | x :: l' =>
      if contains (pid x) seen then first_seen_by_pid seen l'
      else x :: first_seen_by_pid (pid x :: seen) l'
  end.

Definition convert_wmctl_result_2_list (rows : list XSessionConfigObject)
    (remove_duplicates_by_pid : bool) : XSessionConfig :=
  {| session_name := "";
     session_create_time := None;
     backup_time := None;
     x_session_config_objects :=
       if remove_duplicates_by_pid then first_seen_by_pid [] rows else rows |}.

(** [psutil.Process(v)]: the process id has to be an [int] that is not
    negative, and the process has to exist. *)
Definition psutil_Process (env : Env) (v : pyval)
  : result (string * list string * string) :=
  match v with
  | PStr _ => Raise TypeError
  | PInt z =>
      if z <? 0 then Raise ValueError
      else match process_info env z with
           | Some i => Ok i
           | None => Raise (NoSuchProcess z)
           end
  end.

(** [wmctl_wrapper.move_window_to]: a command to the window manager, no
    answer is read. *)
Definition move_window_to (wid : string) (desktop : Z) : M unit :=
  emit (MoveWindowTo wid desktop).

(** [subprocess_utils.run_cmd(cmd).pid]: the call is recorded with its
    outcome, and an exception of [run_cmd] is raised to the caller. *)
Definition run_cmd (env : Env) (c : list string) : M Z :=
  emit (RunCmd c (run_cmd_pid env c)) ;;
  match run_cmd_pid env c with
  | Ok child => ret child
  | Raise e => raise e
  end.

(** ** Sorting by desktop number

    [list.sort(key=attrgetter('desktop_number'))] is stable: records with
    the same desktop keep their order. *)

Fixpoint insert_by_desktop (x : XSessionConfigObject)
    (l : list XSessionConfigObject) : list XSessionConfigObject :=
  match l with
  | [] => [x]
  | y :: l' =>
      if bool_decide (desktop_number x ≤ desktop_number y)
      then x :: y :: l'
      else y :: insert_by_desktop x l'
  end.

Definition sort_by_desktop_number (l : list XSessionConfigObject)
  : list XSessionConfigObject :=
  foldr insert_by_desktop [] l.

(** ** The filter pipeline *)

Definition apply_session_filters (fs : option (list (option SessionFilter)))
    (objs : list XSessionConfigObject) : list XSessionConfigObject :=
  match fs with
  | None => objs
  | Some l =>
      foldl (λ acc f, match f with
                      | None => acc
                      | Some g => g acc
                      end) objs l
  end.

(** ** [_move_window] *)

(** Lines 280-284: the candidate process ids when [pid] is given. *)
Definition launched_pids (env : Env) (p : Z) : M (list pyval) :=
  match children env p with
  | Some cs => ret (((λ c, str (PInt c)) <$> cs) ++ [str (PInt p)])
  | None => raise (NoSuchProcess p)
  end.

(** Lines 292-298: the first running process whose command line is [c]. *)
Fixpoint pids_by_cmdline (procs : list (Z * list string)) (c : list string)
  : list pyval :=
  match procs with
  | [] => []
  | (p, pc) :: procs' =>
      if bool_decide (length pc ≤ 0)%nat then pids_by_cmdline procs' c
      else if bool_decide (pc = c) then [PInt p]
      else pids_by_cmdline procs' c
  end.

(** The state of the loop of lines 306-314. *)
Record scan_state : Type := {
  no_need_to_move : bool;
  moving_windows : list XSessionConfigObject
}.

(** Does the loop append [w] to [moving_windows]? *)
Definition needs_move (namespace_obj : XSessionConfigObject) (pids : list pyval)
    (w : XSessionConfigObject) : bool :=
  contains (pid w) pids
  && bool_decide (window_title w = window_title namespace_obj)
  && negb (bool_decide (desktop_number w = desktop_number namespace_obj)).

Definition scan_step (namespace_obj : XSessionConfigObject) (pids : list pyval)
    (st : scan_state) (running_window : XSessionConfigObject) : scan_state :=
  if contains (pid running_window) pids then
    if bool_decide (window_title running_window = window_title namespace_obj)
       && negb (bool_decide (desktop_number running_window
                             = desktop_number namespace_obj))
    then {| no_need_to_move := false;
            moving_windows := moving_windows st ++ [running_window] |}
    else st
  else {| no_need_to_move := false; moving_windows := moving_windows st |}.

Definition scan_windows (namespace_obj : XSessionConfigObject)
    (pids : list pyval) (windows : list XSessionConfigObject) : scan_state :=
  foldl (scan_step namespace_obj pids)
        {| no_need_to_move := true; moving_windows := [] |} windows.

(** Lines 322-329: one window of [moving_windows]. *)
Definition record_moved (wid : string) : M unit := λ s,
  (set_cache (_moved_windowids_cache s ++ [wid]) s, Ok tt).

Definition move_one (desktop : Z) (running_window : XSessionConfigObject)
  : M unit := λ s,
  let running_window_id := window_id running_window in
  if bool_decide (running_window_id ∈ _moved_windowids_cache s) then (s, Ok tt)
  else (print (Moving_window_to_desktop (window_title running_window) desktop) ;;
        move_window_to running_window_id desktop ;;
        record_moved running_window_id ;;
        sleep (1 # 4)) s.

(** Lines 300-329. *)
Definition place_windows (env : Env) (namespace_obj : XSessionConfigObject)
    (pids : list pyval) (need_retry : bool) : M unit :=
  let st := scan_windows namespace_obj pids
              (sort_by_desktop_number
                 (x_session_config_objects
                    (convert_wmctl_result_2_list (running_windows env) false))) in
  if need_retry && bool_decide (length (moving_windows st) = 0%nat)
  then raise (NeedRetryException namespace_obj)
  else if no_need_to_move st then ret tt
  else for_each (moving_windows st) (move_one (desktop_number namespace_obj)).

(** The body of the [try] of lines 277-329. *)
Definition _move_window_body (env : Env) (namespace_obj : XSessionConfigObject)
    (pid : option Z) (need_retry : bool) : M unit :=
  pids <- (match pid with
           | Some p => if truthy (Some p) then launched_pids env p else ret []
           | None => ret []
           end) ;;
  if bool_decide (length pids = 0%nat) then
    if bool_decide (length (cmd namespace_obj) ≤ 0)%nat then ret tt
    else place_windows env namespace_obj
           (pids_by_cmdline (process_iter env) (cmd namespace_obj)) need_retry
  else place_windows env namespace_obj pids need_retry.

(** Lines 276-334: [NeedRetryException] is raised again, every other
    exception is printed. *)
Definition _move_window (env : Env) (namespace_obj : XSessionConfigObject)
    (pid : option Z) (need_retry : bool) : M unit :=
  try_except (_move_window_body env namespace_obj pid need_retry)
    (λ e, match e with
          | NeedRetryException _ => raise e
          | _ => print (Traceback e)
          end).

(** ** Retrying *)

(** Modelled from the spec: [utils/retry.py] ([Retry], [NeedRetryException])
    is not among the sources.  A task is attempted up to [retries] times with
    a fixed delay of [delay] time units between two attempts;
    [NeedRetryException] is the only condition that triggers another attempt
    and never surfaces past the loop; when the attempts are exhausted the
    task is abandoned without raising. *)
Fixpoint do_retry (world : World) (retries : nat) (delay : Q)
    (func : Env → M unit) : M unit := λ s,
  match retries with
  | O => (s, Ok tt)
  | S n =>
      match at_now world func s with
      | (s', Ok _) => (s', Ok tt)
      | (s', Raise (NeedRetryException _)) =>
          match n with
          | O => (s', Ok tt)
          | S _ => (sleep delay ;; do_retry world n delay func) s'
          end
      | (s', Raise e) => (s', Raise e)
      end
  end.

(** Lines 272-274.  The task is run to its end when it is submitted; how
    the worker pool interleaves several tasks is outside this embedding. *)
Definition _move_window_async (world : World)
    (namespace_obj : XSessionConfigObject) (pid : Z) : M unit :=
  do_retry world 6 1
    (λ env, _move_window env namespace_obj (Some pid) true).

(** ** Workspaces *)

Definition is_dynamic_workspaces : M bool := λ s,
  (s, Ok (dynamic_workspaces s)).

Definition get_workspaces_number : M Z := λ s,
  (s, Ok (workspaces_number s)).

Definition disable_dynamic_workspaces : M unit := λ s,
  (set_trace (trace s ++ [DisableDynamicWorkspaces]) (set_dynamic false s),
   Ok tt).

Definition enable_dynamic_workspaces : M unit := λ s,
  (set_trace (trace s ++ [EnableDynamicWorkspaces]) (set_dynamic true s),
   Ok tt).

Definition set_workspaces_number (n : Z) : M unit := λ s,
  (set_trace (trace s ++ [SetWorkspacesNumber n]) (set_number n s), Ok tt).

(** Lines 178-205, as the [with] statement runs it around [body]: an
    exception of [body] is thrown into the generator at its [yield]; where
    the generator catches it and ends, the [with] statement swallows it. *)
Definition create_enough_workspaces (env : Env) (max_desktop_number : Z)
    (body : M unit) : M unit :=
  if is_gnome env then
    if bool_decide (max_desktop_number ≤ get_workspace_count env) then body
    else
      dynamic <- is_dynamic_workspaces ;;
      if dynamic then
        disable_dynamic_workspaces ;;
        try_except
          (set_workspaces_number max_desktop_number ;;
           try_finally body enable_dynamic_workspaces)
          (λ e, print (Traceback e))
      else
        number <- get_workspaces_number ;;
        (if bool_decide (number < max_desktop_number)
         then set_workspaces_number max_desktop_number
         else ret tt) ;;
        body
  else body.

(** Lines 259-262: [max] of an empty list raises [ValueError]. *)
Definition _get_max_desktop_number (objs : list XSessionConfigObject) : M Z :=
  match desktop_number <$> objs with
  | [] => raise ValueError
  | d :: ds => ret (foldl Z.max d ds + 1)
  end.

(** ** The session files *)

Definition path_exists (p : Path) : M bool := λ s,
  (s, Ok (bool_decide (is_Some (files s !! p)))).

Definition dir_exists (d : string) : M bool := λ s,
  (s, Ok (bool_decide (d ∈ dirs s))).

(** [Path.mkdir(parents=True, exist_ok=True)] *)
Definition mkdir (d : string) : M unit := λ s,
  (set_dirs ({[d]} ∪ dirs s) s, Ok tt).

(** [json.load(open(p, 'r'), ...)] *)
Definition read_session (p : Path) : M XSessionConfig := λ s,
  match files s !! p with
  | Some c => (s, Ok c)
  | None => (s, Raise (FileNotFoundError p.1 p.2))
  end.

(** Lines 115-121: [open(p, 'w')] needs the directory of [p]. *)
Definition write_session (p : Path) (c : XSessionConfig) : M unit := λ s,
  if bool_decide (p.1 ∈ dirs s) then (set_files (<[p := c]> (files s)) s, Ok tt)
  else (s, Raise (FileNotFoundError p.1 p.2)).

(** ** [restore_session] *)

(** Lines 141-143: a [dict] keyed by [pid].  A key keeps the place of its
    first insertion, and a later value replaces the earlier one. *)
Fixpoint dict_set {V} (d : list (pyval * V)) (k : pyval) (v : V)
  : list (pyval * V) :=
  match d with
  | [] => [(k, v)]
  | (k', v') :: d' =>
      if bool_decide (k' = k) then (k', v) :: d'
      else (k', v') :: dict_set d' k v
  end.

Definition session_details_dict (objs : list XSessionConfigObject)
  : list (pyval * XSessionConfigObject) :=
  foldl (λ d x_session_config, dict_set d (pid x_session_config) x_session_config)
        [] objs.

Definition remove_duplicates_according_to_pid
    (objs : list XSessionConfigObject) : list XSessionConfigObject :=
  (session_details_dict objs).*2.

(** Lines 155-171, after the pool is created. *)
Fixpoint restore_each (world : World) (restoring_interval : Q)
    (objs : list XSessionConfigObject) : M unit :=
  match objs with
  | [] => ret tt
  | namespace_obj :: rest =>
      print (Restoring_application (app_name namespace_obj)) ;;
      (if bool_decide (length (cmd namespace_obj) = 0%nat) then
         print (Failure_empty_commandline (app_name namespace_obj))
       else
         process_pid <- at_now world (λ env, run_cmd env (cmd namespace_obj)) ;;
         _move_window_async world namespace_obj process_pid ;;
         sleep restoring_interval) ;;
      restore_each world restoring_interval rest
  end.

Definition restore_sessions (world : World) (restoring_interval : Q)
    (objs : list XSessionConfigObject) : M unit :=
  emit PoolCreated ;;
  restore_each world restoring_interval objs.

(** Lines 123-176, in the child of [os.fork] (the parent only returns). *)
Definition restore_session (self : XSessionManager) (world : World)
    (name : string) (restoring_interval : Q) : M unit :=
  let session_path : Path := (base_location_of_sessions self, name) in
  found <- path_exists session_path ;;
  if negb found then
    raise (FileNotFoundError (base_location_of_sessions self) name)
  else
    print (Restoring_session_located (base_location_of_sessions self) name) ;;
    namespace_objs <- read_session session_path ;;
    let objs :=
      apply_session_filters (session_filters self)
        (remove_duplicates_according_to_pid
           (x_session_config_objects namespace_objs)) in
    if bool_decide (length objs = 0%nat) then
      print No_application_to_restore ;;
      print Done
    else
      max_desktop_number <- _get_max_desktop_number objs ;;
      at_now world (λ env,
        create_enough_workspaces env max_desktop_number
          (restore_sessions world restoring_interval objs)) ;;
      print Done.

(** ** [move_window] *)

(** Lines 236-257. *)
Definition move_window (self : XSessionManager) (world : World)
    (name : string) : M unit :=
  let session_path : Path := (base_location_of_sessions self, name) in
  found <- path_exists session_path ;;
  if negb found then
    raise (FileNotFoundError (base_location_of_sessions self) name)
  else
    namespace_objs <- read_session session_path ;;
    let objs :=
      apply_session_filters (session_filters self)
        (sort_by_desktop_number (x_session_config_objects namespace_objs)) in
    emit PoolCreated ;;
    max_desktop_number <- _get_max_desktop_number objs ;;
    at_now world (λ env,
      create_enough_workspaces env max_desktop_number
        (for_each objs
           (λ namespace_obj,
              at_now world (λ env', _move_window env' namespace_obj None false)))).

(** ** [save_session] and [backup_session] *)

(** [datetime.datetime.fromtimestamp(time())]: the next reading of the wall
    clock. *)
Definition read_time (env : Env) : M datetime := λ s,
  (set_time_calls (S (time_calls s)) s, Ok (time env (time_calls s))).

Definition digit (n : N) : Ascii.ascii := Ascii.ascii_of_N (48 + n).

(** A field of [strftime]: [n] in decimal on [width] digits, most
    significant first ([n < 10 ^ width] for the fields of a [datetime]). *)
Fixpoint zero_padded (width : nat) (n : N) : string :=
  match width with
  | O => EmptyString
  | S w =>
      String (digit (n / 10 ^ N.of_nat w))
             (zero_padded w (n mod 10 ^ N.of_nat w))
  end.

(** [strftime("%Y%m%d%H%M%S%f")] *)
Definition strftime_backup_id (t : datetime) : string :=
  zero_padded 4 (year t) +:+ zero_padded 2 (month t) +:+ zero_padded 2 (day t)
  +:+ zero_padded 2 (hour t) +:+ zero_padded 2 (minute t)
  +:+ zero_padded 2 (second t) +:+ zero_padded 6 (microsecond t).

(** [strftime("%Y-%m-%d %H:%M:%S.%f")] *)
Definition strftime_stamp (t : datetime) : string :=
  zero_padded 4 (year t) +:+ "-" +:+ zero_padded 2 (month t) +:+ "-"
  +:+ zero_padded 2 (day t) +:+ " " +:+ zero_padded 2 (hour t) +:+ ":"
  +:+ zero_padded 2 (minute t) +:+ ":" +:+ zero_padded 2 (second t) +:+ "."
  +:+ zero_padded 6 (microsecond t).

Definition set_backup_time (b : string) (c : XSessionConfig) : XSessionConfig :=
  {| session_name := session_name c;
     session_create_time := session_create_time c;
     backup_time := Some b;
     x_session_config_objects := x_session_config_objects c |}.

Definition backup_session_path (self : XSessionManager)
    (original_session_path : Path) (backup_time : datetime) : Path :=
  (base_location_of_backup_sessions self,
   original_session_path.2 +:+ ".backup-" +:+ strftime_backup_id backup_time).

(** Lines 99-113: the file is opened before the first line is printed, so
    that a missing file raises before anything is printed. *)
Definition backup_session (self : XSessionManager) (env : Env)
    (original_session_path : Path) : M unit :=
  backup_time <- read_time env ;;
  namespace_objs <- read_session original_session_path ;;
  print (Backing_up_session_located original_session_path.1
           original_session_path.2) ;;
  let backup_path := backup_session_path self original_session_path backup_time in
  parent <- dir_exists backup_path.1 ;;
  (if negb parent then mkdir backup_path.1 else ret tt) ;;
  print (Backup_the_old_session_file original_session_path.1
           original_session_path.2 backup_path.1 backup_path.2) ;;
  write_session backup_path
    (set_backup_time (strftime_stamp backup_time) namespace_objs).

(** Lines 76-86: the process of one window. *)
Definition with_process_info (env : Env) (sd : XSessionConfigObject)
  : M XSessionConfigObject :=
  match psutil_Process env (pid sd) with
  | Ok (name, cmdline, create_time) =>
      ret {| window_id := window_id sd;
             window_id_the_int_type := window_id_the_int_type sd;
             desktop_number := desktop_number sd;
             pid := pid sd;
             window_title := window_title sd;
             app_name := name;
             cmd := cmdline;
             process_create_time := Some create_time |}
  | Raise (NoSuchProcess _) =>
      print (Failed_to_get_process_info (window_title sd)) ;;
      ret {| window_id := window_id sd;
             window_id_the_int_type := window_id_the_int_type sd;
             desktop_number := desktop_number sd;
             pid := pid sd;
             window_title := window_title sd;
             app_name := "";
             cmd := [];
             process_create_time := None |}
  | Raise e => raise e
  end.

Fixpoint map_M {A B} (f : A → M B) (l : list A) : M (list B) :=
  match l with
  | [] => ret []
  | x :: l' => y <- f x ;; ys <- map_M f l' ;; ret (y :: ys)
  end.

(** Lines 61-97. *)
Definition get_session_details (env : Env) (remove_duplicates_by_pid : bool)
    (filters : option (list (option SessionFilter))) : M XSessionConfig :=
  let x_session_config :=
    convert_wmctl_result_2_list (running_windows env) remove_duplicates_by_pid in
  print Got_the_process_list_according_to_wmctl ;;
  objs <- map_M (with_process_info env)
            (x_session_config_objects x_session_config) ;;
  print Complete_the_process_list_according_to_psutil ;;
  ret {| session_name := session_name x_session_config;
         session_create_time := session_create_time x_session_config;
         backup_time := backup_time x_session_config;
         x_session_config_objects := apply_session_filters filters objs |}.

(** Lines 39-59.  The session name is a plain file name, so that the parent
    of the session path is [base_location_of_sessions]. *)
Definition save_session (self : XSessionManager) (env : Env) (name : string)
    (session_filter : option SessionFilter) : M unit :=
  x_session_config <- get_session_details env false (Some [session_filter]) ;;
  let session_path : Path := (base_location_of_sessions self, name) in
  print (Saving_the_session_to session_path.1 session_path.2) ;;
  parent <- dir_exists session_path.1 ;;
  (if negb parent then mkdir session_path.1
   else
     found <- path_exists session_path ;;
     if found then backup_session self env session_path else ret tt) ;;
  now <- read_time env ;;
  print Saving_the_new_json_format_x_session ;;
  write_session session_path
    {| session_name := name;
       session_create_time := Some (strftime_stamp now);
       backup_time := backup_time x_session_config;
       x_session_config_objects := x_session_config_objects x_session_config |} ;;
  print Done.

(** The state of a fresh [XSessionManager] ([__init__], line 37) in a given
    outside. *)
Definition initial_state (dynamic : bool) (number : Z) (d : gset string)
    (f : gmap Path XSessionConfig) : State :=
  {| _moved_windowids_cache := [];
     clock := 0;
     dynamic_workspaces := dynamic;
     workspaces_number := number;
     dirs := d;
     files := f;
     time_calls := 0;
     trace := [] |}.

(** * Properties *)

(** ** Deduplication by process id on restore *)

Section dedup.

Implicit Types (objs : list XSessionConfigObject) (x y : XSessionConfigObject).
Implicit Types (d : list (pyval * XSessionConfigObject)) (k : pyval).

(** [x] is the last record of [objs] with its process id. *)
Definition last_with_its_pid objs x : Prop :=
  ∃ l1 l2, objs = l1 ++ x :: l2 ∧ pid x ∉ pid <$> l2.

(** [x] is the first record of [objs] with its process id. *)
Definition first_with_its_pid objs x : Prop :=
  ∃ l1 l2, objs = l1 ++ x :: l2 ∧ pid x ∉ pid <$> l1.

(** The keys in the order of their first occurrence. *)
Definition in_order_of_first_occurrence (ks : list pyval) : list pyval :=
  reverse (remove_dups (reverse ks)).

Lemma dict_set_keys d k x :
  (dict_set d k x).*1 = if bool_decide (k ∈ d.*1) then d.*1 else d.*1 ++ [k].
Proof.
  induction d as [|[k' v'] d IH].
  - rewrite bool_decide_eq_false_2; [done | apply not_elem_of_nil].
  - cbn [dict_set]. rewrite fmap_cons. cbn [fst].
    destruct (decide (k' = k)) as [->|Hk].
    + rewrite !bool_decide_eq_true_2; [done | left | done].
    + rewrite (bool_decide_eq_false_2 (k' = k)) by done.
      rewrite fmap_cons, IH. cbn [fst].
      destruct (decide (k ∈ d.*1)) as [Hin|Hin].
      * rewrite !bool_decide_eq_true_2; [done | by right | done].
      * rewrite !bool_decide_eq_false_2; [done | | done].
        rewrite elem_of_cons. naive_solver.
Qed.

Lemma elem_of_dict_set d k x k' x' :
  NoDup d.*1 →
  (k', x') ∈ dict_set d k x ↔ (k' = k ∧ x' = x) ∨ (k' ≠ k ∧ (k', x') ∈ d).
Proof.
  induction d as [|[k0 v0] d IH]; simpl; intros Hnd.
  - rewrite list_elem_of_singleton, elem_of_nil. naive_solver.
  - apply NoDup_cons in Hnd as [Hk0 Hnd]. case_bool_decide as Hk.
    + subst k0. rewrite !elem_of_cons. split.
      * intros [[= -> ->] | Hin]; [by left |]. right. split; [| by right].
        intros ->. apply Hk0. change k with ((k, x').1).
        by apply list_elem_of_fmap_2.
      * intros [[-> ->] | [Hne [[= ? ?] | Hin]]]; [by left | done | by right].
    + rewrite !elem_of_cons, IH by done. split.
      * intros [[= -> ->] | [[-> ->] | [Hne Hin]]]; naive_solver.
      * intros [[-> ->] | [Hne [[= -> ->] | Hin]]]; naive_solver.
Qed.

Lemma session_details_dict_snoc objs y :
  session_details_dict (objs ++ [y])
  = dict_set (session_details_dict objs) (pid y) y.
Proof. unfold session_details_dict. by rewrite foldl_app. Qed.

Lemma session_details_dict_keys objs :
  (session_details_dict objs).*1 = in_order_of_first_occurrence (pid <$> objs).
Proof.
  unfold in_order_of_first_occurrence.
  induction objs as [|y objs IH] using rev_ind; [done |].
  rewrite session_details_dict_snoc, dict_set_keys, IH, fmap_app. simpl.
  rewrite reverse_app. simpl.
  assert (pid y ∈ reverse (remove_dups (reverse (pid <$> objs)))
          ↔ pid y ∈ reverse (pid <$> objs)) as Hiff.
  { by rewrite elem_of_reverse, elem_of_remove_dups. }
  destruct (decide_rel elem_of (pid y) (reverse (pid <$> objs))) as [Hin|Hin].
  - rewrite bool_decide_eq_true_2; tauto.
  - rewrite bool_decide_eq_false_2 by tauto. by rewrite reverse_cons.
Qed.

Lemma session_details_dict_NoDup objs : NoDup (session_details_dict objs).*1.
Proof.
  rewrite session_details_dict_keys. unfold in_order_of_first_occurrence.
  rewrite reverse_Permutation. apply NoDup_remove_dups.
Qed.

Lemma elem_of_session_details_dict objs k x :
  (k, x) ∈ session_details_dict objs ↔ pid x = k ∧ last_with_its_pid objs x.
Proof.
  revert k x. induction objs as [|y objs IH] using rev_ind; intros k x.
  - split; [by intros ?%elem_of_nil |].
    intros (_ & l1 & l2 & Heq & _). by destruct l1.
  - rewrite session_details_dict_snoc,
      elem_of_dict_set by apply session_details_dict_NoDup.
    rewrite IH. split.
    + intros [[-> ->] | (Hne & <- & l1 & l2 & -> & Hnin)].
      * split; [done |]. exists objs, []. split; [done | apply not_elem_of_nil].
      * split; [done |]. exists l1, (l2 ++ [y]). split.
        { by rewrite <- app_assoc. }
        rewrite fmap_app, elem_of_app. simpl. rewrite list_elem_of_singleton.
        naive_solver.
    + intros (<- & l1 & l2 & Heq & Hnin).
      destruct l2 as [|z l2 _] using rev_ind.
      * apply app_inj_tail in Heq as [-> ->]. by left.
      * rewrite app_comm_cons, app_assoc in Heq.
        apply app_inj_tail in Heq as [-> ->].
        rewrite fmap_app, elem_of_app in Hnin. simpl in Hnin.
        rewrite list_elem_of_singleton in Hnin.
        right. split; [naive_solver |]. split; [done |].
        exists l1, l2. naive_solver.
Qed.

Lemma kept_pids objs :
  pid <$> remove_duplicates_according_to_pid objs
  = in_order_of_first_occurrence (pid <$> objs).
Proof.
  rewrite <- session_details_dict_keys.
  unfold remove_duplicates_according_to_pid.
  assert (∀ kx, kx ∈ session_details_dict objs → pid kx.2 = kx.1) as Hk.
  { intros [k x] Hin. by apply elem_of_session_details_dict in Hin as [? _]. }
  induction (session_details_dict objs) as [|[k x] d IH]; [done |]. simpl.
  f_equal.
  - apply (Hk (k, x)). left.
  - apply IH. intros kx Hin. apply Hk. by right.
Qed.

Lemma elem_of_kept objs x :
  x ∈ remove_duplicates_according_to_pid objs ↔ last_with_its_pid objs x.
Proof.
  unfold remove_duplicates_according_to_pid. rewrite list_elem_of_fmap. split.
  - intros ([k y] & -> & Hin). by apply elem_of_session_details_dict in Hin as [_ ?].
  - intros Hl. exists (pid x, x). split; [done |].
    by apply elem_of_session_details_dict.
Qed.

End dedup.

(** ** Reasoning about computations *)

Section computations.

Context {A : Type}.

(** [c] keeps the invariant [I], however it ends. *)
Definition preserves (I : State → Prop) (c : M A) : Prop :=
  ∀ s, I s → I (c s).1.

End computations.

Lemma bind_Ok {A B} (c : M A) (k : A → M B) s s' a :
  c s = (s', Ok a) → bind c k s = k a s'.
Proof. unfold bind. by intros ->. Qed.

Lemma bind_Raise {A B} (c : M A) (k : A → M B) s s' e :
  c s = (s', Raise e) → bind c k s = (s', Raise e).
Proof. unfold bind. by intros ->. Qed.

Lemma preserves_ret {A} I (a : A) : preserves I (ret a).
Proof. by intros s. Qed.

Lemma preserves_raise {A} I e : preserves I (@raise A e).
Proof. by intros s. Qed.

Lemma preserves_bind {A B} I (c : M A) (k : A → M B) :
  preserves I c → (∀ a, preserves I (k a)) → preserves I (bind c k).
Proof.
  intros Hc Hk s Hs. unfold bind. specialize (Hc s Hs).
  destruct (c s) as [s' [a|e]]; simpl in *; [by apply Hk | done].
Qed.

Lemma preserves_try_except {A} I (c : M A) h :
  preserves I c → (∀ e, preserves I (h e)) → preserves I (try_except c h).
Proof.
  intros Hc Hh s Hs. unfold try_except. specialize (Hc s Hs).
  destruct (c s) as [s' [a|e]]; simpl in *; [done | by apply Hh].
Qed.

Lemma preserves_try_finally {A} I (c : M A) f :
  preserves I c → preserves I f → preserves I (try_finally c f).
Proof.
  intros Hc Hf s Hs. unfold try_finally. specialize (Hc s Hs).
  destruct (c s) as [s' r]; simpl in *. specialize (Hf s' Hc).
  by destruct (f s') as [s'' [[]|e]].
Qed.

Lemma preserves_for_each {A} I (l : list A) f :
  (∀ x, preserves I (f x)) → preserves I (for_each l f).
Proof.
  intros Hf. induction l as [|x l IH]; simpl.
  - apply preserves_ret.
  - apply preserves_bind; [apply Hf | done].
Qed.

Lemma preserves_at_now {A} I world (f : Env → M A) :
  (∀ env, preserves I (f env)) → preserves I (at_now world f).
Proof. intros Hf s. apply Hf. Qed.

Lemma preserves_if {A} I (b : bool) (c1 c2 : M A) :
  preserves I c1 → preserves I c2 → preserves I (if b then c1 else c2).
Proof. by destruct b. Qed.

(** The state after a pause of [d], when [d] is not negative. *)
Definition slept (d : Q) (s : State) : State :=
  set_trace (trace s ++ [Sleep d]) (set_clock (clock s + d)%Q s).

Lemma sleep_Ok d s : (0 <= d)%Q → sleep d s = (slept d s, Ok tt).
Proof. intros Hd. unfold sleep. by rewrite (proj2 (Qle_bool_iff 0 d) Hd). Qed.

Lemma sleep_negative d s : (d < 0)%Q → sleep d s = (s, Raise ValueError).
Proof.
  intros Hd. unfold sleep. destruct (Qle_bool 0 d) eqn:Hle; [| done].
  apply Qle_bool_iff in Hle. by apply Qle_not_lt in Hle.
Qed.

Lemma preserves_sleep I d :
  (∀ s, I s → I (slept d s)) → preserves I (sleep d).
Proof.
  intros HI s Hs. unfold sleep. destruct (Qle_bool 0 d); [by apply HI | done].
Qed.

Lemma preserves_run_cmd I env c :
  preserves I (emit (RunCmd c (run_cmd_pid env c))) →
  preserves I (run_cmd env c).
Proof.
  intros HI. unfold run_cmd. apply preserves_bind; [done |]. intros _.
  destruct (run_cmd_pid env c); [apply preserves_ret | apply preserves_raise].
Qed.

(** The handles for which a move command was issued, in order. *)
Fixpoint moved_handles (t : list event) : list string :=
  match t with
  | [] => []
  | MoveWindowTo wid _ :: t' => wid :: moved_handles t'
  | _ :: t' => moved_handles t'
  end.

(** The command lines that were given to [run_cmd], in order. *)
Fixpoint launched (t : list event) : list (list string) :=
  match t with
  | [] => []
  | RunCmd c _ :: t' => c :: launched t'
  | _ :: t' => launched t'
  end.

(** The requests to the workspace settings, in order. *)
Fixpoint workspace_requests (t : list event) : list event :=
  match t with
  | [] => []
  | DisableDynamicWorkspaces :: t' =>
      DisableDynamicWorkspaces :: workspace_requests t'
  | EnableDynamicWorkspaces :: t' =>
      EnableDynamicWorkspaces :: workspace_requests t'
  | SetWorkspacesNumber n :: t' => SetWorkspacesNumber n :: workspace_requests t'
  | _ :: t' => workspace_requests t'
  end.

(** The command lines that [run_cmd] started, in order. *)
Fixpoint started (t : list event) : list (list string) :=
  match t with
  | [] => []
  | RunCmd c (Ok _) :: t' => c :: started t'
  | _ :: t' => started t'
  end.

Lemma moved_handles_app t1 t2 :
  moved_handles (t1 ++ t2) = moved_handles t1 ++ moved_handles t2.
Proof.
  induction t1 as [|[] t1 IH]; simpl; try done. by rewrite IH.
Qed.

Lemma launched_app t1 t2 : launched (t1 ++ t2) = launched t1 ++ launched t2.
Proof.
  induction t1 as [|[] t1 IH]; simpl; try done. by rewrite IH.
Qed.

Lemma started_app t1 t2 : started (t1 ++ t2) = started t1 ++ started t2.
Proof.
  induction t1 as [|[| |c []| | | | |] t1 IH]; simpl; try done. by rewrite IH.
Qed.

Lemma workspace_requests_app t1 t2 :
  workspace_requests (t1 ++ t2) = workspace_requests t1 ++ workspace_requests t2.
Proof.
  induction t1 as [|[] t1 IH]; simpl; try done; by rewrite IH.
Qed.

(** ** The scan of the running windows *)

Section scan.

Variables (namespace_obj : XSessionConfigObject) (pids : list pyval).

Lemma scan_from st ws :
  foldl (scan_step namespace_obj pids) st ws
  = {| no_need_to_move :=
         no_need_to_move st
         && forallb (λ w, contains (pid w) pids
                          && negb (needs_move namespace_obj pids w)) ws;
       moving_windows :=
         moving_windows st ++ List.filter (needs_move namespace_obj pids) ws |}.
Proof.
  revert st. induction ws as [|w ws IH]; intros [flag moving]; simpl.
  - by rewrite andb_true_r, app_nil_r.
  - rewrite IH. unfold scan_step, needs_move. simpl.
    destruct (contains (pid w) pids); simpl.
    + destruct (bool_decide (window_title w = window_title namespace_obj)
                && negb (bool_decide (desktop_number w
                                      = desktop_number namespace_obj)));
        simpl.
      * f_equal; [by rewrite andb_false_r | by rewrite <- app_assoc].
      * done.
    + f_equal. by rewrite andb_false_r.
Qed.

Lemma scan_windows_moving ws :
  moving_windows (scan_windows namespace_obj pids ws)
  = List.filter (needs_move namespace_obj pids) ws.
Proof. unfold scan_windows. by rewrite scan_from. Qed.

Lemma scan_windows_flag ws :
  no_need_to_move (scan_windows namespace_obj pids ws)
  = forallb (λ w, contains (pid w) pids
                  && negb (needs_move namespace_obj pids w)) ws.
Proof. unfold scan_windows. by rewrite scan_from. Qed.

(** Whenever a window is appended the flag is cleared. *)
Lemma scan_windows_flag_moving ws :
  no_need_to_move (scan_windows namespace_obj pids ws) = true →
  moving_windows (scan_windows namespace_obj pids ws) = [].
Proof.
  rewrite scan_windows_flag, scan_windows_moving.
  induction ws as [|w ws IH]; simpl; [done |].
  intros [[_ Hw%negb_true_iff]%andb_true_iff Hws]%andb_true_iff.
  rewrite Hw. by apply IH.
Qed.

End scan.

Lemma insert_by_desktop_Permutation x l : insert_by_desktop x l ≡ₚ x :: l.
Proof.
  induction l as [|y l IH]; simpl; [done |].
  case_bool_decide; [done |]. rewrite IH. apply Permutation_swap.
Qed.

Lemma sort_by_desktop_number_Permutation l : sort_by_desktop_number l ≡ₚ l.
Proof.
  induction l as [|x l IH]; simpl; [done |].
  by rewrite insert_by_desktop_Permutation, IH.
Qed.

Lemma elem_of_sort_by_desktop_number l x :
  x ∈ sort_by_desktop_number l ↔ x ∈ l.
Proof. by rewrite sort_by_desktop_number_Permutation. Qed.

(** ** One attempt to move the windows of a record *)

Section one_attempt.

Implicit Types (env : Env) (s : State) (w obj : XSessionConfigObject).

(** The windows that an attempt looks at, in the order of the loop. *)
Definition snapshot env : list XSessionConfigObject :=
  sort_by_desktop_number
    (x_session_config_objects
       (convert_wmctl_result_2_list (running_windows env) false)).

Lemma elem_of_snapshot env w : w ∈ snapshot env ↔ w ∈ running_windows env.
Proof. apply elem_of_sort_by_desktop_number. Qed.

Lemma move_one_cached desktop w s :
  window_id w ∈ _moved_windowids_cache s → move_one desktop w s = (s, Ok tt).
Proof. intros Hin. unfold move_one. by rewrite bool_decide_eq_true_2. Qed.

Lemma move_one_fresh desktop w s :
  window_id w ∉ _moved_windowids_cache s →
  move_one desktop w s
  = ({| _moved_windowids_cache := _moved_windowids_cache s ++ [window_id w];
        clock := (clock s + (1 # 4))%Q;
        dynamic_workspaces := dynamic_workspaces s;
        workspaces_number := workspaces_number s;
        dirs := dirs s;
        files := files s;
        time_calls := time_calls s;
        trace := trace s
                 ++ [Log (Moving_window_to_desktop (window_title w) desktop);
                     MoveWindowTo (window_id w) desktop;
                     Sleep (1 # 4)] |}, Ok tt).
Proof.
  intros Hin. unfold move_one. rewrite bool_decide_eq_false_2 by done.
  unfold bind, print, move_window_to, emit, record_moved, sleep,
    set_trace, set_cache, set_clock. simpl.
  by rewrite <- !app_assoc.
Qed.

Lemma move_one_Ok desktop w s : (move_one desktop w s).2 = Ok tt.
Proof.
  destruct (decide (window_id w ∈ _moved_windowids_cache s)).
  - by rewrite move_one_cached.
  - by rewrite move_one_fresh.
Qed.

Lemma for_each_move_one_Ok desktop ws s :
  (for_each ws (move_one desktop) s).2 = Ok tt.
Proof.
  revert s. induction ws as [|w ws IH]; intros s; simpl; [done |].
  unfold bind. pose proof (move_one_Ok desktop w s) as Hw.
  destruct (move_one desktop w s) as [s' r]. simpl in Hw. subst r. apply IH.
Qed.

(** The handles moved by the loop of lines 321-329 belong to
    [moving_windows]. *)
Lemma for_each_move_one_handles desktop ws s :
  ∃ hs, moved_handles (trace (for_each ws (move_one desktop) s).1)
        = moved_handles (trace s) ++ hs
        ∧ hs ⊆ window_id <$> ws.
Proof.
  revert s. induction ws as [|w ws IH]; intros s; simpl.
  - exists []. by rewrite app_nil_r.
  - unfold bind. pose proof (move_one_Ok desktop w s) as Hw.
    destruct (decide (window_id w ∈ _moved_windowids_cache s)) as [Hin|Hin].
    + rewrite move_one_cached by done.
      destruct (IH s) as (hs & -> & Hsub). exists hs. split; [done |].
      intros h Hh. right. by apply Hsub.
    + rewrite move_one_fresh by done.
      match goal with |- context [for_each ws _ ?s1] =>
        destruct (IH s1) as (hs & -> & Hsub) end.
      exists (window_id w :: hs). split.
      * simpl. rewrite moved_handles_app. simpl. by rewrite <- app_assoc.
      * intros h [->|Hh]%elem_of_cons; [left | right; by apply Hsub].
Qed.

(** Every window of the loop is moved now or was moved before: its
    handle is in the cache afterwards. *)
Lemma for_each_move_one_cache desktop ws s :
  (∀ h, h ∈ _moved_windowids_cache s →
        h ∈ _moved_windowids_cache (for_each ws (move_one desktop) s).1)
  ∧ (∀ w, w ∈ ws →
          window_id w ∈ _moved_windowids_cache
                           (for_each ws (move_one desktop) s).1).
Proof.
  revert s. induction ws as [|w ws IH]; intros s; simpl.
  - split; [done | by intros w ?%elem_of_nil].
  - unfold bind.
    destruct (decide (window_id w ∈ _moved_windowids_cache s)) as [Hin|Hin].
    + rewrite move_one_cached by done. destruct (IH s) as [Hmono Hws].
      split; [done |]. intros w' [->|Hw']%elem_of_cons; auto.
    + rewrite move_one_fresh by done.
      match goal with |- context [for_each ws _ ?s1] =>
        destruct (IH s1) as [Hmono Hws] end.
      simpl in Hmono. split.
      * intros h Hh. apply Hmono, elem_of_app. by left.
      * intros w' [->|Hw']%elem_of_cons; [| by apply Hws].
        apply Hmono, elem_of_app. right. left.
Qed.

(** What [place_windows] does, by cases on the scan. *)
Lemma place_windows_needs_retry env obj pids s :
  List.filter (needs_move obj pids) (snapshot env) = [] →
  place_windows env obj pids true s = (s, Raise (NeedRetryException obj)).
Proof.
  intros Hnone. unfold place_windows. fold (snapshot env).
  by rewrite scan_windows_moving, Hnone.
Qed.

Lemma place_windows_moves env obj pids need_retry s :
  List.filter (needs_move obj pids) (snapshot env) ≠ [] →
  place_windows env obj pids need_retry s
  = for_each (List.filter (needs_move obj pids) (snapshot env))
      (move_one (desktop_number obj)) s.
Proof.
  intros Hsome. unfold place_windows. fold (snapshot env).
  destruct (no_need_to_move (scan_windows obj pids (snapshot env))) eqn:Hflag.
  { by apply scan_windows_flag_moving in Hflag; rewrite scan_windows_moving in Hflag. }
  rewrite scan_windows_moving.
  rewrite bool_decide_eq_false_2, andb_false_r; [done |].
  by destruct (List.filter _ _).
Qed.

Lemma place_windows_no_retry_nothing env obj pids s :
  List.filter (needs_move obj pids) (snapshot env) = [] →
  place_windows env obj pids false s = (s, Ok tt).
Proof.
  intros Hnone. unfold place_windows. fold (snapshot env).
  rewrite scan_windows_moving, Hnone. simpl.
  by destruct (no_need_to_move _).
Qed.

Lemma place_windows_result env obj pids need_retry s :
  (place_windows env obj pids need_retry s).2 = Ok tt
  ∨ (place_windows env obj pids need_retry s).2
    = Raise (NeedRetryException obj) ∧ need_retry = true.
Proof.
  destruct (decide (List.filter (needs_move obj pids) (snapshot env) = []))
    as [Hnone|Hsome].
  - destruct need_retry.
    + rewrite place_windows_needs_retry by done. by right.
    + rewrite place_windows_no_retry_nothing by done. by left.
  - rewrite place_windows_moves by done. left. apply for_each_move_one_Ok.
Qed.

Lemma _move_window_body_result env obj pid need_retry s e :
  (_move_window_body env obj pid need_retry s).2 = Raise e →
  e = NeedRetryException obj ∧ need_retry = true
  ∨ ∃ p, pid = Some p ∧ children env p = None ∧ e = NoSuchProcess p.
Proof.
  unfold _move_window_body, bind.
  destruct pid as [p|]; simpl.
  - destruct (negb (p =? 0)); simpl.
    + unfold launched_pids. destruct (children env p) as [cs|] eqn:Hc; simpl.
      * rewrite bool_decide_eq_false_2
          by (rewrite length_app; simpl; lia).
        intros He. destruct (place_windows_result env obj
          (((λ c, str (PInt c)) <$> cs) ++ [str (PInt p)]) need_retry s)
          as [HOk | [HR ?]]; [congruence |].
        left. split; [congruence | done].
      * intros [= <-]. right. by exists p.
    + destruct (bool_decide (length (cmd obj) ≤ 0)%nat); [done |].
      intros He. destruct (place_windows_result env obj
          (pids_by_cmdline (process_iter env) (cmd obj)) need_retry s)
          as [HOk | [HR ?]]; [congruence |].
      left. split; [congruence | done].
  - destruct (bool_decide (length (cmd obj) ≤ 0)%nat); [done |].
    intros He. destruct (place_windows_result env obj
        (pids_by_cmdline (process_iter env) (cmd obj)) need_retry s)
        as [HOk | [HR ?]]; [congruence |].
    left. split; [congruence | done].
Qed.

(** Only [NeedRetryException] leaves [_move_window], and only when a
    retry was asked for. *)
Lemma _move_window_result env obj pid need_retry s :
  (_move_window env obj pid need_retry s).2 = Ok tt
  ∨ (_move_window env obj pid need_retry s).2
    = Raise (NeedRetryException obj) ∧ need_retry = true.
Proof.
  unfold _move_window, try_except.
  pose proof (_move_window_body_result env obj pid need_retry s) as Hb.
  destruct (_move_window_body env obj pid need_retry s) as [s' [[]|e]];
    simpl in *; [by left |].
  destruct (Hb e eq_refl) as [[-> ->] | (p & _ & _ & ->)]; simpl; auto.
Qed.

End one_attempt.

(** ** Which windows an attempt marks *)

Section marking.

Implicit Types (env : Env) (s : State) (w obj : XSessionConfigObject).

(** The candidate process ids of lines 282-284. *)
Definition candidates_of_launch (cs : list Z) (p : Z) : list pyval :=
  ((λ c, str (PInt c)) <$> cs) ++ [str (PInt p)].

Lemma elem_of_candidates_of_launch cs p v :
  v ∈ candidates_of_launch cs p ↔ ∃ c, c ∈ p :: cs ∧ v = PStr (pretty c).
Proof.
  unfold candidates_of_launch.
  rewrite elem_of_app, list_elem_of_fmap, list_elem_of_singleton. split.
  - intros [(c & -> & Hc) | ->]; [exists c | exists p];
      (split; [| done]); [by right | left].
  - intros (c & [->|Hc]%elem_of_cons & ->); [by right | left; by exists c].
Qed.

(** A window whose [pid] is the text of a process id is matched by the
    text of the launched process id and of its children. *)
Lemma text_pid_in_candidates cs p t :
  contains (PStr t) (candidates_of_launch cs p) = true
  ↔ ∃ c, c ∈ p :: cs ∧ t = pretty c.
Proof.
  unfold contains. rewrite bool_decide_eq_true, elem_of_candidates_of_launch.
  split; intros (c & Hc & Heq); exists c; (split; [done |]); congruence.
Qed.

(** A window whose [pid] is an [int] is matched by none of them. *)
Lemma int_pid_not_in_candidates cs p z :
  contains (PInt z) (candidates_of_launch cs p) = false.
Proof.
  unfold contains. apply bool_decide_eq_false.
  rewrite elem_of_candidates_of_launch. by intros (c & _ & ?).
Qed.

Lemma int_pid_never_needs_move obj cs p w z :
  pid w = PInt z → needs_move obj (candidates_of_launch cs p) w = false.
Proof.
  intros Hz. unfold needs_move. by rewrite Hz, int_pid_not_in_candidates.
Qed.

(** The session can only be captured when the process ids of the running
    windows are [int]s: [psutil.Process] takes nothing else. *)
Lemma map_M_with_process_info_Ok env ws s s' out :
  map_M (with_process_info env) ws s = (s', Ok out) →
  Forall (λ w, ∃ z, pid w = PInt z) ws.
Proof.
  revert s s' out. induction ws as [|w ws IH]; intros s s' out; [by constructor |].
  simpl. unfold bind at 1.
  destruct (with_process_info env w s) as [s1 [w1|e]] eqn:Hw; [| done].
  unfold bind at 1.
  destruct (map_M (with_process_info env) ws s1) as [s2 [ws1|e]] eqn:Hws;
    [| done].
  intros _. constructor; [| by eapply IH].
  unfold with_process_info, psutil_Process in Hw.
  destruct (pid w) as [z|t]; [by exists z | done].
Qed.

Lemma capture_needs_int_pids env filters s s' config :
  get_session_details env false filters s = (s', Ok config) →
  Forall (λ w, ∃ z, pid w = PInt z) (running_windows env).
Proof.
  unfold get_session_details. unfold bind at 1. simpl.
  unfold bind at 1.
  destruct (map_M _ _ _) as [s1 [out|e]] eqn:Hmap; [| done].
  intros _. by eapply map_M_with_process_info_Ok.
Qed.

(** With the process ids of a capture, an attempt that is given the
    launched process id marks no window at all. *)
Lemma launched_pid_marks_nothing env obj filters cs p s s' config :
  get_session_details env false filters s = (s', Ok config) →
  List.filter (needs_move obj (candidates_of_launch cs p)) (snapshot env) = [].
Proof.
  intros Hcap%capture_needs_int_pids.
  assert (Forall (λ w, ∃ z, pid w = PInt z) (snapshot env)) as Hs.
  { apply Forall_forall. intros w Hw%elem_of_snapshot.
    by apply (proj1 (Forall_forall _ _) Hcap). }
  induction Hs as [|w ws [z Hz] _ IH]; simpl; [done |].
  by rewrite (int_pid_never_needs_move _ _ _ _ z).
Qed.

End marking.

(** ** A relaunched editor *)

(** The record of an editor window saved on desktop 1. *)
Definition editor_record : XSessionConfigObject :=
  {| window_id := "0x02a00003"; window_id_the_int_type := 44040195;
     desktop_number := 1; pid := PInt 900;
     window_title := "notes.txt - Editor"; app_name := "editor";
     cmd := ["editor"; "notes.txt"];
     process_create_time := Some "2020-05-01 10:00:00" |}.

(** Its window after the relaunch as process 1200, on desktop 0. *)
Definition editor_window : XSessionConfigObject :=
  {| window_id := "0x04600003"; window_id_the_int_type := 73400323;
     desktop_number := 0; pid := PInt 1200;
     window_title := "notes.txt - Editor"; app_name := ""; cmd := [];
     process_create_time := None |}.

(** Another window of the same process. *)
Definition editor_preferences : XSessionConfigObject :=
  {| window_id := "0x04600009"; window_id_the_int_type := 73400329;
     desktop_number := 0; pid := PInt 1200;
     window_title := "Preferences"; app_name := ""; cmd := [];
     process_create_time := None |}.

Definition noon : datetime :=
  {| year := 2020; month := 5; day := 1;
     hour := 12; minute := 0; second := 0; microsecond := 0 |}.

Definition desk (windows : list XSessionConfigObject) : Env :=
  {| running_windows := windows;
     children := λ p, if p =? 1200 then Some [] else None;
     process_iter := [(1, ["init"]); (1200, ["editor"; "notes.txt"])];
     process_info := λ p,
       if p =? 1200
       then Some ("editor", ["editor"; "notes.txt"], "2020-05-01 11:59:58")
       else None;
     run_cmd_pid := λ _, Ok 1200;
     is_gnome := false;
     get_workspace_count := 2;
     time := λ _, noon |}.

Definition fresh : State := initial_state true 2 ∅ ∅.

Definition manager : XSessionManager :=
  {| session_filters := None;
     base_location_of_sessions := "/home/user/.config/xsession-manager/sessions";
     base_location_of_backup_sessions :=
       "/home/user/.config/xsession-manager/sessions.backups" |}.

(** C1: the attempt that is given the launched process id compares the
    [int] process id of each running window with the texts of the candidate
    process ids, so that the window of the launched process itself, with the
    title of the record and on another desktop, is not marked: the attempt
    asks for a retry, and the six attempts of the task move nothing.  The
    same window is found when no process id is given (lines 292-298 collect
    [int]s), and the capture of the same desktop succeeds. *)
Theorem launched_pid_window_is_not_marked :
  pid editor_window = PInt 1200
  ∧ window_title editor_window = window_title editor_record
  ∧ desktop_number editor_window ≠ desktop_number editor_record
  ∧ launched_pids (desk [editor_window]) 1200 fresh = (fresh, Ok [PStr "1200"])
  ∧ List.filter (needs_move editor_record [PStr "1200"])
      (snapshot (desk [editor_window])) = []
  ∧ _move_window (desk [editor_window]) editor_record (Some 1200) true fresh
    = (fresh, Raise (NeedRetryException editor_record))
  ∧ moved_handles
      (trace (_move_window_async (λ _, desk [editor_window])
                editor_record 1200 fresh).1) = []
  ∧ moved_handles
      (trace (_move_window (desk [editor_window]) editor_record None true
                fresh).1) = ["0x04600003"]
  ∧ (get_session_details (desk [editor_window]) false None fresh).2
    = Ok {| session_name := ""; session_create_time := None;
            backup_time := None;
            x_session_config_objects :=
              [ {| window_id := "0x04600003"; window_id_the_int_type := 73400323;
                   desktop_number := 0; pid := PInt 1200;
                   window_title := "notes.txt - Editor"; app_name := "editor";
                   cmd := ["editor"; "notes.txt"];
                   process_create_time := Some "2020-05-01 11:59:58" |} ] |}.
Proof. repeat split; try done; by vm_compute. Qed.

(** ** Windows of a candidate process with another title *)

Section title_mismatch.

Implicit Types (env : Env) (s : State) (w obj : XSessionConfigObject).

(** The reading of C2: a window of a candidate process whose title is not
    the title of the record clears [no_need_to_move]. *)
Definition title_mismatch_clears_flag obj (pids : list pyval)
    (ws : list XSessionConfigObject) : Prop :=
  ∀ w, w ∈ ws → contains (pid w) pids = true →
       window_title w ≠ window_title obj →
       no_need_to_move (scan_windows obj pids ws) = false.

(** C2, as stated, fails: the only running window belongs to the candidate
    process and has another title; the loop leaves [no_need_to_move] set,
    and [move_window] (no retry) returns without doing anything. *)
Lemma title_mismatch_does_not_clear_flag :
  pids_by_cmdline (process_iter (desk [editor_preferences])) (cmd editor_record)
  = [PInt 1200]
  ∧ no_need_to_move
      (scan_windows editor_record [PInt 1200]
         (snapshot (desk [editor_preferences]))) = true
  ∧ ¬ title_mismatch_clears_flag editor_record [PInt 1200]
        (snapshot (desk [editor_preferences]))
  ∧ _move_window (desk [editor_preferences]) editor_record None false fresh
    = (fresh, Ok tt).
Proof.
  split; [reflexivity |]. split; [reflexivity |]. split; [| reflexivity].
  intros Hc. specialize (Hc editor_preferences).
  assert (true = false) as Habs; [| done].
  apply Hc; [vm_compute; left | reflexivity | discriminate].
Qed.

Lemma scan_step_title_mismatch obj pids st w :
  contains (pid w) pids = true → window_title w ≠ window_title obj →
  scan_step obj pids st w = st.
Proof.
  intros Hin Hne. unfold scan_step. rewrite Hin.
  by rewrite (bool_decide_eq_false_2 (window_title w = window_title obj)).
Qed.

Lemma elem_of_moving obj pids ws w :
  w ∈ moving_windows (scan_windows obj pids ws)
  ↔ w ∈ ws ∧ needs_move obj pids w = true.
Proof.
  rewrite scan_windows_moving, list_elem_of_In, filter_In.
  by rewrite <- list_elem_of_In.
Qed.

Lemma no_need_to_move_iff obj pids ws :
  no_need_to_move (scan_windows obj pids ws) = true
  ↔ ∀ w, w ∈ ws → contains (pid w) pids = true ∧ needs_move obj pids w = false.
Proof.
  rewrite scan_windows_flag, forallb_forall. split.
  - intros H w Hw%list_elem_of_In. apply H in Hw.
    by apply andb_true_iff in Hw as [? ?%negb_true_iff].
  - intros H w Hw%list_elem_of_In. destruct (H w Hw) as [-> ->]. done.
Qed.

(** C2, as amended: a running window of a candidate process whose title
    is not the title of the record is never moved and leaves the state of
    the loop as it is; [no_need_to_move] stays set exactly when every
    running window belongs to a candidate process and none is marked (it
    is cleared by a marked window and by a window of no candidate
    process); and when a retry is asked for, the attempt raises
    [NeedRetryException] exactly when no window is marked, whatever the
    flag. *)
Theorem title_mismatch_is_tolerated env obj pids s :
  (∀ w st, contains (pid w) pids = true →
           window_title w ≠ window_title obj →
           scan_step obj pids st w = st
           ∧ w ∉ moving_windows (scan_windows obj pids (snapshot env)))
  ∧ (∀ need_retry,
       ∃ hs, moved_handles
               (trace (place_windows env obj pids need_retry s).1)
             = moved_handles (trace s) ++ hs
             ∧ hs ⊆ window_id
                      <$> moving_windows
                            (scan_windows obj pids (snapshot env)))
  ∧ (no_need_to_move (scan_windows obj pids (snapshot env)) = true
     ↔ ∀ w, w ∈ snapshot env →
            contains (pid w) pids = true ∧ needs_move obj pids w = false)
  ∧ ((place_windows env obj pids true s).2 = Raise (NeedRetryException obj)
     ↔ moving_windows (scan_windows obj pids (snapshot env)) = []).
Proof.
  split; [| split; [| split]].
  - intros w st Hin Hne. split; [by apply scan_step_title_mismatch |].
    rewrite elem_of_moving. intros [_ Hm]. unfold needs_move in Hm.
    rewrite (bool_decide_eq_false_2 (window_title w = window_title obj)),
      andb_false_r in Hm by done. done.
  - intros need_retry. rewrite scan_windows_moving.
    destruct (decide (List.filter (needs_move obj pids) (snapshot env) = []))
      as [Hnone|Hsome].
    + exists []. split; [| by intros h ?%elem_of_nil]. rewrite app_nil_r.
      destruct need_retry.
      * by rewrite place_windows_needs_retry.
      * by rewrite place_windows_no_retry_nothing.
    + rewrite place_windows_moves by done. apply for_each_move_one_handles.
  - apply no_need_to_move_iff.
  - rewrite scan_windows_moving. split.
    + intros Hr.
      destruct (decide (List.filter (needs_move obj pids) (snapshot env) = []))
        as [Hnone|Hsome]; [done |].
      rewrite place_windows_moves, for_each_move_one_Ok in Hr by done. done.
    + intros Hnone. by rewrite place_windows_needs_retry.
Qed.

Lemma title_mismatch_is_tolerated_witness :
  scan_step editor_record [PInt 1200]
    {| no_need_to_move := true; moving_windows := [] |} editor_preferences
  = {| no_need_to_move := true; moving_windows := [] |}
  ∧ editor_preferences
    ∉ moving_windows
        (scan_windows editor_record [PInt 1200]
           (snapshot (desk [editor_window; editor_preferences]))).
Proof.
  apply (proj1 (title_mismatch_is_tolerated
                  (desk [editor_window; editor_preferences])
                  editor_record [PInt 1200] fresh)).
  - reflexivity.
  - discriminate.
Defined.

End title_mismatch.

(** ** Invariants of the restore path *)

Section invariants.

Variable I : State → Prop.

(** What moving windows needs of an invariant. *)
Hypothesis I_print : ∀ m, preserves I (print m).
Hypothesis I_move_one : ∀ desktop w, preserves I (move_one desktop w).

Lemma preserves_place_windows env obj pids need_retry :
  preserves I (place_windows env obj pids need_retry).
Proof.
  unfold place_windows.
  apply preserves_if; [apply preserves_raise |].
  apply preserves_if; [apply preserves_ret |].
  by apply preserves_for_each.
Qed.

Lemma preserves__move_window env obj pid need_retry :
  preserves I (_move_window env obj pid need_retry).
Proof.
  unfold _move_window. apply preserves_try_except.
  - unfold _move_window_body. apply preserves_bind.
    + destruct pid as [p|]; [| apply preserves_ret].
      apply preserves_if; [| apply preserves_ret].
      unfold launched_pids.
      destruct (children env p); [apply preserves_ret | apply preserves_raise].
    + intros pids. apply preserves_if; [apply preserves_if |].
      * apply preserves_ret.
      * apply preserves_place_windows.
      * apply preserves_place_windows.
  - intros []; first [apply preserves_raise | apply I_print].
Qed.

Lemma preserves_do_retry world retries delay func :
  (∀ env, preserves I (func env)) → preserves I (sleep delay) →
  preserves I (do_retry world retries delay func).
Proof.
  intros Hf Hsleep. induction retries as [|n IH]; intros s Hs; [done |].
  simpl. unfold at_now. specialize (Hf (world (clock s)) s Hs).
  destruct (func (world (clock s)) s) as [s' [[]|e]]; simpl in *; [done |].
  destruct e; try done. destruct n as [|n]; [done |].
  refine (preserves_bind I _ _ Hsleep _ s' Hf). intros _. apply IH.
Qed.

Hypothesis I_sleep : ∀ d, preserves I (sleep d).

Lemma preserves__move_window_async world obj pid :
  preserves I (_move_window_async world obj pid).
Proof.
  unfold _move_window_async. apply preserves_do_retry; [| done].
  intros env. apply preserves__move_window.
Qed.

(** What launching and the workspace settings need of it. *)
Hypothesis I_emit_pool : preserves I (emit PoolCreated).
Hypothesis I_run_cmd : ∀ env c, preserves I (run_cmd env c).
Hypothesis I_disable : preserves I disable_dynamic_workspaces.
Hypothesis I_enable : preserves I enable_dynamic_workspaces.
Hypothesis I_set_number : ∀ n, preserves I (set_workspaces_number n).

Lemma preserves_restore_each world restoring_interval objs :
  preserves I (restore_each world restoring_interval objs).
Proof.
  induction objs as [|obj objs IH]; simpl; [apply preserves_ret |].
  apply preserves_bind; [done |]. intros _.
  apply preserves_bind; [| done].
  apply preserves_if; [done |].
  apply preserves_bind; [by apply preserves_at_now |]. intros p.
  apply preserves_bind; [apply preserves__move_window_async | done].
Qed.

Lemma preserves_create_enough_workspaces env n body :
  preserves I body → preserves I (create_enough_workspaces env n body).
Proof.
  intros Hbody. unfold create_enough_workspaces.
  apply preserves_if; [| done]. apply preserves_if; [done |].
  apply preserves_bind; [by intros s |]. intros dynamic.
  apply preserves_if.
  - apply preserves_bind; [done |]. intros _.
    apply preserves_try_except; [| done].
    apply preserves_bind; [done |]. intros _.
    by apply preserves_try_finally.
  - apply preserves_bind; [by intros s |]. intros number.
    apply preserves_bind; [| done].
    apply preserves_if; [done | apply preserves_ret].
Qed.

Lemma preserves_read_session p : preserves I (read_session p).
Proof. intros s Hs. unfold read_session. by destruct (files s !! p). Qed.

Lemma preserves__get_max_desktop_number objs :
  preserves I (_get_max_desktop_number objs).
Proof. intros s Hs. unfold _get_max_desktop_number. by destruct (_ <$> _). Qed.

Lemma preserves_restore_session self world name restoring_interval :
  preserves I (restore_session self world name restoring_interval).
Proof.
  unfold restore_session.
  apply preserves_bind; [by intros s |]. intros found.
  apply preserves_if; [apply preserves_raise |].
  apply preserves_bind; [done |]. intros _.
  apply preserves_bind; [apply preserves_read_session |]. intros config.
  apply preserves_if.
  - apply preserves_bind; done.
  - apply preserves_bind; [apply preserves__get_max_desktop_number |].
    intros n. apply preserves_bind; [| done].
    apply preserves_at_now. intros env.
    apply preserves_create_enough_workspaces.
    apply preserves_bind; [done |]. intros _. apply preserves_restore_each.
Qed.

Lemma preserves_move_window self world name :
  preserves I (move_window self world name).
Proof.
  unfold move_window.
  apply preserves_bind; [by intros s |]. intros found.
  apply preserves_if; [apply preserves_raise |].
  apply preserves_bind; [apply preserves_read_session |]. intros config.
  apply preserves_bind; [done |]. intros _.
  apply preserves_bind; [apply preserves__get_max_desktop_number |].
  intros n. apply preserves_at_now. intros env.
  apply preserves_create_enough_workspaces.
  apply preserves_for_each. intros obj. apply preserves_at_now. intros env'.
  apply preserves__move_window.
Qed.

End invariants.

(** ** The cache of moved windows *)

Section moved_cache.

Implicit Types (env : Env) (s : State) (w obj : XSessionConfigObject).

(** No handle was moved twice, and every moved handle is in the cache. *)
Definition moved_once (s : State) : Prop :=
  NoDup (moved_handles (trace s))
  ∧ ∀ h, h ∈ moved_handles (trace s) → h ∈ _moved_windowids_cache s.

Lemma moved_once_initial dynamic number d f :
  moved_once (initial_state dynamic number d f).
Proof. split; [constructor | by intros h ?%elem_of_nil]. Qed.

Lemma moved_once_emit e :
  moved_handles [e] = [] → preserves moved_once (emit e).
Proof.
  intros He s [Hnd Hsub]. unfold emit, moved_once. simpl.
  by rewrite moved_handles_app, He, app_nil_r.
Qed.

Lemma moved_once_print m : preserves moved_once (print m).
Proof. by apply moved_once_emit. Qed.

Lemma moved_once_sleep d : preserves moved_once (sleep d).
Proof.
  apply preserves_sleep. intros s [Hnd Hsub]. unfold moved_once. simpl.
  by rewrite moved_handles_app, app_nil_r.
Qed.

Lemma moved_once_move_one desktop w : preserves moved_once (move_one desktop w).
Proof.
  intros s [Hnd Hsub].
  destruct (decide (window_id w ∈ _moved_windowids_cache s)) as [Hin|Hin].
  - by rewrite move_one_cached.
  - rewrite move_one_fresh by done. unfold moved_once. simpl.
    rewrite moved_handles_app. simpl. split.
    + apply NoDup_app. split; [done |]. split; [| apply NoDup_singleton].
      intros h Hh ->%list_elem_of_singleton. by apply Hin, Hsub.
    + intros h [Hh | ->%list_elem_of_singleton]%elem_of_app;
        apply elem_of_app; [left; by apply Hsub | right; left].
Qed.

Lemma moved_once__move_window env obj pid need_retry :
  preserves moved_once (_move_window env obj pid need_retry).
Proof.
  apply preserves__move_window;
    [apply moved_once_print | apply moved_once_move_one].
Qed.

Lemma moved_once_restore_session self world name restoring_interval :
  preserves moved_once (restore_session self world name restoring_interval).
Proof.
  apply preserves_restore_session.
  - apply moved_once_print.
  - apply moved_once_move_one.
  - apply moved_once_sleep.
  - by apply moved_once_emit.
  - intros env c. by apply preserves_run_cmd, moved_once_emit.
  - intros s [Hnd Hsub]. unfold moved_once. simpl.
    by rewrite moved_handles_app, app_nil_r.
  - intros s [Hnd Hsub]. unfold moved_once. simpl.
    by rewrite moved_handles_app, app_nil_r.
  - intros n s [Hnd Hsub]. unfold moved_once. simpl.
    by rewrite moved_handles_app, app_nil_r.
Qed.

(** The state after a sequence of attempts, whatever each one is given
    and however it ends. *)
Fixpoint run_attempts
    (attempts : list (Env * XSessionConfigObject * option Z * bool))
    (s : State) : State :=
  match attempts with
  | [] => s
  | (env, obj, pid, need_retry) :: rest =>
      run_attempts rest (_move_window env obj pid need_retry s).1
  end.

Lemma moved_once_run_attempts attempts s :
  moved_once s → moved_once (run_attempts attempts s).
Proof.
  revert s. induction attempts as [|[[[env obj] pid] nr] rest IH];
    intros s Hs; simpl; [done |].
  by apply IH, moved_once__move_window.
Qed.

End moved_cache.

(** C5: within one restore run a window handle is the target of at most one
    move command, for every sequence of attempts of [_move_window] (any
    records, process ids, environments and retry flags, repeated or not)
    from a fresh manager, and for a whole [restore_session]; the cache is
    consulted before every move (a cached handle is skipped without any
    effect) and a handle that is not cached is moved once and recorded in
    the cache with its move. *)
Theorem each_handle_is_moved_at_most_once :
  (∀ attempts dynamic number d f h,
      (count_occ String.string_dec
         (moved_handles
            (trace (run_attempts attempts (initial_state dynamic number d f))))
         h ≤ 1)%nat)
  ∧ (∀ self world name restoring_interval dynamic number d f h,
      (count_occ String.string_dec
         (moved_handles
            (trace (restore_session self world name restoring_interval
                      (initial_state dynamic number d f)).1))
         h ≤ 1)%nat)
  ∧ (∀ desktop w s,
      window_id w ∈ _moved_windowids_cache s →
      move_one desktop w s = (s, Ok tt))
  ∧ (∀ desktop w s,
      window_id w ∉ _moved_windowids_cache s →
      moved_handles (trace (move_one desktop w s).1)
      = moved_handles (trace s) ++ [window_id w]
      ∧ _moved_windowids_cache (move_one desktop w s).1
        = _moved_windowids_cache s ++ [window_id w]).
Proof.
  split; [| split; [| split]].
  - intros attempts dynamic number d f h.
    apply (proj1 (NoDup_count_occ String.string_dec _)).
    apply NoDup_ListNoDup.
    apply (moved_once_run_attempts attempts), moved_once_initial.
  - intros self world name restoring_interval dynamic number d f h.
    apply (proj1 (NoDup_count_occ String.string_dec _)).
    apply NoDup_ListNoDup.
    apply moved_once_restore_session, moved_once_initial.
  - apply move_one_cached.
  - intros desktop w s Hin. rewrite move_one_fresh by done. simpl.
    by rewrite moved_handles_app.
Qed.

Lemma each_handle_is_moved_at_most_once_witness :
  move_one 1 editor_window
    (set_cache ["0x04600003"] fresh)
  = (set_cache ["0x04600003"] fresh, Ok tt)
  ∧ moved_handles (trace (move_one 1 editor_window fresh).1)
    = moved_handles (trace fresh) ++ [window_id editor_window].
Proof.
  split.
  - apply (proj1 (proj2 (proj2 each_handle_is_moved_at_most_once))).
    apply list_elem_of_here.
  - apply (proj2 (proj2 (proj2 each_handle_is_moved_at_most_once))).
    apply not_elem_of_nil.
Defined.

(** ** The retried task *)






Section retried_task.

Implicit Types (env : Env) (s : State) (obj : XSessionConfigObject).

Lemma clock_print c m : preserves (λ s, (c <= clock s)%Q) (print m).
Proof. by intros s. Qed.

Lemma clock_move_one c desktop w :
  preserves (λ s, (c <= clock s)%Q) (move_one desktop w).
Proof.
  intros s Hs.
  destruct (decide (window_id w ∈ _moved_windowids_cache s)) as [Hin|Hin].
  - by rewrite move_one_cached.
  - rewrite move_one_fresh by done. simpl.
    apply (Qle_trans _ _ _ Hs). rewrite <- (Qplus_0_r (clock s)) at 1.
    by apply Qplus_le_r.
Qed.

(** Time does not go back during an attempt. *)
Lemma _move_window_clock env obj pid need_retry s :
  (clock s <= clock (_move_window env obj pid need_retry s).1)%Q.
Proof.
  apply (preserves__move_window (λ s', (clock s <= clock s')%Q)).
  - apply clock_print.
  - apply clock_move_one.
  - apply Qle_refl.
Qed.

Variables (world : World) (delay : Q) (func : Env → M unit).

Hypothesis delay_not_negative : (0 <= delay)%Q.
Hypothesis func_result :
  ∀ env s, (func env s).2 = Ok tt
           ∨ ∃ o, (func env s).2 = Raise (NeedRetryException o).
Hypothesis func_raise : ∀ env s e, (func env s).2 = Raise e → (func env s).1 = s.


Lemma do_retry_step retries s :
  do_retry world (S retries) delay func s
  = match func (world (clock s)) s with
    | (s', Ok _) => (s', Ok tt)
    | (s', Raise (NeedRetryException _)) =>
        match retries with
        | O => (s', Ok tt)
        | S _ => do_retry world retries delay func (slept delay s')
        end
    | (s', Raise e) => (s', Raise e)
    end.
Proof.
  cbn [do_retry]. unfold at_now.
  destruct (func (world (clock s)) s) as [s' [[]|[]]]; try done.
  destruct retries as [|n]; [done |].
  unfold bind. by rewrite sleep_Ok.
Qed.




Lemma do_retry_Ok retries s : (do_retry world retries delay func s).2 = Ok tt.
Proof.
  revert s. induction retries as [|n IH]; intros s; [done |].
  rewrite do_retry_step.
  destruct (func_result (world (clock s)) s) as [HOk | [o Hr]];
    destruct (func (world (clock s)) s) as [s' r];
    simpl in HOk || simpl in Hr; subst r; [done |].
  destruct n; [done | apply IH].
Qed.

End retried_task.

Section move_task.

Implicit Types (env : Env) (s : State) (obj : XSessionConfigObject).

Lemma _move_window_of_launch env obj p cs need_retry s :
  p ≠ 0 → children env p = Some cs →
  _move_window env obj (Some p) need_retry s
  = try_except (place_windows env obj (candidates_of_launch cs p) need_retry)
      (λ e, match e with
            | NeedRetryException _ => raise e
            | _ => print (Traceback e)
            end) s.
Proof.
  intros Hp Hc. unfold _move_window, try_except, _move_window_body, bind.
  unfold truthy. rewrite (proj2 (Z.eqb_neq p 0) Hp). simpl.
  unfold launched_pids. rewrite Hc. simpl.
  fold (candidates_of_launch cs p).
  rewrite bool_decide_eq_false_2; [done |].
  unfold candidates_of_launch. rewrite length_app. simpl. lia.
Qed.


Lemma _move_window_of_dead_launch env obj p need_retry s :
  p ≠ 0 → children env p = None →
  _move_window env obj (Some p) need_retry s
  = ((print (Traceback (NoSuchProcess p)) s).1, Ok tt).
Proof.
  intros Hp Hc. unfold _move_window, try_except, _move_window_body, bind.
  unfold truthy. rewrite (proj2 (Z.eqb_neq p 0) Hp). simpl.
  unfold launched_pids. by rewrite Hc.
Qed.



Lemma _move_window_async_Ok world obj p s :
  (_move_window_async world obj p s).2 = Ok tt.
Proof.
  unfold _move_window_async. apply do_retry_Ok; [done |].
  intros env s'.
  destruct (_move_window_result env obj (Some p) true s') as [? | [? _]];
    [by left | right; by exists obj].
Qed.





End move_task.

(** ** The scope of [create_enough_workspaces] *)

Section capacity_scope.

Implicit Types (env : Env) (s : State) (body : M unit).

(** The reading of C6: if dynamic sizing is enabled and there are fewer
    workspaces than required, the scope disables dynamic sizing and sets
    the number first, and dynamic sizing is enabled when it is left. *)
Definition scope_fixes_the_number env (n : Z) s : Prop :=
  dynamic_workspaces s = true → get_workspace_count env < n →
  workspace_requests (trace (create_enough_workspaces env n (ret tt) s).1)
  = workspace_requests (trace s)
    ++ [DisableDynamicWorkspaces; SetWorkspacesNumber n;
        EnableDynamicWorkspaces].

(** C6, as stated, fails: outside GNOME the scope does nothing, although
    dynamic sizing is enabled and 2 workspaces are fewer than the 4
    required. *)
Lemma scope_outside_gnome_changes_nothing :
  is_gnome (desk []) = false
  ∧ dynamic_workspaces fresh = true
  ∧ get_workspace_count (desk []) < 4
  ∧ create_enough_workspaces (desk []) 4 (ret tt) fresh = (fresh, Ok tt)
  ∧ ¬ scope_fixes_the_number (desk []) 4 fresh.
Proof.
  repeat split; try done. intros Hc.
  specialize (Hc eq_refl eq_refl). vm_compute in Hc. discriminate Hc.
Qed.

(** C6, as amended: in a GNOME session, if dynamic sizing is enabled and
    there are fewer workspaces than required when the scope is entered,
    the body starts with dynamic sizing disabled and the number of
    workspaces set to the required one, and dynamic sizing is enabled
    again when the scope is left, whether the body returns or raises (an
    exception of the body is printed and goes no further). *)
Theorem scope_disables_and_restores_dynamic_workspaces env n body s :
  is_gnome env = true →
  dynamic_workspaces s = true →
  get_workspace_count env < n →
  dynamic_workspaces (set_workspaces_number n (disable_dynamic_workspaces s).1).1
  = false
  ∧ workspaces_number
      (set_workspaces_number n (disable_dynamic_workspaces s).1).1 = n
  ∧ trace (set_workspaces_number n (disable_dynamic_workspaces s).1).1
    = trace s ++ [DisableDynamicWorkspaces; SetWorkspacesNumber n]
  ∧ create_enough_workspaces env n body s
    = match body (set_workspaces_number n
                    (disable_dynamic_workspaces s).1).1 with
      | (s1, Ok _) => ((enable_dynamic_workspaces s1).1, Ok tt)
      | (s1, Raise e) =>
          ((print (Traceback e) (enable_dynamic_workspaces s1).1).1, Ok tt)
      end
  ∧ dynamic_workspaces (create_enough_workspaces env n body s).1 = true.
Proof.
  intros Hgnome Hdyn Hcount.
  assert (create_enough_workspaces env n body s
          = match body (set_workspaces_number n
                          (disable_dynamic_workspaces s).1).1 with
            | (s1, Ok _) => ((enable_dynamic_workspaces s1).1, Ok tt)
            | (s1, Raise e) =>
                ((print (Traceback e) (enable_dynamic_workspaces s1).1).1,
                 Ok tt)
            end) as Heq.
  { unfold create_enough_workspaces. rewrite Hgnome.
    rewrite bool_decide_eq_false_2 by lia.
    unfold bind at 1. unfold is_dynamic_workspaces. rewrite Hdyn.
    unfold bind at 1. simpl. unfold try_except, bind, try_finally. simpl.
    by destruct (body _) as [s1 [[]|e]]. }
  split; [done |]. split; [done |]. split.
  { simpl. by rewrite <- app_assoc. }
  split; [done |]. rewrite Heq.
  by destruct (body _) as [s1 [[]|e]].
Qed.

Lemma scope_disables_and_restores_dynamic_workspaces_witness :
  dynamic_workspaces
    (create_enough_workspaces
       {| running_windows := []; children := λ _, None; process_iter := [];
          process_info := λ _, None; run_cmd_pid := λ _, Ok 1200;
          is_gnome := true; get_workspace_count := 2; time := λ _, noon |}
       4 (raise (OtherException "restore failed")) fresh).1 = true.
Proof.
  apply scope_disables_and_restores_dynamic_workspaces; [done | done |].
  simpl. lia.
Defined.

End capacity_scope.

(** ** Launching the records *)

Section trace_projection.

(** A view of the log that the workspace requests and the printed lines do
    not show in. *)
Context {X : Type} (f : list event → list X).
Hypothesis f_app : ∀ t1 t2, f (t1 ++ t2) = f t1 ++ f t2.
Hypothesis f_log : ∀ m, f [Log m] = [].
Hypothesis f_disable : f [DisableDynamicWorkspaces] = [].
Hypothesis f_enable : f [EnableDynamicWorkspaces] = [].
Hypothesis f_set : ∀ n, f [SetWorkspacesNumber n] = [].

(** The scope around a body adds nothing to the view. *)
Lemma create_enough_workspaces_adds env n (body : M unit)
    (P : list X → Prop) s :
  (∀ s0, ∃ l, f (trace (body s0).1) = f (trace s0) ++ l ∧ P l) →
  ∃ l, f (trace (create_enough_workspaces env n body s).1) = f (trace s) ++ l
       ∧ P l.
Proof.
  intros Hbody. unfold create_enough_workspaces.
  destruct (is_gnome env); [| apply Hbody].
  case_bool_decide; [apply Hbody |].
  unfold bind at 1. simpl. destruct (dynamic_workspaces s).
  - unfold bind at 1. simpl. unfold try_except, bind at 1. simpl.
    unfold try_finally.
    match goal with |- context [body ?s1] =>
      destruct (Hbody s1) as (l & Hb & HP);
      destruct (body s1) as [s2 [[]|e]] end;
      exists l; (split; [| done]); simpl in *;
      rewrite ?f_app, Hb, ?f_app, ?f_disable, ?f_set, ?f_enable, ?f_log;
      by rewrite ?app_nil_r.
  - unfold bind at 1. simpl. unfold bind at 1.
    case_bool_decide; simpl;
      match goal with |- context [body ?s1] =>
        destruct (Hbody s1) as (l & Hb & HP) end;
      exists l; (split; [| done]); rewrite Hb; simpl;
      rewrite ?f_app, ?f_set; by rewrite ?app_nil_r.
Qed.

End trace_projection.

Section launching.

Implicit Types (env : Env) (s : State) (obj : XSessionConfigObject).
Implicit Types (objs : list XSessionConfigObject).

Definition has_command obj : bool :=
  negb (bool_decide (length (cmd obj) = 0%nat)).

(** Every command line of [objs] can be started, at any time. *)
Definition can_start (world : World) objs : Prop :=
  ∀ t obj, obj ∈ objs → cmd obj ≠ [] →
           ∃ child, run_cmd_pid (world t) (cmd obj) = Ok child.

Lemma filter_has_command_skip obj objs :
  cmd obj = [] →
  List.filter has_command (obj :: objs) = List.filter has_command objs.
Proof. intros Hc. simpl. unfold has_command at 1. by rewrite Hc. Qed.

Lemma filter_has_command_keep obj objs :
  cmd obj ≠ [] →
  List.filter has_command (obj :: objs) = obj :: List.filter has_command objs.
Proof. intros Hc. simpl. unfold has_command at 1. by destruct (cmd obj). Qed.

Lemma launched_print b m : preserves (λ s, launched (trace s) = b) (print m).
Proof. intros s <-. simpl. by rewrite launched_app, app_nil_r. Qed.

Lemma launched_sleep b d : preserves (λ s, launched (trace s) = b) (sleep d).
Proof.
  apply preserves_sleep. intros s <-. simpl.
  by rewrite launched_app, app_nil_r.
Qed.

Lemma launched_move_one b desktop w :
  preserves (λ s, launched (trace s) = b) (move_one desktop w).
Proof.
  intros s <-.
  destruct (decide (window_id w ∈ _moved_windowids_cache s)) as [Hin|Hin].
  - by rewrite move_one_cached.
  - rewrite move_one_fresh by done. simpl.
    by rewrite launched_app, app_nil_r.
Qed.

(** The move task launches nothing. *)
Lemma launched__move_window_async world obj p s :
  launched (trace (_move_window_async world obj p s).1) = launched (trace s).
Proof.
  apply (preserves__move_window_async (λ s', launched (trace s') = launched (trace s)));
    [intros; apply launched_print | intros; apply launched_move_one
    | intros; apply launched_sleep | done].
Qed.

Lemma started_print b m : preserves (λ s, started (trace s) = b) (print m).
Proof. intros s <-. simpl. by rewrite started_app, app_nil_r. Qed.

Lemma started_sleep b d : preserves (λ s, started (trace s) = b) (sleep d).
Proof.
  apply preserves_sleep. intros s <-. simpl.
  by rewrite started_app, app_nil_r.
Qed.

Lemma started_move_one b desktop w :
  preserves (λ s, started (trace s) = b) (move_one desktop w).
Proof.
  intros s <-.
  destruct (decide (window_id w ∈ _moved_windowids_cache s)) as [Hin|Hin].
  - by rewrite move_one_cached.
  - rewrite move_one_fresh by done. simpl.
    by rewrite started_app, app_nil_r.
Qed.

Lemma started__move_window_async world obj p s :
  started (trace (_move_window_async world obj p s).1) = started (trace s).
Proof.
  apply (preserves__move_window_async (λ s', started (trace s') = started (trace s)));
    [intros; apply started_print | intros; apply started_move_one
    | intros; apply started_sleep | done].
Qed.

Lemma restore_each_skips world restoring_interval obj objs s :
  cmd obj = [] →
  restore_each world restoring_interval (obj :: objs) s
  = restore_each world restoring_interval objs
      (print (Failure_empty_commandline (app_name obj))
         (print (Restoring_application (app_name obj)) s).1).1.
Proof. intros Hc. cbn [restore_each]. unfold bind. simpl. by rewrite Hc. Qed.

(** One turn of the loop for a record with a command line: the call of
    [run_cmd], the move task, the pause. *)
Lemma restore_each_launches world restoring_interval obj objs s :
  cmd obj ≠ [] →
  restore_each world restoring_interval (obj :: objs) s
  = (let s1 := (print (Restoring_application (app_name obj)) s).1 in
     let r := run_cmd_pid (world (clock s1)) (cmd obj) in
     let s2 := (emit (RunCmd (cmd obj) r) s1).1 in
     match r with
     | Raise e => (s2, Raise e)
     | Ok child =>
         let s3 := (_move_window_async world obj child s2).1 in
         if Qle_bool 0 restoring_interval
         then restore_each world restoring_interval objs
                (slept restoring_interval s3)
         else (s3, Raise ValueError)
     end).
Proof.
  intros Hc. cbn [restore_each]. cbv zeta. unfold bind at 1. simpl.
  unfold bind at 1. unfold bind at 1.
  rewrite bool_decide_eq_false_2 by (by destruct (cmd obj)).
  unfold at_now, run_cmd at 1. unfold bind at 1. simpl.
  destruct (run_cmd_pid _ (cmd obj)) as [child|e]; [| done].
  unfold ret at 1. unfold bind at 1.
  match goal with |- context [_move_window_async world obj child ?s2] =>
    pose proof (_move_window_async_Ok world obj child s2) as HOk;
    destruct (_move_window_async world obj child s2) as [s3 r] end.
  simpl in HOk. subst r. simpl. unfold sleep, slept.
  by destruct (Qle_bool 0 restoring_interval).
Qed.

(** What the loop gives to [run_cmd], however it ends: the command lines of
    the records, in order, up to the first call that raises or the first
    pause that raises. *)
Lemma restore_each_launched world restoring_interval objs s :
  ∃ cs,
    launched (trace (restore_each world restoring_interval objs s).1)
    = launched (trace s) ++ cs
    ∧ cs `prefix_of` (cmd <$> List.filter has_command objs)
    ∧ (List.filter has_command objs ≠ [] → cs ≠ [])
    ∧ ((restore_each world restoring_interval objs s).2 = Ok tt →
       cs = cmd <$> List.filter has_command objs).
Proof.
  revert s. induction objs as [|obj objs IH]; intros s.
  - exists []. simpl. by rewrite app_nil_r.
  - destruct (decide (cmd obj = [])) as [Hc|Hc].
    + rewrite restore_each_skips by done.
      destruct (IH (print (Failure_empty_commandline (app_name obj))
                      (print (Restoring_application (app_name obj)) s).1).1)
        as (cs & Hl & Hpre & Hne & HOk).
      exists cs. rewrite filter_has_command_skip by done. split; [| done].
      rewrite Hl. simpl. by rewrite !launched_app, !app_nil_r.
    + rewrite restore_each_launches by done. cbv zeta.
      rewrite filter_has_command_keep, fmap_cons by done.
      set (s1 := (print (Restoring_application (app_name obj)) s).1).
      set (r := run_cmd_pid (world (clock s1)) (cmd obj)).
      assert (launched (trace (emit (RunCmd (cmd obj) r) s1).1)
              = launched (trace s) ++ [cmd obj]) as Hs2.
      { subst s1. simpl. rewrite !launched_app. simpl.
        by rewrite app_nil_r. }
      destruct r as [child|e].
      * pose proof (launched__move_window_async world obj child
                      (emit (RunCmd (cmd obj) (Ok child)) s1).1) as Hs3.
        rewrite Hs2 in Hs3.
        destruct (Qle_bool 0 restoring_interval).
        -- destruct (IH (slept restoring_interval
                           (_move_window_async world obj child
                              (emit (RunCmd (cmd obj) (Ok child)) s1).1).1))
             as (cs & Hl & Hpre & Hne & HOk).
           exists (cmd obj :: cs). split; [| split; [| split]].
           ++ rewrite Hl. cbn [slept trace set_trace set_clock].
              rewrite launched_app, Hs3. simpl.
              by rewrite app_nil_r, <- app_assoc.
           ++ by apply prefix_cons.
           ++ done.
           ++ intros Hr. by rewrite HOk.
        -- exists [cmd obj]. split; [| split; [| split]]; try done.
           apply prefix_cons, prefix_nil.
      * exists [cmd obj]. split; [| split; [| split]]; try done.
        apply prefix_cons, prefix_nil.
Qed.

(** When the pause is not negative and every command line can be started,
    the loop returns and has started the command lines of the records, in
    order. *)
Lemma restore_each_started world restoring_interval objs s :
  (0 <= restoring_interval)%Q → can_start world objs →
  (restore_each world restoring_interval objs s).2 = Ok tt
  ∧ started (trace (restore_each world restoring_interval objs s).1)
    = started (trace s) ++ (cmd <$> List.filter has_command objs).
Proof.
  intros Hri. revert s. induction objs as [|obj objs IH]; intros s Hstart.
  - simpl. by rewrite app_nil_r.
  - assert (can_start world objs) as Hrest.
    { intros t o Ho. apply Hstart. by right. }
    destruct (decide (cmd obj = [])) as [Hc|Hc].
    + rewrite restore_each_skips by done.
      destruct (IH (print (Failure_empty_commandline (app_name obj))
                      (print (Restoring_application (app_name obj)) s).1).1
                  Hrest) as [-> ->].
      split; [done |]. rewrite filter_has_command_skip by done.
      simpl. by rewrite !started_app, !app_nil_r.
    + rewrite restore_each_launches by done. cbv zeta.
      rewrite filter_has_command_keep, fmap_cons by done.
      set (s1 := (print (Restoring_application (app_name obj)) s).1).
      destruct (Hstart (clock s1) obj) as [child ->]; [left | done |].
      rewrite (proj2 (Qle_bool_iff 0 restoring_interval) Hri).
      destruct (IH (slept restoring_interval
                      (_move_window_async world obj child
                         (emit (RunCmd (cmd obj) (Ok child)) s1).1).1) Hrest)
        as [-> ->].
      split; [done |]. cbn [slept trace set_trace set_clock].
      rewrite started_app, started__move_window_async. subst s1. simpl.
      rewrite !started_app. simpl. by rewrite !app_nil_r, <- app_assoc.
Qed.

Lemma restore_sessions_launched world restoring_interval objs s :
  ∃ cs,
    launched (trace (restore_sessions world restoring_interval objs s).1)
    = launched (trace s) ++ cs
    ∧ cs `prefix_of` (cmd <$> List.filter has_command objs)
    ∧ (List.filter has_command objs ≠ [] → cs ≠ [])
    ∧ ((restore_sessions world restoring_interval objs s).2 = Ok tt →
       cs = cmd <$> List.filter has_command objs).
Proof.
  destruct (restore_each_launched world restoring_interval objs
              (emit PoolCreated s).1) as (cs & Hl & Hrest).
  exists cs. unfold restore_sessions, bind.
  destruct (emit PoolCreated s) as [s1 r1] eqn:He.
  injection He as <- <-. split; [| done].
  etrans; [exact Hl |]. simpl. by rewrite launched_app, app_nil_r.
Qed.

Lemma restore_sessions_started world restoring_interval objs s :
  (0 <= restoring_interval)%Q → can_start world objs →
  (restore_sessions world restoring_interval objs s).2 = Ok tt
  ∧ started (trace (restore_sessions world restoring_interval objs s).1)
    = started (trace s) ++ (cmd <$> List.filter has_command objs).
Proof.
  intros Hri Hstart.
  pose proof (restore_each_started world restoring_interval objs
                (emit PoolCreated s).1 Hri Hstart) as [HOk Hl].
  unfold restore_sessions, bind.
  destruct (emit PoolCreated s) as [s1 r1] eqn:He.
  injection He as <- <-. split; [done |].
  etrans; [exact Hl |]. simpl. by rewrite started_app, app_nil_r.
Qed.

(** The scope around the launches adds no launch. *)
Lemma create_enough_workspaces_launched env n body cmds s :
  (∀ s0, launched (trace (body s0).1) = launched (trace s0) ++ cmds) →
  launched (trace (create_enough_workspaces env n body s).1)
  = launched (trace s) ++ cmds.
Proof.
  intros Hbody.
  destruct (create_enough_workspaces_adds launched launched_app
              (λ _, eq_refl) eq_refl eq_refl (λ _, eq_refl)
              env n body (λ l, l = cmds) s) as (l & Hl & ->); [| done].
  intros s0. by exists cmds.
Qed.

(** The scope returns when its body does. *)
Lemma create_enough_workspaces_Ok env n body s :
  (∀ s0, (body s0).2 = Ok tt) →
  (create_enough_workspaces env n body s).2 = Ok tt.
Proof.
  intros Hbody. unfold create_enough_workspaces.
  destruct (is_gnome env); [| done]. case_bool_decide; [done |].
  unfold bind at 1. cbn [is_dynamic_workspaces]. destruct (dynamic_workspaces s).
  - unfold bind at 1. cbn [disable_dynamic_workspaces].
    unfold try_except, bind at 1. cbn [set_workspaces_number].
    unfold try_finally.
    match goal with |- context [body ?s1] =>
      pose proof (Hbody s1) as Hb; destruct (body s1) as [s2 r] end.
    simpl in Hb. by subst r.
  - unfold bind at 1. cbn [get_workspaces_number]. unfold bind at 1.
    case_bool_decide; simpl; apply Hbody.
Qed.

Lemma dict_set_fresh {V} (d : list (pyval * V)) k v :
  k ∉ d.*1 → dict_set d k v = d ++ [(k, v)].
Proof.
  induction d as [|[k' v'] d IH]; [done |]. intros Hk. cbn [dict_set].
  rewrite fmap_cons, not_elem_of_cons in Hk. destruct Hk as [Hne Hk].
  rewrite bool_decide_eq_false_2 by done. simpl. by rewrite IH.
Qed.

(** Records of distinct processes are all kept. *)
Lemma remove_duplicates_NoDup objs :
  NoDup (pid <$> objs) → remove_duplicates_according_to_pid objs = objs.
Proof.
  intros Hnd. unfold remove_duplicates_according_to_pid.
  assert (session_details_dict objs = (λ x, (pid x, x)) <$> objs) as ->.
  { induction objs as [|y objs IH] using rev_ind; [done |].
    rewrite fmap_app in Hnd. apply NoDup_app in Hnd as (Hnd & Hy & _).
    rewrite session_details_dict_snoc, IH, fmap_app by done.
    apply dict_set_fresh. rewrite <- list_fmap_compose.
    intros Hin. apply (Hy _ Hin). left. }
  rewrite <- list_fmap_compose. apply list_fmap_id.
Qed.

End launching.

(** ** [restore_session] on a session file *)

Section restoring.

Implicit Types (s : State) (config : XSessionConfig).
Variables (self : XSessionManager) (world : World) (name : string)
          (restoring_interval : Q).

(** The records that [restore_session] works on. *)
Definition records_to_restore config : list XSessionConfigObject :=
  apply_session_filters (session_filters self)
    (remove_duplicates_according_to_pid (x_session_config_objects config)).

Lemma restore_session_loaded s config :
  files s !! (base_location_of_sessions self, name) = Some config →
  restore_session self world name restoring_interval s
  = (if bool_decide (length (records_to_restore config) = 0%nat) then
       print No_application_to_restore ;; print Done
     else
       max_desktop_number <-
         _get_max_desktop_number (records_to_restore config) ;;
       at_now world (λ env,
         create_enough_workspaces env max_desktop_number
           (restore_sessions world restoring_interval
              (records_to_restore config))) ;;
       print Done)
      (print (Restoring_session_located (base_location_of_sessions self) name)
         s).1.
Proof.
  intros Hfile. unfold restore_session. cbv zeta. unfold bind at 1.
  unfold path_exists. rewrite Hfile.
  rewrite bool_decide_eq_true_2 by done. cbn [negb].
  unfold bind at 1. unfold bind at 1. unfold read_session.
  destruct (print _ s) as [s1 r1] eqn:Hp. injection Hp as <- <-.
  cbn [files set_trace fst]. by rewrite Hfile.
Qed.

Lemma restore_session_nothing s config :
  files s !! (base_location_of_sessions self, name) = Some config →
  records_to_restore config = [] →
  restore_session self world name restoring_interval s
  = (set_trace
       (trace s
        ++ [Log (Restoring_session_located (base_location_of_sessions self) name);
            Log No_application_to_restore;
            Log Done]) s, Ok tt).
Proof.
  intros Hfile Hnone. rewrite (restore_session_loaded s config Hfile), Hnone.
  unfold bind, print, emit, set_trace. simpl. by rewrite <- !app_assoc.
Qed.

Lemma _get_max_desktop_number_Ok objs s :
  objs ≠ [] → ∃ n, _get_max_desktop_number objs s = (s, Ok n).
Proof.
  intros Hne. unfold _get_max_desktop_number.
  destruct objs as [|o objs]; [done |]. simpl. by eexists.
Qed.

(** What a restore gives to [run_cmd], however it ends. *)
Lemma restore_session_launched s config :
  files s !! (base_location_of_sessions self, name) = Some config →
  ∃ cs,
    launched (trace (restore_session self world name restoring_interval s).1)
    = launched (trace s) ++ cs
    ∧ cs `prefix_of`
        (cmd <$> List.filter has_command (records_to_restore config))
    ∧ (List.filter has_command (records_to_restore config) ≠ [] → cs ≠ []).
Proof.
  intros Hfile. rewrite (restore_session_loaded s config Hfile).
  case_bool_decide as Hlen.
  - destruct (records_to_restore config); [| done]. exists []. simpl.
    by rewrite !launched_app, !app_nil_r.
  - set (s1 := (print _ s).1).
    assert (launched (trace s1) = launched (trace s)) as <-.
    { subst s1. simpl. by rewrite launched_app, app_nil_r. }
    destruct (_get_max_desktop_number_Ok (records_to_restore config) s1)
      as [n Hn]; [by destruct (records_to_restore config) |].
    unfold bind at 1. rewrite Hn. unfold bind at 1. unfold at_now.
    destruct (create_enough_workspaces_adds launched launched_app
                (λ _, eq_refl) eq_refl eq_refl (λ _, eq_refl)
                (world (clock s1)) n
                (restore_sessions world restoring_interval
                   (records_to_restore config))
                (λ cs, cs `prefix_of`
                         (cmd <$> List.filter has_command
                                    (records_to_restore config))
                       ∧ (List.filter has_command (records_to_restore config)
                          ≠ [] → cs ≠ []))
                s1) as (cs & Hl & HP).
    { intros s0.
      destruct (restore_sessions_launched world restoring_interval
                  (records_to_restore config) s0) as (cs & ? & ? & ? & _).
      by exists cs. }
    exists cs. split; [| done].
    destruct (create_enough_workspaces _ _ _ s1) as [s2 [[]|e]]; simpl in *;
      [by rewrite launched_app, app_nil_r | done].
Qed.

(** When the pause is not negative and every command line can be started,
    a restore returns and has started the command lines of its records. *)
Lemma restore_session_started s config :
  files s !! (base_location_of_sessions self, name) = Some config →
  (0 <= restoring_interval)%Q →
  can_start world (records_to_restore config) →
  (restore_session self world name restoring_interval s).2 = Ok tt
  ∧ started (trace (restore_session self world name restoring_interval s).1)
    = started (trace s)
      ++ (cmd <$> List.filter has_command (records_to_restore config))
  ∧ launched (trace (restore_session self world name restoring_interval s).1)
    = launched (trace s)
      ++ (cmd <$> List.filter has_command (records_to_restore config)).
Proof.
  intros Hfile Hri Hstart. rewrite (restore_session_loaded s config Hfile).
  case_bool_decide as Hlen.
  - destruct (records_to_restore config); [| done]. simpl.
    by rewrite !started_app, !launched_app, !app_nil_r.
  - set (s1 := (print _ s).1).
    assert (started (trace s1) = started (trace s)) as <-.
    { subst s1. simpl. by rewrite started_app, app_nil_r. }
    assert (launched (trace s1) = launched (trace s)) as <-.
    { subst s1. simpl. by rewrite launched_app, app_nil_r. }
    destruct (_get_max_desktop_number_Ok (records_to_restore config) s1)
      as [n Hn]; [by destruct (records_to_restore config) |].
    set (body := restore_sessions world restoring_interval
                   (records_to_restore config)).
    unfold bind, at_now. rewrite Hn.
    set (cmds := cmd <$> List.filter has_command (records_to_restore config)).
    assert (∀ s0, (body s0).2 = Ok tt
                  ∧ started (trace (body s0).1) = started (trace s0) ++ cmds
                  ∧ launched (trace (body s0).1) = launched (trace s0) ++ cmds)
      as Hbody.
    { intros s0. unfold body, cmds.
      destruct (restore_sessions_started world restoring_interval
                  (records_to_restore config) s0 Hri Hstart) as [HOk Hst].
      split; [done |]. split; [done |].
      destruct (restore_sessions_launched world restoring_interval
                  (records_to_restore config) s0) as (cs & Hl & _ & _ & Hcs).
      by rewrite Hl, (Hcs HOk). }
    pose proof (create_enough_workspaces_Ok (world (clock s1)) n body s1
                  (λ s0, proj1 (Hbody s0))) as HOk.
    destruct (create_enough_workspaces_adds started started_app
                (λ _, eq_refl) eq_refl eq_refl (λ _, eq_refl)
                (world (clock s1)) n body (λ l, l = cmds) s1)
      as (? & Hst & ->).
    { intros s0. exists cmds. split; [apply Hbody | done]. }
    destruct (create_enough_workspaces_adds launched launched_app
                (λ _, eq_refl) eq_refl eq_refl (λ _, eq_refl)
                (world (clock s1)) n body (λ l, l = cmds) s1)
      as (? & Hl & ->).
    { intros s0. exists cmds. split; [apply Hbody | done]. }
    destruct (create_enough_workspaces _ _ _ s1) as [s2 r].
    simpl in HOk, Hst, Hl. subst r. simpl.
    by rewrite started_app, launched_app, Hst, Hl, !app_nil_r.
Qed.

End restoring.

Lemma filter_has_command_length (objs : list XSessionConfigObject) :
  (length (List.filter has_command objs)
   + length (List.filter (λ obj, bool_decide (cmd obj = [])) objs)
   = length objs)%nat.
Proof.
  induction objs as [|obj objs IH]; [done |]. simpl.
  unfold has_command at 1.
  destruct (cmd obj) as [|c cs]; simpl; lia.
Qed.

(** ** One record per process *)

Section dedup_claims.

Implicit Types (objs : list XSessionConfigObject) (x : XSessionConfigObject).

(** The reading "first-seen wins": every kept record is the first of the
    loaded list with its process id. *)
Definition first_seen_wins objs : Prop :=
  ∀ x, x ∈ remove_duplicates_according_to_pid objs → first_with_its_pid objs x.

Definition mail_inbox : XSessionConfigObject :=
  {| window_id := "0x03000001"; window_id_the_int_type := 50331649;
     desktop_number := 0; pid := PInt 4242; window_title := "inbox";
     app_name := "mail"; cmd := ["mail"]; process_create_time := None |}.

Definition mail_compose : XSessionConfigObject :=
  {| window_id := "0x03000002"; window_id_the_int_type := 50331650;
     desktop_number := 2; pid := PInt 4242; window_title := "compose";
     app_name := "mail"; cmd := ["mail"]; process_create_time := None |}.

Definition two_windows_of_one_process : list XSessionConfigObject :=
  [mail_inbox; mail_compose].

Lemma last_with_its_pid_elem_of objs x : last_with_its_pid objs x → x ∈ objs.
Proof. intros (l1 & l2 & -> & _). apply elem_of_app. right. left. Qed.

Lemma last_is_kept objs x :
  last objs = Some x → x ∈ remove_duplicates_according_to_pid objs.
Proof.
  intros Hl. apply elem_of_kept.
  destruct objs as [|y objs _] using rev_ind; [done |].
  rewrite last_snoc in Hl. injection Hl as ->.
  exists objs, []. split; [done | apply not_elem_of_nil].
Qed.

Lemma pid_has_last_record objs p :
  p ∈ pid <$> objs → ∃ x, pid x = p ∧ last_with_its_pid objs x.
Proof.
  induction objs as [|y objs IH]; [by intros ?%elem_of_nil |].
  rewrite fmap_cons, elem_of_cons.
  destruct (decide (p ∈ pid <$> objs)) as [Hin|Hin].
  - intros _. destruct (IH Hin) as (x & Hp & l1 & l2 & -> & Hn).
    exists x. split; [done |]. by exists (y :: l1), l2.
  - intros [-> | ?]; [| done]. exists y. split; [done |]. by exists [], objs.
Qed.

(** A second window of the mail process, captured after the process was
    gone: no command line. *)
Definition mail_gone : XSessionConfigObject :=
  {| window_id := "0x03000002"; window_id_the_int_type := 50331650;
     desktop_number := 2; pid := PInt 4242; window_title := "compose";
     app_name := ""; cmd := []; process_create_time := None |}.

Definition with_mail_session : State :=
  initial_state true 2 {[ base_location_of_sessions manager ]}
    {[ (base_location_of_sessions manager, "mail")
       := {| session_name := "mail";
             session_create_time := Some "2020-05-01 09:00:00.000000";
             backup_time := None;
             x_session_config_objects := [mail_inbox; mail_gone] |} ]}.

(** C3, as amended: restore deduplication keeps exactly one record per
    distinct process id, in the order in which the process ids are first
    seen, and the record kept for a process id is the last record of the
    loaded list with that id.  In particular N >= 1 records that share one
    process id are reduced to one record, the last of them, and a
    [restore_session] of such a session (no filter) launches the command
    line of that record once if it has one (one call of [run_cmd], however
    the call and the pause after it end), and nothing otherwise. *)
Theorem restore_dedup_keeps_last_record_per_pid objs :
  NoDup (pid <$> remove_duplicates_according_to_pid objs)
  ∧ pid <$> remove_duplicates_according_to_pid objs
    = in_order_of_first_occurrence (pid <$> objs)
  ∧ (∀ p, p ∈ pid <$> remove_duplicates_according_to_pid objs
          ↔ p ∈ pid <$> objs)
  ∧ (∀ x, x ∈ remove_duplicates_according_to_pid objs
          ↔ last_with_its_pid objs x)
  ∧ (∀ p, objs ≠ [] → Forall (λ x, pid x = p) objs →
          ∃ x, last objs = Some x
               ∧ remove_duplicates_according_to_pid objs = [x]
               ∧ ∀ self world name restoring_interval s config,
                   files s !! (base_location_of_sessions self, name)
                   = Some config →
                   session_filters self = None →
                   x_session_config_objects config = objs →
                   launched
                     (trace (restore_session self world name
                               restoring_interval s).1)
                   = launched (trace s)
                     ++ (if has_command x then [cmd x] else [])).
Proof.
  assert (NoDup (pid <$> remove_duplicates_according_to_pid objs)) as Hnd.
  { rewrite kept_pids. unfold in_order_of_first_occurrence.
    rewrite reverse_Permutation. apply NoDup_remove_dups. }
  split; [done |]. split; [apply kept_pids |]. split; [| split].
  - intros p. rewrite kept_pids. unfold in_order_of_first_occurrence.
    by rewrite elem_of_reverse, elem_of_remove_dups, elem_of_reverse.
  - apply elem_of_kept.
  - intros p Hne Hall.
    destruct (last objs) as [x|] eqn:Hlast; [| by apply last_None in Hlast].
    exists x. split; [done |].
    pose proof (last_is_kept _ _ Hlast) as Hx.
    assert (∀ y, y ∈ remove_duplicates_according_to_pid objs → pid y = p) as Hp.
    { intros y Hy%elem_of_kept%last_with_its_pid_elem_of.
      by apply (proj1 (Forall_forall _ _) Hall). }
    assert (remove_duplicates_according_to_pid objs = [x]) as Hkept.
    { destruct (remove_duplicates_according_to_pid objs) as [|a [|b l]].
      + by apply elem_of_nil in Hx.
      + by apply list_elem_of_singleton in Hx as ->.
      + exfalso. rewrite !fmap_cons in Hnd.
        apply NoDup_cons in Hnd as [Hnin _]. apply Hnin.
        rewrite (Hp a), (Hp b); [left | right; left | left]. }
    split; [done |].
    intros self world name restoring_interval s config Hfile Hfilters Hobjs.
    destruct (restore_session_launched self world name restoring_interval
                s config Hfile) as (cs & -> & Hpre & Hsome).
    f_equal. revert Hpre Hsome.
    unfold records_to_restore. rewrite Hfilters, Hobjs, Hkept. simpl.
    destruct (has_command x); simpl; intros [k Hk] Hsome.
    + destruct cs as [|c cs]; [exfalso; by apply Hsome |].
      injection Hk as <- Hk. by destruct cs.
    + symmetry in Hk. by apply app_eq_nil in Hk as [-> _].
Qed.

Lemma restore_dedup_keeps_last_record_per_pid_witness :
  ∃ x, last two_windows_of_one_process = Some x
       ∧ remove_duplicates_according_to_pid two_windows_of_one_process = [x]
       ∧ ∀ self world name restoring_interval s config,
           files s !! (base_location_of_sessions self, name) = Some config →
           session_filters self = None →
           x_session_config_objects config = two_windows_of_one_process →
           launched
             (trace (restore_session self world name restoring_interval s).1)
           = launched (trace s) ++ (if has_command x then [cmd x] else []).
Proof.
  apply (proj2 (proj2 (proj2 (proj2
           (restore_dedup_keeps_last_record_per_pid
              two_windows_of_one_process)))) (PInt 4242)).
  - discriminate.
  - repeat constructor.
Defined.

(** C3, as stated, fails: of two records with one process id the second
    one is kept, not the first-seen one; and when that second record has no
    command line, the two records of the process lead to no relaunch at
    all. *)
Lemma restore_dedup_first_seen_wins_fails :
  remove_duplicates_according_to_pid two_windows_of_one_process = [mail_compose]
  ∧ ¬ first_seen_wins two_windows_of_one_process
  ∧ remove_duplicates_according_to_pid [mail_inbox; mail_gone] = [mail_gone]
  ∧ launched
      (trace (restore_session manager (λ _, desk []) "mail" 2
                with_mail_session).1) = [].
Proof.
  split; [reflexivity |]. split; [| split; reflexivity]. intros Hf.
  destruct (Hf mail_compose) as (l1 & l2 & Heq & Hnin).
  { vm_compute. left. }
  destruct l1 as [|a [|b l1]].
  - discriminate Heq.
  - injection Heq as <- _. apply Hnin. vm_compute. left.
  - injection Heq as _ _ Heq. by destruct l1.
Qed.

End dedup_claims.

(** A record whose process had no command line when it was captured. *)
Definition unrestorable : XSessionConfigObject :=
  {| window_id := "0x05000007"; window_id_the_int_type := 83886087;
     desktop_number := 3; pid := PInt 77; window_title := "panel";
     app_name := ""; cmd := []; process_create_time := None |}.

(** A session of three records, one of them without command line, in which
    two records are windows of one process. *)
Definition with_mail_and_panel_session : State :=
  initial_state true 2 {[ base_location_of_sessions manager ]}
    {[ (base_location_of_sessions manager, "mail")
       := {| session_name := "mail";
             session_create_time := Some "2020-05-01 09:00:00.000000";
             backup_time := None;
             x_session_config_objects :=
               [mail_inbox; mail_compose; unrestorable] |} ]}.

(** A desktop on which the mail program is not installed any more. *)
Definition desk_without_mail : Env :=
  {| running_windows := [];
     children := λ p, if p =? 1200 then Some [] else None;
     process_iter := [(1, ["init"])];
     process_info := λ _, None;
     run_cmd_pid := λ c,
       if bool_decide (c = ["mail"]) then Raise (FileNotFoundError "" "mail")
       else Ok 1200;
     is_gnome := false;
     get_workspace_count := 2;
     time := λ _, noon |}.

(** C7, as amended: in the loop of [restore_sessions] a record with an empty
    command line only gets its two lines printed, the second one being the
    warning, and the loop goes on with the next record.  When the restoring
    interval is not negative and every command line of the records can be
    started, the loop returns and has given to [run_cmd], and started,
    exactly the command lines of the records that have one, in order.  So
    three records of which one has an empty command line lead to exactly
    two started processes, in the loop and in a whole [restore_session] of
    a session file with three records of distinct processes and no
    filter. *)
Theorem empty_command_line_is_skipped world restoring_interval :
  (∀ obj objs s,
      cmd obj = [] →
      restore_each world restoring_interval (obj :: objs) s
      = restore_each world restoring_interval objs
          (set_trace
             (trace s ++ [Log (Restoring_application (app_name obj));
                          Log (Failure_empty_commandline (app_name obj))]) s))
  ∧ (∀ objs s,
      (0 <= restoring_interval)%Q → can_start world objs →
      (restore_sessions world restoring_interval objs s).2 = Ok tt
      ∧ started (trace (restore_sessions world restoring_interval objs s).1)
        = started (trace s) ++ (cmd <$> List.filter has_command objs)
      ∧ launched (trace (restore_sessions world restoring_interval objs s).1)
        = launched (trace s) ++ (cmd <$> List.filter has_command objs))
  ∧ (∀ objs s,
      (0 <= restoring_interval)%Q → can_start world objs →
      length objs = 3%nat →
      length (List.filter (λ obj, bool_decide (cmd obj = [])) objs) = 1%nat →
      length (started
                (trace (restore_sessions world restoring_interval objs s).1))
      = (length (started (trace s)) + 2)%nat
      ∧ length (launched
                  (trace (restore_sessions world restoring_interval objs s).1))
        = (length (launched (trace s)) + 2)%nat)
  ∧ (∀ self name config s,
      (0 <= restoring_interval)%Q →
      can_start world (x_session_config_objects config) →
      files s !! (base_location_of_sessions self, name) = Some config →
      session_filters self = None →
      NoDup (pid <$> x_session_config_objects config) →
      length (x_session_config_objects config) = 3%nat →
      length (List.filter (λ obj, bool_decide (cmd obj = []))
                (x_session_config_objects config)) = 1%nat →
      (restore_session self world name restoring_interval s).2 = Ok tt
      ∧ length (started
                  (trace (restore_session self world name restoring_interval
                            s).1))
        = (length (started (trace s)) + 2)%nat
      ∧ length (launched
                  (trace (restore_session self world name restoring_interval
                            s).1))
        = (length (launched (trace s)) + 2)%nat).
Proof.
  split; [| split; [| split]].
  - intros obj objs s Hc. rewrite restore_each_skips by done.
    f_equal. unfold print, emit, set_trace. simpl. by rewrite <- app_assoc.
  - intros objs s Hri Hstart.
    destruct (restore_sessions_started world restoring_interval objs s
                Hri Hstart) as [HOk Hst].
    split; [done |]. split; [done |].
    destruct (restore_sessions_launched world restoring_interval objs s)
      as (cs & Hl & _ & _ & Hcs).
    by rewrite Hl, (Hcs HOk).
  - intros objs s Hri Hstart H3 H1.
    destruct (restore_sessions_started world restoring_interval objs s
                Hri Hstart) as [HOk Hst].
    destruct (restore_sessions_launched world restoring_interval objs s)
      as (cs & Hl & _ & _ & Hcs).
    rewrite Hst, Hl, (Hcs HOk).
    pose proof (filter_has_command_length objs).
    rewrite !length_app, !length_fmap. lia.
  - intros self name config s Hri Hstart Hfile Hfilters Hnd H3 H1.
    assert (records_to_restore self config = x_session_config_objects config)
      as Hrecords.
    { unfold records_to_restore. rewrite Hfilters. simpl.
      by apply remove_duplicates_NoDup. }
    destruct (restore_session_started self world name restoring_interval
                s config Hfile Hri) as (HOk & Hst & Hl).
    { by rewrite Hrecords. }
    split; [done |]. rewrite Hst, Hl, Hrecords.
    pose proof (filter_has_command_length (x_session_config_objects config)).
    rewrite !length_app, !length_fmap. lia.
Qed.

Lemma empty_command_line_is_skipped_witness :
  length (started
            (trace (restore_sessions (λ _, desk []) 2
                      [mail_inbox; unrestorable; editor_record] fresh).1))
  = (length (started (trace fresh)) + 2)%nat
  ∧ length (launched
              (trace (restore_sessions (λ _, desk []) 2
                        [mail_inbox; unrestorable; editor_record] fresh).1))
    = (length (launched (trace fresh)) + 2)%nat.
Proof.
  apply (proj1 (proj2 (proj2 (empty_command_line_is_skipped (λ _, desk []) 2))));
    try reflexivity.
  - discriminate.
  - intros t obj _ _. by exists 1200.
Defined.

(** C7, as stated, fails: a session of three records, one of them with an
    empty command line, leads to one started process only when the other
    two records are windows of one process (deduplication comes first);
    when the restoring interval is negative, the pause after the first
    launch raises [ValueError] and ends the loop; and when a program cannot
    be started, the exception of [run_cmd] ends the loop and the restore
    before the remaining records are looked at. *)
Lemma three_records_with_an_empty_command_line_can_start_one :
  (restore_session manager (λ _, desk []) "mail" 2
     with_mail_and_panel_session).2 = Ok tt
  ∧ started
      (trace (restore_session manager (λ _, desk []) "mail" 2
                with_mail_and_panel_session).1) = [["mail"]]
  ∧ (restore_sessions (λ _, desk []) (-1)
       [mail_inbox; unrestorable; editor_record] fresh).2 = Raise ValueError
  ∧ started
      (trace (restore_sessions (λ _, desk []) (-1)
                [mail_inbox; unrestorable; editor_record] fresh).1)
    = [["mail"]]
  ∧ (restore_sessions (λ _, desk_without_mail) 2
       [editor_record; mail_inbox; unrestorable] fresh).2
    = Raise (FileNotFoundError "" "mail")
  ∧ started
      (trace (restore_sessions (λ _, desk_without_mail) 2
                [editor_record; mail_inbox; unrestorable] fresh).1)
    = [["editor"; "notes.txt"]].
Proof.
  split; [| split; [| split; [| split; [| split]]]]; by vm_compute.
Qed.

(** ** Sessions without records *)

Definition empty_session : XSessionConfig :=
  {| session_name := "empty";
     session_create_time := Some "2020-05-01 09:00:00.000000";
     backup_time := None;
     x_session_config_objects := [] |}.

Definition with_empty_session : State :=
  initial_state true 2 {[ base_location_of_sessions manager ]}
    {[ (base_location_of_sessions manager, "empty") := empty_session ]}.

(** C8: when no record is left after deduplication and filtering,
    [restore_session] prints its three lines and returns: nothing is
    launched, no window is moved, no request goes to the workspace
    settings, and the cache, the settings, the files and the clock are as
    before. *)
Theorem restore_of_nothing_has_no_effect self world name restoring_interval
    s config :
  files s !! (base_location_of_sessions self, name) = Some config →
  records_to_restore self config = [] →
  (restore_session self world name restoring_interval s).2 = Ok tt
  ∧ trace (restore_session self world name restoring_interval s).1
    = trace s
      ++ [Log (Restoring_session_located (base_location_of_sessions self) name);
          Log No_application_to_restore; Log Done]
  ∧ launched (trace (restore_session self world name restoring_interval s).1)
    = launched (trace s)
  ∧ moved_handles (trace (restore_session self world name restoring_interval s).1)
    = moved_handles (trace s)
  ∧ workspace_requests
      (trace (restore_session self world name restoring_interval s).1)
    = workspace_requests (trace s)
  ∧ set_trace (trace s) (restore_session self world name restoring_interval s).1
    = s.
Proof.
  intros Hfile Hnone.
  rewrite (restore_session_nothing self world name restoring_interval s config)
    by done.
  simpl. rewrite launched_app, moved_handles_app, workspace_requests_app.
  simpl. rewrite !app_nil_r. repeat split; try done. by destruct s.
Qed.

Lemma restore_of_nothing_has_no_effect_witness :
  (restore_session manager (λ _, desk []) "empty" 2 with_empty_session).2
  = Ok tt.
Proof.
  apply (restore_of_nothing_has_no_effect manager (λ _, desk []) "empty" 2
           with_empty_session empty_session); reflexivity.
Defined.

(** C10: when no record is left after the filters of [move_window] (or none
    was loaded), [move_window] creates its pool and then raises the
    [ValueError] of [max] on an empty list, out of [_get_max_desktop_number];
    [restore_session] returns normally when its records are empty, it has
    the only guard. *)
Theorem move_window_of_nothing_raises self world name restoring_interval
    s config :
  files s !! (base_location_of_sessions self, name) = Some config →
  apply_session_filters (session_filters self)
    (sort_by_desktop_number (x_session_config_objects config)) = [] →
  move_window self world name s
  = (set_trace (trace s ++ [PoolCreated]) s, Raise ValueError)
  ∧ (∀ s', _get_max_desktop_number [] s' = (s', Raise ValueError))
  ∧ (records_to_restore self config = [] →
     (restore_session self world name restoring_interval s).2 = Ok tt).
Proof.
  intros Hfile Hnone. split; [| split].
  - unfold move_window. cbv zeta. unfold bind at 1. unfold path_exists.
    rewrite Hfile, bool_decide_eq_true_2 by done. cbn [negb].
    unfold bind at 1. unfold read_session. rewrite Hfile. rewrite Hnone.
    reflexivity.
  - done.
  - intros Hr.
    by rewrite (restore_session_nothing self world name restoring_interval
                  s config).
Qed.

Lemma move_window_of_nothing_raises_witness :
  move_window manager (λ _, desk []) "empty" with_empty_session
  = (set_trace (trace with_empty_session ++ [PoolCreated]) with_empty_session,
     Raise ValueError)
  ∧ (restore_session manager (λ _, desk []) "empty" 2 with_empty_session).2
    = Ok tt.
Proof.
  destruct (move_window_of_nothing_raises manager (λ _, desk []) "empty" 2
              with_empty_session empty_session) as (Hm & _ & Hr);
    [reflexivity | reflexivity |].
  split; [exact Hm | apply Hr; reflexivity].
Defined.

(** ** Backup identifiers *)

Section backup_ids.

Local Open Scope N_scope.

(** The ranges of the fields of a [datetime.datetime]. *)
Definition valid_datetime (t : datetime) : Prop :=
  1 ≤ year t ≤ 9999 ∧ 1 ≤ month t ≤ 12 ∧ 1 ≤ day t ≤ 31
  ∧ hour t < 24 ∧ minute t < 60 ∧ second t < 60 ∧ microsecond t < 1000000.

(** Two times within the same wall-clock second. *)
Definition same_second (t1 t2 : datetime) : Prop :=
  year t1 = year t2 ∧ month t1 = month t2 ∧ day t1 = day t2
  ∧ hour t1 = hour t2 ∧ minute t1 = minute t2 ∧ second t1 = second t2.

Lemma digit_inj a b : a < 10 → b < 10 → digit a = digit b → a = b.
Proof.
  intros Ha Hb Heq. unfold digit in Heq.
  apply (f_equal Ascii.N_of_ascii) in Heq.
  rewrite !Ascii.N_ascii_embedding in Heq by lia. lia.
Qed.

Lemma zero_padded_length width n :
  String.length (zero_padded width n) = width.
Proof.
  revert n. induction width as [|w IH]; intros n; simpl; [done |].
  by rewrite IH.
Qed.

Lemma zero_padded_inj width a b :
  a < 10 ^ N.of_nat width → b < 10 ^ N.of_nat width →
  zero_padded width a = zero_padded width b → a = b.
Proof.
  revert a b. induction width as [|w IH]; intros a b Ha Hb Heq.
  - simpl in Ha, Hb. lia.
  - rewrite Nat2N.inj_succ, N.pow_succ_r' in Ha, Hb.
    assert (10 ^ N.of_nat w ≠ 0) as Hpow by (apply N.pow_nonzero; lia).
    cbn [zero_padded] in Heq. injection Heq as Hd Hrest.
    apply IH in Hrest; [| by apply N.mod_upper_bound..].
    apply digit_inj in Hd;
      [| apply N.Div0.div_lt_upper_bound; lia..].
    rewrite (N.div_mod a (10 ^ N.of_nat w)), (N.div_mod b (10 ^ N.of_nat w))
      by done.
    by rewrite Hd, Hrest.
Qed.

Lemma append_inj_length (a1 a2 b1 b2 : string) :
  String.length a1 = String.length a2 →
  a1 +:+ b1 = a2 +:+ b2 → a1 = a2 ∧ b1 = b2.
Proof.
  revert a2. induction a1 as [|c a1 IH]; intros [|c' a2] Hlen Heq;
    try done.
  simpl in Hlen, Heq. injection Heq as -> Heq.
  destruct (IH a2) as [-> ->]; [lia | done | done].
Qed.

(** Valid times that differ have different backup identifiers. *)
Lemma strftime_backup_id_inj t1 t2 :
  valid_datetime t1 → valid_datetime t2 →
  strftime_backup_id t1 = strftime_backup_id t2 → t1 = t2.
Proof.
  intros (Hy1 & Hm1 & Hd1 & HH1 & HM1 & HS1 & Hf1)
         (Hy2 & Hm2 & Hd2 & HH2 & HM2 & HS2 & Hf2) Heq.
  unfold strftime_backup_id in Heq.
  repeat (apply append_inj_length in Heq as [?%zero_padded_inj Heq];
          [| simpl; lia.. | by rewrite !zero_padded_length]).
  apply zero_padded_inj in Heq; [| simpl; lia..].
  destruct t1, t2; simpl in *; congruence.
Qed.

Lemma backup_session_path_inj self path t1 t2 :
  valid_datetime t1 → valid_datetime t2 →
  backup_session_path self path t1 = backup_session_path self path t2 →
  t1 = t2.
Proof.
  intros Hv1 Hv2 [= Heq]. apply strftime_backup_id_inj; [done | done |].
  by do 2 apply (inj (String.append _)) in Heq.
Qed.

Lemma string_length_append (a b : string) :
  String.length (a +:+ b) = (String.length a + String.length b)%nat.
Proof. induction a as [|c a IH]; simpl; [done | by rewrite IH]. Qed.

(** A backup is never written over the session itself. *)
Lemma backup_session_path_ne self path t :
  backup_session_path self path t ≠ path.
Proof.
  destruct path as [dir name]. intros [= _ Heq].
  apply (f_equal String.length) in Heq.
  rewrite !string_length_append in Heq. simpl in Heq. lia.
Qed.

End backup_ids.

(** ** Saving over an existing session *)

Section saving.

Implicit Types (env : Env) (s : State) (path : Path).

Lemma write_session_Ok path c s :
  path.1 ∈ dirs s →
  write_session path c s = (set_files (<[path := c]> (files s)) s, Ok tt).
Proof. intros Hd. unfold write_session. by rewrite bool_decide_eq_true_2. Qed.

Lemma backup_session_spec self env path old s :
  files s !! path = Some old →
  ∃ s',
    backup_session self env path s = (s', Ok tt)
    ∧ files s'
      = <[backup_session_path self path (time env (time_calls s))
          := set_backup_time (strftime_stamp (time env (time_calls s))) old]>
          (files s)
    ∧ dirs s' = {[base_location_of_backup_sessions self]} ∪ dirs s
    ∧ time_calls s' = S (time_calls s).
Proof.
  intros Hfile. unfold backup_session.
  erewrite bind_Ok by reflexivity.
  erewrite bind_Ok
    by (unfold read_session; cbn [files print emit read_time set_trace
          set_time_calls fst]; rewrite Hfile; reflexivity).
  erewrite bind_Ok by reflexivity.
  cbv zeta. erewrite bind_Ok by reflexivity.
  cbn [dirs print emit read_time set_trace set_time_calls fst
       backup_session_path].
  destruct (decide (base_location_of_backup_sessions self ∈ dirs s))
    as [Hdir|Hdir].
  - rewrite bool_decide_eq_true_2 by done. cbn [negb].
    erewrite bind_Ok by reflexivity. erewrite bind_Ok by reflexivity.
    unfold write_session.
    cbn [dirs files print emit read_time set_trace set_time_calls fst
         time_calls].
    rewrite bool_decide_eq_true_2 by done.
    eexists. split; [reflexivity |]. cbn. split; [done |].
    split; [set_solver | done].
  - rewrite bool_decide_eq_false_2 by done. cbn [negb].
    erewrite bind_Ok by reflexivity. erewrite bind_Ok by reflexivity.
    unfold write_session.
    cbn [dirs files print emit read_time set_trace set_time_calls fst
         time_calls mkdir set_dirs].
    rewrite bool_decide_eq_true_2 by set_solver.
    eexists. split; [reflexivity |]. by cbn.
Qed.

(** The capture neither reads the clock nor touches the files. *)
Definition outside_as (s0 : State) (s : State) : Prop :=
  files s = files s0 ∧ dirs s = dirs s0 ∧ time_calls s = time_calls s0.

Lemma preserves_map_M {A B} I (f : A → M B) (l : list A) :
  (∀ x, preserves I (f x)) → preserves I (map_M f l).
Proof.
  intros Hf. induction l as [|x l IH]; simpl; [apply preserves_ret |].
  apply preserves_bind; [done |]. intros y.
  apply preserves_bind; [done |]. intros ys. apply preserves_ret.
Qed.

Lemma get_session_details_outside env remove_duplicates_by_pid filters s :
  outside_as s (get_session_details env remove_duplicates_by_pid filters s).1.
Proof.
  assert (preserves (outside_as s)
            (get_session_details env remove_duplicates_by_pid filters)) as H;
    [| by apply H].
  unfold get_session_details.
  apply preserves_bind; [by intros ? | intros _].
  apply preserves_bind.
  - apply preserves_map_M. intros sd. unfold with_process_info.
    destruct (psutil_Process env (pid sd)) as [[[? ?] ?]|[]];
      try apply preserves_ret; try apply preserves_raise.
    apply preserves_bind; [by intros ? | intros _; apply preserves_ret].
  - intros objs. apply preserves_bind; [by intros ? | intros _].
    apply preserves_ret.
Qed.

Lemma save_session_over_existing self env name session_filter s old sg config :
  get_session_details env false (Some [session_filter]) s = (sg, Ok config) →
  files s !! (base_location_of_sessions self, name) = Some old →
  base_location_of_sessions self ∈ dirs s →
  ∃ s',
    save_session self env name session_filter s = (s', Ok tt)
    ∧ files s'
      = <[(base_location_of_sessions self, name)
          := {| session_name := name;
                session_create_time :=
                  Some (strftime_stamp (time env (S (time_calls s))));
                backup_time := backup_time config;
                x_session_config_objects :=
                  x_session_config_objects config |}]>
          (<[backup_session_path self (base_location_of_sessions self, name)
               (time env (time_calls s))
             := set_backup_time (strftime_stamp (time env (time_calls s)))
                  old]> (files s))
    ∧ time_calls s' = S (S (time_calls s)).
Proof.
  intros Hcapture Hfile Hdir.
  pose proof (get_session_details_outside env false (Some [session_filter]) s)
    as (Hf & Hd & Ht).
  rewrite Hcapture in Hf, Hd, Ht. simpl in Hf, Hd, Ht.
  unfold save_session. erewrite bind_Ok by exact Hcapture. cbv zeta.
  erewrite bind_Ok by reflexivity. erewrite bind_Ok by reflexivity.
  cbn [dirs print emit set_trace fst]. rewrite Hd.
  rewrite bool_decide_eq_true_2 by done. cbn [negb].
  set (s1 := set_trace _ sg).
  destruct (backup_session_spec self env
              (base_location_of_sessions self, name) old s1)
    as (s2 & Hbackup & Hf2 & Hd2 & Ht2).
  { subst s1. cbn [files print emit set_trace fst]. by rewrite Hf. }
  assert (path_exists (base_location_of_sessions self, name) s1
          = (s1, Ok true)) as Hfound.
  { unfold path_exists. rewrite bool_decide_eq_true_2; [done |].
    subst s1. cbn [files set_trace]. by rewrite Hf, Hfile. }
  erewrite bind_Ok by (erewrite bind_Ok by exact Hfound; exact Hbackup).
  erewrite bind_Ok by reflexivity. erewrite bind_Ok by reflexivity.
  erewrite bind_Ok; cycle 1.
  { apply write_session_Ok.
    cbn [dirs print emit read_time set_trace set_time_calls fst].
    rewrite Hd2. subst s1. cbn [dirs set_trace]. rewrite Hd. set_solver. }
  eexists. split; [reflexivity |].
  cbn [files time_calls print emit read_time set_trace set_time_calls
       set_files fst].
  rewrite Hf2, Ht2. subst s1. cbn [files time_calls set_trace].
  by rewrite Hf, Ht.
Qed.

End saving.

(** ** Backups of a saved session *)

Definition work_session : XSessionConfig :=
  {| session_name := "work";
     session_create_time := Some "2020-04-30 18:00:00.000000";
     backup_time := None;
     x_session_config_objects := [editor_record] |}.

Definition with_work_session : State :=
  initial_state true 2 {[ base_location_of_sessions manager ]}
    {[ (base_location_of_sessions manager, "work") := work_session ]}.

Definition a_microsecond_after_noon : datetime :=
  {| year := 2020; month := 5; day := 1;
     hour := 12; minute := 0; second := 0; microsecond := 1 |}.

(** The reading of the last part of C9: two backup times within the same
    wall-clock second give two distinct backup file names. *)
Definition same_second_backups_are_distinct : Prop :=
  ∀ self path t1 t2,
    valid_datetime t1 → valid_datetime t2 → same_second t1 t2 →
    backup_session_path self path t1 ≠ backup_session_path self path t2.

(** C9, as stated, fails: when the clock reads the same microsecond at two
    saves of one session, both backups get the same file name, and the
    second backup replaces the first: after the two saves the backup
    directory holds one file, the stamped copy of the first save, and the
    copy of the original session is gone. *)
Lemma saves_in_one_microsecond_share_the_backup_name :
  ¬ same_second_backups_are_distinct
  ∧ (let s1 := (save_session manager (desk [editor_window]) "work" None
                  with_work_session).1 in
     let s2 := (save_session manager (desk [editor_window; editor_preferences])
                  "work" None s1).1 in
     let backup := backup_session_path manager
                     (base_location_of_sessions manager, "work") noon in
     backup = (base_location_of_backup_sessions manager,
               "work.backup-20200501120000000000")
     ∧ files s1 !! backup
       = Some (set_backup_time "2020-05-01 12:00:00.000000" work_session)
     ∧ (x_session_config_objects <$> files s2 !! backup)
       = (x_session_config_objects
            <$> files s1 !! (base_location_of_sessions manager, "work"))
     ∧ files s2 !! backup ≠ files s1 !! backup
     ∧ size (files s2) = 2%nat).
Proof.
  split.
  - intros Hc. apply (Hc manager ("", "work") noon noon); try done;
      vm_compute; repeat split; congruence.
  - cbv zeta. split; [reflexivity |]. split; [by vm_compute |].
    split; [by vm_compute |]. split; [| by vm_compute].
    vm_compute. congruence.
Qed.

(** C9, as amended: when [save_session] finds a file at the session path
    (and the capture of the running windows succeeds), it first writes the
    loaded old session, with [backup_time] set to the current time and every
    other field as loaded, to the backup directory under the name of the
    session followed by [.backup-] and the time with its microseconds, and
    then writes the new session at the session path.  Backup times that
    differ give different backup file names; so do two saves within the same
    wall-clock second whose clock readings differ in the microsecond. *)
Theorem save_backs_up_the_existing_session self env name session_filter
    s old sg config :
  get_session_details env false (Some [session_filter]) s = (sg, Ok config) →
  files s !! (base_location_of_sessions self, name) = Some old →
  base_location_of_sessions self ∈ dirs s →
  (∃ s',
      save_session self env name session_filter s = (s', Ok tt)
      ∧ files s'
        = <[(base_location_of_sessions self, name)
            := {| session_name := name;
                  session_create_time :=
                    Some (strftime_stamp (time env (S (time_calls s))));
                  backup_time := backup_time config;
                  x_session_config_objects :=
                    x_session_config_objects config |}]>
            (<[(base_location_of_backup_sessions self,
                name +:+ ".backup-"
                +:+ strftime_backup_id (time env (time_calls s)))
               := {| session_name := session_name old;
                     session_create_time := session_create_time old;
                     backup_time :=
                       Some (strftime_stamp (time env (time_calls s)));
                     x_session_config_objects :=
                       x_session_config_objects old |}]> (files s))
      ∧ files s' !! (base_location_of_backup_sessions self,
                     name +:+ ".backup-"
                     +:+ strftime_backup_id (time env (time_calls s)))
        = Some {| session_name := session_name old;
                  session_create_time := session_create_time old;
                  backup_time :=
                    Some (strftime_stamp (time env (time_calls s)));
                  x_session_config_objects := x_session_config_objects old |})
  ∧ (∀ path t1 t2,
      valid_datetime t1 → valid_datetime t2 → t1 ≠ t2 →
      backup_session_path self path t1 ≠ backup_session_path self path t2)
  ∧ (∀ path t1 t2,
      valid_datetime t1 → valid_datetime t2 → same_second t1 t2 →
      microsecond t1 ≠ microsecond t2 →
      backup_session_path self path t1 ≠ backup_session_path self path t2).
Proof.
  intros Hcapture Hfile Hdir. split; [| split].
  - destruct (save_session_over_existing self env name session_filter s old
                sg config Hcapture Hfile Hdir) as (s' & Hsave & Hfiles & _).
    exists s'. split; [done |]. split; [done |]. rewrite Hfiles.
    rewrite lookup_insert_ne; [by rewrite lookup_insert_eq |].
    intros Heq.
    by apply (backup_session_path_ne self (base_location_of_sessions self, name)
                (time env (time_calls s))).
  - intros path t1 t2 Hv1 Hv2 Hne Heq. apply Hne.
    by apply (backup_session_path_inj self path).
  - intros path t1 t2 Hv1 Hv2 _ Hne Heq. apply Hne.
    by rewrite (backup_session_path_inj self path t1 t2).
Qed.

Lemma save_backs_up_the_existing_session_witness :
  backup_session_path manager (base_location_of_sessions manager, "work") noon
  ≠ backup_session_path manager (base_location_of_sessions manager, "work")
      a_microsecond_after_noon.
Proof.
  destruct (save_backs_up_the_existing_session manager (desk [editor_window])
              "work" None with_work_session work_session
              (get_session_details (desk [editor_window]) false (Some [None])
                 with_work_session).1
              {| session_name := ""; session_create_time := None;
                 backup_time := None;
                 x_session_config_objects :=
                   [ {| window_id := "0x04600003";
                        window_id_the_int_type := 73400323;
                        desktop_number := 0; pid := PInt 1200;
                        window_title := "notes.txt - Editor";
                        app_name := "editor";
                        cmd := ["editor"; "notes.txt"];
                        process_create_time := Some "2020-05-01 11:59:58" |} ] |})
    as (_ & _ & Hdistinct).
  - reflexivity.
  - reflexivity.
  - by vm_compute.
  - apply Hdistinct.
    + vm_compute. repeat split; congruence.
    + vm_compute. repeat split; congruence.
    + repeat split.
    + discriminate.
Defined.

(** * Further properties of the code *)

From Stdlib Require Import Sorted.

(** ** The filter pipeline (lines 88-93, 144-148, 247-251) *)

(** The filters that are present, in order. *)
Definition present_filters (l : list (option SessionFilter)) : list SessionFilter :=
  omap id l.

Lemma apply_session_filters_app l1 l2 objs :
  apply_session_filters (Some (l1 ++ l2)) objs
  = apply_session_filters (Some l2) (apply_session_filters (Some l1) objs).
Proof. unfold apply_session_filters. by rewrite foldl_app. Qed.

(** An absent filter list leaves the records as they are; a filter list is
    applied from left to right, each filter on the result of the one before;
    and the entries that are [None] are skipped wherever they stand: the
    result is that of the present filters alone, which is the composition of
    them. *)
Theorem session_filters_compose_and_skip_none l1 l2 objs :
  apply_session_filters None objs = objs
  ∧ apply_session_filters (Some (l1 ++ None :: l2)) objs
    = apply_session_filters (Some (l1 ++ l2)) objs
  ∧ apply_session_filters (Some (l1 ++ l2)) objs
    = apply_session_filters (Some l2) (apply_session_filters (Some l1) objs)
  ∧ apply_session_filters (Some l1) objs
    = foldl (λ acc g, g acc) objs (present_filters l1).
Proof.
  split; [done |]. split; [| split].
  - by rewrite !apply_session_filters_app.
  - apply apply_session_filters_app.
  - unfold apply_session_filters, present_filters. revert objs.
    induction l1 as [|[g|] l1 IH]; intros objs; simpl; [done | apply IH..].
Qed.

(** ** The number of desktops that are needed (lines 259-262) *)

Lemma foldl_max_bounds (d : Z) (ds : list Z) :
  d ≤ foldl Z.max d ds
  ∧ (∀ x, x ∈ ds → x ≤ foldl Z.max d ds)
  ∧ foldl Z.max d ds ∈ d :: ds.
Proof.
  revert d. induction ds as [|y ds IH]; intros d; simpl.
  - split; [lia |]. split; [by intros x ?%elem_of_nil | left].
  - destruct (IH (Z.max d y)) as (Hd & Hall & Hin). split; [lia |]. split.
    + intros x [->|Hx]%elem_of_cons; [lia | by apply Hall].
    + apply elem_of_cons in Hin as [Heq|Hin].
      * rewrite Heq. destruct (Z.max_spec d y) as [[_ ->] | [_ ->]];
          [right; left | left].
      * right. by right.
Qed.

(** For records that are not empty, [_get_max_desktop_number] returns
    without any effect one more than the desktop number of some record, and
    this is more than the desktop number of every record: desktops
    [0 .. n-1] hold every record. *)
Theorem _get_max_desktop_number_is_one_more_than_the_greatest objs s :
  objs ≠ [] →
  ∃ n, _get_max_desktop_number objs s = (s, Ok n)
       ∧ (∀ o, o ∈ objs → desktop_number o < n)
       ∧ (∃ o, o ∈ objs ∧ n = desktop_number o + 1).
Proof.
  intros Hne. destruct objs as [|o objs]; [done |].
  unfold _get_max_desktop_number. rewrite fmap_cons.
  destruct (foldl_max_bounds (desktop_number o) (desktop_number <$> objs))
    as (Hd & Hall & Hin).
  eexists. split; [reflexivity |]. split.
  - intros o' [->|Ho']%elem_of_cons; [lia |].
    assert (desktop_number o' ≤ foldl Z.max (desktop_number o)
                                  (desktop_number <$> objs)); [| lia].
    apply Hall. by apply list_elem_of_fmap_2.
  - apply elem_of_cons in Hin as [Heq|Hin].
    + exists o. split; [left | by rewrite Heq].
    + apply list_elem_of_fmap in Hin as (o' & Heq & Ho').
      exists o'. split; [by right | by rewrite Heq].
Qed.

Lemma _get_max_desktop_number_is_one_more_than_the_greatest_witness :
  ∃ n, _get_max_desktop_number [mail_inbox; unrestorable; editor_record] fresh
       = (fresh, Ok n)
       ∧ (∀ o, o ∈ [mail_inbox; unrestorable; editor_record] →
               desktop_number o < n)
       ∧ (∃ o, o ∈ [mail_inbox; unrestorable; editor_record]
               ∧ n = desktop_number o + 1).
Proof.
  apply _get_max_desktop_number_is_one_more_than_the_greatest. discriminate.
Defined.

(** ** The order of the windows (lines 245, 305) *)

Definition on_desktop (d : Z) (o : XSessionConfigObject) : bool :=
  bool_decide (desktop_number o = d).

Lemma insert_by_desktop_sorted x l :
  StronglySorted (λ a b, desktop_number a ≤ desktop_number b) l →
  StronglySorted (λ a b, desktop_number a ≤ desktop_number b)
    (insert_by_desktop x l).
Proof.
  induction 1 as [|y l Hl IH Hy]; simpl; [by repeat constructor |].
  case_bool_decide as Hle.
  - constructor; [by constructor |]. constructor; [done |].
    eapply Forall_impl; [exact Hy |]. simpl. intros z Hz. lia.
  - constructor; [done |]. rewrite insert_by_desktop_Permutation.
    constructor; [lia | done].
Qed.

Lemma insert_by_desktop_on_desktop d x l :
  List.filter (on_desktop d) (insert_by_desktop x l)
  = List.filter (on_desktop d) (x :: l).
Proof.
  induction l as [|y l IH]; [done |]. cbn [insert_by_desktop].
  case_bool_decide as Hle; [done |]. cbn [List.filter]. rewrite IH.
  cbn [List.filter]. unfold on_desktop.
  destruct (decide (desktop_number x = d)) as [Hx|Hx];
    destruct (decide (desktop_number y = d)) as [Hy|Hy];
    rewrite ?(bool_decide_eq_true_2 _ Hx), ?(bool_decide_eq_false_2 _ Hx),
      ?(bool_decide_eq_true_2 _ Hy), ?(bool_decide_eq_false_2 _ Hy);
    try done.
  lia.
Qed.

(** Sorting by desktop number gives the same records in the order of their
    desktop numbers, and it is stable: the records of one desktop keep the
    order in which they were. *)
Theorem sort_by_desktop_number_is_a_stable_sort l :
  StronglySorted (λ a b, desktop_number a ≤ desktop_number b)
    (sort_by_desktop_number l)
  ∧ sort_by_desktop_number l ≡ₚ l
  ∧ ∀ d, List.filter (on_desktop d) (sort_by_desktop_number l)
         = List.filter (on_desktop d) l.
Proof.
  split; [| split; [apply sort_by_desktop_number_Permutation |]].
  - induction l as [|x l IH]; simpl; [constructor |].
    by apply insert_by_desktop_sorted.
  - intros d. induction l as [|x l IH]; [done |].
    cbn [sort_by_desktop_number foldr]. rewrite insert_by_desktop_on_desktop.
    cbn [List.filter]. fold (sort_by_desktop_number l). by rewrite IH.
Qed.

(** ** What an attempt moves (lines 276-334) *)

(** The move commands, with their target desktops, in order. *)
Fixpoint move_commands (t : list event) : list (string * Z) :=
  match t with
  | [] => []
  | MoveWindowTo wid desktop :: t' => (wid, desktop) :: move_commands t'
  | _ :: t' => move_commands t'
  end.

Lemma move_commands_app t1 t2 :
  move_commands (t1 ++ t2) = move_commands t1 ++ move_commands t2.
Proof. induction t1 as [|[] t1 IH]; simpl; try done. by rewrite IH. Qed.

Lemma for_each_move_one_commands desktop ws s :
  ∃ new,
    move_commands (trace (for_each ws (move_one desktop) s).1)
    = move_commands (trace s) ++ new
    ∧ ∀ wid d, (wid, d) ∈ new →
               d = desktop ∧ (wid ∉ _moved_windowids_cache s)
               ∧ ∃ w, w ∈ ws ∧ window_id w = wid.
Proof.
  revert s. induction ws as [|w ws IH]; intros s; simpl.
  - exists []. rewrite app_nil_r. split; [done | by intros ?? ?%elem_of_nil].
  - unfold bind.
    destruct (decide (window_id w ∈ _moved_windowids_cache s)) as [Hin|Hin].
    + rewrite move_one_cached by done.
      destruct (IH s) as (new & -> & Hnew). exists new. split; [done |].
      intros wid d Hwd. destruct (Hnew wid d Hwd) as (? & ? & w' & ? & ?).
      repeat split; try done. exists w'. split; [by right | done].
    + rewrite move_one_fresh by done.
      match goal with |- context [for_each ws _ ?s1] =>
        destruct (IH s1) as (new & -> & Hnew) end.
      exists ((window_id w, desktop) :: new). split.
      * simpl. rewrite move_commands_app. simpl. by rewrite <- app_assoc.
      * intros wid d [[= -> ->]|Hwd]%elem_of_cons.
        -- repeat split; try done. exists w. split; [left | done].
        -- destruct (Hnew wid d Hwd) as (? & Hc & w' & ? & ?). simpl in Hc.
           repeat split; try done.
           ++ intros Hc'. apply Hc, elem_of_app. by left.
           ++ exists w'. split; [by right | done].
Qed.

Lemma _move_window_without_pid env obj pid need_retry s :
  truthy pid = false →
  _move_window env obj pid need_retry s
  = if bool_decide (length (cmd obj) ≤ 0)%nat then (s, Ok tt)
    else try_except
           (place_windows env obj
              (pids_by_cmdline (process_iter env) (cmd obj)) need_retry)
           (λ e, match e with
                 | NeedRetryException _ => raise e
                 | _ => print (Traceback e)
                 end) s.
Proof.
  intros Hpid. unfold _move_window, _move_window_body, try_except.
  unfold bind at 1.
  destruct pid as [p|]; [rewrite Hpid |]; cbn [ret];
    rewrite bool_decide_eq_true_2 by done; by case_bool_decide.
Qed.

(** The four ways in which [_move_window] ends. *)
Lemma _move_window_cases env obj pid need_retry s :
  _move_window env obj pid need_retry s = (s, Ok tt)
  ∨ (∃ e, _move_window env obj pid need_retry s
          = ((print (Traceback e) s).1, Ok tt))
  ∨ _move_window env obj pid need_retry s
    = (s, Raise (NeedRetryException obj))
  ∨ ∃ pids,
      _move_window env obj pid need_retry s
      = for_each (List.filter (needs_move obj pids) (snapshot env))
          (move_one (desktop_number obj)) s.
Proof.
  assert (∀ pids,
            try_except (place_windows env obj pids need_retry)
              (λ e, match e with
                    | NeedRetryException _ => raise e
                    | _ => print (Traceback e)
                    end) s = (s, Ok tt)
            ∨ try_except (place_windows env obj pids need_retry)
                (λ e, match e with
                      | NeedRetryException _ => raise e
                      | _ => print (Traceback e)
                      end) s = (s, Raise (NeedRetryException obj))
            ∨ try_except (place_windows env obj pids need_retry)
                (λ e, match e with
                      | NeedRetryException _ => raise e
                      | _ => print (Traceback e)
                      end) s
              = for_each (List.filter (needs_move obj pids) (snapshot env))
                  (move_one (desktop_number obj)) s) as Hplace.
  { intros pids. unfold try_except.
    destruct (decide (List.filter (needs_move obj pids) (snapshot env) = []))
      as [Hnone|Hsome].
    - destruct need_retry.
      + rewrite place_windows_needs_retry by done. right. by left.
      + rewrite place_windows_no_retry_nothing by done. by left.
    - rewrite place_windows_moves by done. right. right.
      pose proof (for_each_move_one_Ok (desktop_number obj)
                    (List.filter (needs_move obj pids) (snapshot env)) s) as HOk.
      destruct (for_each _ _ s) as [s' r]. simpl in HOk. by subst r. }
  destruct (truthy pid) eqn:Hpid.
  - destruct pid as [p|]; [| done]. unfold truthy in Hpid.
    apply negb_true_iff, Z.eqb_neq in Hpid.
    destruct (children env p) as [cs|] eqn:Hc.
    + rewrite (_move_window_of_launch env obj p cs) by done.
      destruct (Hplace (candidates_of_launch cs p)) as [H1 | [H1 | H1]];
        rewrite H1; [by left | right; right; by left |].
      right. right. right. by eexists.
    + rewrite _move_window_of_dead_launch by done. right. left. by eexists.
  - rewrite _move_window_without_pid by done.
    case_bool_decide; [by left |].
    destruct (Hplace (pids_by_cmdline (process_iter env) (cmd obj)))
      as [H1 | [H1 | H1]];
      rewrite H1; [by left | right; right; by left |].
    right. right. right. by eexists.
Qed.

(** Whatever it is given, an attempt only issues move commands to the
    desktop of the record, for running windows that have the title of the
    record, are on another desktop and were not moved before by this
    manager; the commands issued before stay as they are. *)
Theorem attempt_only_moves_misplaced_windows_of_the_record
    env obj pid need_retry s :
  ∃ new,
    move_commands (trace (_move_window env obj pid need_retry s).1)
    = move_commands (trace s) ++ new
    ∧ ∀ wid d, (wid, d) ∈ new →
        d = desktop_number obj
        ∧ (wid ∉ _moved_windowids_cache s)
        ∧ ∃ w, w ∈ running_windows env ∧ window_id w = wid
               ∧ window_title w = window_title obj
               ∧ desktop_number w ≠ desktop_number obj.
Proof.
  destruct (_move_window_cases env obj pid need_retry s)
    as [-> | [[e ->] | [-> | [pids ->]]]].
  - exists []. rewrite app_nil_r. split; [done | by intros ?? ?%elem_of_nil].
  - exists []. simpl. rewrite move_commands_app. simpl.
    split; [done | by intros ?? ?%elem_of_nil].
  - exists []. rewrite app_nil_r. split; [done | by intros ?? ?%elem_of_nil].
  - destruct (for_each_move_one_commands (desktop_number obj)
                (List.filter (needs_move obj pids) (snapshot env)) s)
      as (new & Hnew & Hall).
    exists new. split; [done |]. intros wid d Hwd.
    destruct (Hall wid d Hwd) as (-> & Hc & w & Hw & <-).
    split; [done |]. split; [done |].
    apply list_elem_of_In, filter_In in Hw as [Hw Hneeds].
    apply list_elem_of_In, elem_of_snapshot in Hw.
    unfold needs_move in Hneeds.
    apply andb_true_iff in Hneeds as [[_ Ht]%andb_true_iff Hd].
    apply bool_decide_eq_true in Ht. apply negb_true_iff in Hd.
    apply bool_decide_eq_false in Hd. by exists w.
Qed.

(** An attempt that is given no process id (or the process id 0) for a
    record without command line returns at once: it does not look at the
    windows, changes nothing and does not ask for a retry. *)
Theorem attempt_without_pid_and_command_line_does_nothing
    env obj pid need_retry s :
  truthy pid = false → cmd obj = [] →
  _move_window env obj pid need_retry s = (s, Ok tt).
Proof.
  intros Hpid Hcmd. rewrite _move_window_without_pid by done.
  rewrite Hcmd. by rewrite bool_decide_eq_true_2 by (simpl; lia).
Qed.

Lemma attempt_without_pid_and_command_line_does_nothing_witness :
  _move_window (desk [editor_window]) unrestorable (Some 0) true fresh
  = (fresh, Ok tt).
Proof.
  apply attempt_without_pid_and_command_line_does_nothing; reflexivity.
Defined.

(** ** The outcome of [restore_session] and [move_window] *)

Lemma for_each_Ok {A} (l : list A) (f : A → M unit) s :
  (∀ x s0, (f x s0).2 = Ok tt) → (for_each l f s).2 = Ok tt.
Proof.
  intros Hf. revert s. induction l as [|x l IH]; intros s; simpl; [done |].
  unfold bind. pose proof (Hf x s) as Hx.
  destruct (f x s) as [s' r]. simpl in Hx. subst r. apply IH.
Qed.

(** [restore_session] raises [FileNotFoundError], having done nothing,
    when the session file is missing.  With a session file, however it ends
    and whatever the environment answers, it gives to [run_cmd] command
    lines of the records left after deduplication and filtering only, in
    the order of the records and without leaving one out (a prefix of
    them), and the first one at least.  When moreover the restoring
    interval is not negative and each of these command lines can be
    started, it returns normally and has started every one of them, once
    each and in the order of the records. *)
Theorem restore_session_launches_the_records_in_order self world name
    restoring_interval s :
  match files s !! (base_location_of_sessions self, name) with
  | None =>
      restore_session self world name restoring_interval s
      = (s, Raise (FileNotFoundError (base_location_of_sessions self) name))
  | Some config =>
      (∃ cs,
          launched
            (trace (restore_session self world name restoring_interval s).1)
          = launched (trace s) ++ cs
          ∧ cs `prefix_of`
              (cmd <$> List.filter has_command
                         (records_to_restore self config))
          ∧ (List.filter has_command (records_to_restore self config) ≠ [] →
             cs ≠ []))
      ∧ ((0 <= restoring_interval)%Q →
         can_start world (records_to_restore self config) →
         (restore_session self world name restoring_interval s).2 = Ok tt
         ∧ started
             (trace (restore_session self world name restoring_interval s).1)
           = started (trace s)
             ++ (cmd <$> List.filter has_command
                           (records_to_restore self config))
         ∧ launched
             (trace (restore_session self world name restoring_interval s).1)
           = launched (trace s)
             ++ (cmd <$> List.filter has_command
                           (records_to_restore self config)))
  end.
Proof.
  destruct (files s !! (base_location_of_sessions self, name))
    as [config|] eqn:Hfile.
  - split; [by apply restore_session_launched |].
    intros Hri Hstart. by apply restore_session_started.
  - unfold restore_session. cbv zeta. unfold bind at 1, path_exists.
    rewrite Hfile. by rewrite bool_decide_eq_false_2 by (by intros [? ?]).
Qed.

(** The records that [move_window] works on. *)
Definition records_to_move (self : XSessionManager) (config : XSessionConfig)
  : list XSessionConfigObject :=
  apply_session_filters (session_filters self)
    (sort_by_desktop_number (x_session_config_objects config)).

Lemma launched__move_window env obj pid need_retry s :
  launched (trace (_move_window env obj pid need_retry s).1)
  = launched (trace s).
Proof.
  apply (preserves__move_window (λ s', launched (trace s') = launched (trace s)));
    [intros; apply launched_print | intros; apply launched_move_one | done].
Qed.

Lemma launched_for_each {A} (l : list A) (f : A → M unit) s :
  (∀ x s0, launched (trace (f x s0).1) = launched (trace s0)) →
  launched (trace (for_each l f s).1) = launched (trace s).
Proof.
  intros Hf.
  apply (preserves_for_each (λ s', launched (trace s') = launched (trace s)));
    [| done].
  intros x s0 <-. apply Hf.
Qed.

Lemma move_window_loaded self world name s config :
  files s !! (base_location_of_sessions self, name) = Some config →
  records_to_move self config ≠ [] →
  ∃ n,
    move_window self world name s
    = create_enough_workspaces (world (clock s)) n
        (for_each (records_to_move self config)
           (λ namespace_obj,
              at_now world
                (λ env', _move_window env' namespace_obj None false)))
        (emit PoolCreated s).1.
Proof.
  intros Hfile Hne.
  destruct (_get_max_desktop_number_Ok (records_to_move self config)
              (emit PoolCreated s).1) as [n Hn]; [done |].
  exists n. unfold move_window. cbv zeta.
  erewrite bind_Ok; cycle 1.
  { unfold path_exists. by rewrite Hfile, bool_decide_eq_true_2. }
  cbn [negb]. erewrite bind_Ok; cycle 1.
  { unfold read_session. by rewrite Hfile. }
  erewrite bind_Ok by reflexivity.
  fold (records_to_move self config). erewrite bind_Ok by exact Hn.
  reflexivity.
Qed.

(** [move_window] raises [FileNotFoundError], without any effect, when the
    session file is missing.  With a session file whose records are not all
    filtered away it returns normally, whatever the environment answers: it
    never asks for a retry; it launches nothing; and if no handle was moved
    twice before, none is afterwards. *)
Theorem move_window_places_the_records_without_raising self world name s :
  match files s !! (base_location_of_sessions self, name) with
  | None =>
      move_window self world name s
      = (s, Raise (FileNotFoundError (base_location_of_sessions self) name))
  | Some config =>
      records_to_move self config ≠ [] →
      (move_window self world name s).2 = Ok tt
      ∧ launched (trace (move_window self world name s).1) = launched (trace s)
      ∧ (moved_once s → moved_once (move_window self world name s).1)
  end.
Proof.
  destruct (files s !! (base_location_of_sessions self, name))
    as [config|] eqn:Hfile.
  - intros Hne.
    destruct (move_window_loaded self world name s config Hfile Hne)
      as [n Hloaded].
    split; [| split].
    + rewrite Hloaded. apply create_enough_workspaces_Ok. intros s0.
      apply for_each_Ok. intros obj s1. unfold at_now.
      by destruct (_move_window_result (world (clock s1)) obj None false s1)
        as [? | [_ ?]].
    + rewrite Hloaded. rewrite (create_enough_workspaces_launched _ _ _ []).
      * simpl. by rewrite launched_app, !app_nil_r.
      * intros s0. rewrite app_nil_r. apply launched_for_each.
        intros obj s1. apply launched__move_window.
    + apply preserves_move_window.
      * apply moved_once_print.
      * apply moved_once_move_one.
      * by apply moved_once_emit.
      * intros s0 [Hnd Hsub]. unfold moved_once. simpl.
        by rewrite moved_handles_app, app_nil_r.
      * intros s0 [Hnd Hsub]. unfold moved_once. simpl.
        by rewrite moved_handles_app, app_nil_r.
      * intros k s0 [Hnd Hsub]. unfold moved_once. simpl.
        by rewrite moved_handles_app, app_nil_r.
  - unfold move_window. cbv zeta. unfold bind at 1, path_exists.
    rewrite Hfile. by rewrite bool_decide_eq_false_2 by (by intros [? ?]).
Qed.

(** ** The other branches of [create_enough_workspaces] (lines 178-205) *)

(** Whatever branch is taken, the scope leaves dynamic sizing as it found
    it, provided the body does not change it itself. *)
Theorem scope_leaves_dynamic_sizing_as_it_was env n body s :
  (∀ s0, dynamic_workspaces (body s0).1 = dynamic_workspaces s0) →
  dynamic_workspaces (create_enough_workspaces env n body s).1
  = dynamic_workspaces s.
Proof.
  intros Hbody. unfold create_enough_workspaces.
  destruct (is_gnome env); [| done]. case_bool_decide; [done |].
  unfold bind at 1. cbn [is_dynamic_workspaces].
  destruct (dynamic_workspaces s) eqn:Hdyn.
  - unfold bind at 1. cbn [disable_dynamic_workspaces].
    unfold try_except, bind at 1. cbn [set_workspaces_number].
    unfold try_finally.
    by destruct (body _) as [s2 [[]|e]].
  - unfold bind at 1. cbn [get_workspaces_number]. unfold bind at 1.
    case_bool_decide; simpl; by rewrite Hbody.
Qed.

Lemma scope_leaves_dynamic_sizing_as_it_was_witness :
  dynamic_workspaces
    (create_enough_workspaces
       {| running_windows := []; children := λ _, None; process_iter := [];
          process_info := λ _, None; run_cmd_pid := λ _, Ok 1200;
          is_gnome := true; get_workspace_count := 2; time := λ _, noon |}
       4 (print Done) fresh).1
  = dynamic_workspaces fresh.
Proof. apply scope_leaves_dynamic_sizing_as_it_was. reflexivity. Defined.

(** In a GNOME session with a fixed number of workspaces that are fewer
    than required, the number is raised to the required one if it is lower
    and otherwise left alone, dynamic sizing is not touched, and the scope is
    the body from there on: nothing is undone afterwards and an exception
    of the body leaves the scope. *)
Theorem scope_raises_a_fixed_number_for_good env n body s :
  is_gnome env = true →
  get_workspace_count env < n →
  dynamic_workspaces s = false →
  ∃ sb,
    create_enough_workspaces env n body s = body sb
    ∧ workspaces_number sb = Z.max (workspaces_number s) n
    ∧ dynamic_workspaces sb = false
    ∧ workspace_requests (trace sb)
      = workspace_requests (trace s)
        ++ (if bool_decide (workspaces_number s < n)
            then [SetWorkspacesNumber n] else []).
Proof.
  intros Hgnome Hcount Hdyn. unfold create_enough_workspaces.
  rewrite Hgnome, bool_decide_eq_false_2 by lia.
  unfold bind at 1. cbn [is_dynamic_workspaces]. rewrite Hdyn.
  unfold bind at 1. cbn [get_workspaces_number]. unfold bind at 1.
  case_bool_decide as Hlt.
  - eexists. split; [reflexivity |]. simpl.
    rewrite workspace_requests_app. repeat split; [lia | done].
  - eexists. split; [reflexivity |]. simpl.
    rewrite app_nil_r. repeat split; [lia | done].
Qed.

Lemma scope_raises_a_fixed_number_for_good_witness :
  ∃ sb,
    create_enough_workspaces
      {| running_windows := []; children := λ _, None; process_iter := [];
         process_info := λ _, None; run_cmd_pid := λ _, Ok 1200;
         is_gnome := true; get_workspace_count := 2; time := λ _, noon |}
      4 (raise (OtherException "restore failed")) (set_dynamic false fresh)
    = raise (OtherException "restore failed") sb
    ∧ workspaces_number sb
      = Z.max (workspaces_number (set_dynamic false fresh)) 4
    ∧ dynamic_workspaces sb = false
    ∧ workspace_requests (trace sb)
      = workspace_requests (trace (set_dynamic false fresh))
        ++ (if bool_decide (workspaces_number (set_dynamic false fresh) < 4)
            then [SetWorkspacesNumber 4] else []).
Proof.
  apply scope_raises_a_fixed_number_for_good; [done | simpl; lia | done].
Defined.

(** ** Capturing the running windows (lines 61-97) *)

(** What the capture makes of a running window. *)
Definition captured (env : Env) (w o : XSessionConfigObject) : Prop :=
  window_id o = window_id w
  ∧ window_id_the_int_type o = window_id_the_int_type w
  ∧ desktop_number o = desktop_number w
  ∧ pid o = pid w
  ∧ window_title o = window_title w
  ∧ match pid w with
    | PInt z =>
        match process_info env z with
        | Some (name, cmdline, create_time) =>
            app_name o = name ∧ cmd o = cmdline
            ∧ process_create_time o = Some create_time
        | None =>
            app_name o = "" ∧ cmd o = [] ∧ process_create_time o = None
        end
    | PStr _ => False
    end.

Lemma map_M_with_process_info_captured env ws s :
  Forall (λ w, ∃ z, pid w = PInt z ∧ 0 ≤ z) ws →
  ∃ s' objs,
    map_M (with_process_info env) ws s = (s', Ok objs)
    ∧ Forall2 (captured env) ws objs.
Proof.
  intros Hws. revert s. induction Hws as [|w ws (z & Hz & Hpos) _ IH]; intros s.
  - exists s, []. by split; [| constructor].
  - cbn [map_M].
    assert (∃ s1 o, with_process_info env w s = (s1, Ok o) ∧ captured env w o)
      as (s1 & o & Hw & Hcap).
    { unfold with_process_info, psutil_Process, captured. rewrite Hz.
      rewrite (proj2 (Z.ltb_ge z 0)) by done.
      destruct (process_info env z) as [[[name cmdline] create_time]|];
        eexists _, _; (split; [reflexivity |]); by simpl. }
    destruct (IH s1) as (s2 & objs & Hrest & Hall).
    exists s2, (o :: objs). split; [| by constructor].
    erewrite bind_Ok by exact Hw. by erewrite bind_Ok by exact Hrest.
Qed.

(** When the process ids of the running windows are [int]s that are not
    negative, the capture succeeds, whichever processes are gone: it makes
    one record per running window, in order, with the window's handle,
    desktop, process id and title, and with the name, command line and
    creation time of its process if it still exists and an empty name and
    command line if it does not; the filters are applied to these records;
    the files are not touched. *)
Theorem capture_degrades_the_records_of_vanished_processes
    env filters s :
  Forall (λ w, ∃ z, pid w = PInt z ∧ 0 ≤ z) (running_windows env) →
  ∃ s' objs,
    get_session_details env false filters s
    = (s', Ok {| session_name := ""; session_create_time := None;
                 backup_time := None;
                 x_session_config_objects :=
                   apply_session_filters filters objs |})
    ∧ Forall2 (captured env) (running_windows env) objs
    ∧ files s' = files s ∧ dirs s' = dirs s.
Proof.
  intros Hws.
  destruct (map_M_with_process_info_captured env (running_windows env)
              (print Got_the_process_list_according_to_wmctl s).1 Hws)
    as (s1 & objs & Hmap & Hall).
  pose proof (get_session_details_outside env false filters s) as (Hf & Hd & _).
  unfold get_session_details in *. cbn [convert_wmctl_result_2_list
    x_session_config_objects session_name session_create_time backup_time] in *.
  erewrite bind_Ok in Hf, Hd |- * by reflexivity.
  erewrite bind_Ok in Hf, Hd |- * by exact Hmap.
  erewrite bind_Ok in Hf, Hd |- * by reflexivity.
  eexists _, objs. split; [reflexivity |]. by split.
Qed.

Lemma capture_degrades_the_records_of_vanished_processes_witness :
  ∃ s' objs,
    get_session_details (desk [editor_window; unrestorable]) false None fresh
    = (s', Ok {| session_name := ""; session_create_time := None;
                 backup_time := None;
                 x_session_config_objects := apply_session_filters None objs |})
    ∧ Forall2 (captured (desk [editor_window; unrestorable]))
        (running_windows (desk [editor_window; unrestorable])) objs
    ∧ files s' = files fresh ∧ dirs s' = dirs fresh.
Proof.
  apply capture_degrades_the_records_of_vanished_processes.
  repeat constructor; eexists; (split; [reflexivity | done]).
Defined.

(** ** Backups and saved sessions (lines 39-59, 99-121) *)

(** Without the file to back up, [backup_session] raises
    [FileNotFoundError], writes nothing and prints nothing.  With it, the backup is written
    under the backup name with [backup_time] set, the file itself and every
    other file stay as they are, and the backup directory exists
    afterwards. *)
Theorem backup_session_writes_only_the_backup self env path s :
  match files s !! path with
  | None =>
      (backup_session self env path s).2
      = Raise (FileNotFoundError path.1 path.2)
      ∧ files (backup_session self env path s).1 = files s
      ∧ dirs (backup_session self env path s).1 = dirs s
      ∧ trace (backup_session self env path s).1 = trace s
  | Some old =>
      (backup_session self env path s).2 = Ok tt
      ∧ files (backup_session self env path s).1
        !! backup_session_path self path (time env (time_calls s))
        = Some (set_backup_time (strftime_stamp (time env (time_calls s))) old)
      ∧ (∀ p, p ≠ backup_session_path self path (time env (time_calls s)) →
              files (backup_session self env path s).1 !! p = files s !! p)
      ∧ files (backup_session self env path s).1 !! path = Some old
      ∧ base_location_of_backup_sessions self
        ∈ dirs (backup_session self env path s).1
  end.
Proof.
  destruct (files s !! path) as [old|] eqn:Hfile.
  - destruct (backup_session_spec self env path old s Hfile)
      as (s' & -> & Hf & Hd & _).
    cbn [fst snd]. rewrite Hf, Hd. split; [done |].
    split; [by rewrite lookup_insert_eq |]. split; [| split].
    + intros p Hp. by rewrite lookup_insert_ne.
    + rewrite lookup_insert_ne; [done |]. apply backup_session_path_ne.
    + set_solver.
  - unfold backup_session. erewrite bind_Ok by reflexivity.
    erewrite bind_Raise; cycle 1.
    { unfold read_session. cbn [files print emit read_time set_trace
        set_time_calls fst]. rewrite Hfile. reflexivity. }
    done.
Qed.

Lemma dirs_backup_session self env path d :
  preserves (λ s, d ∈ dirs s) (backup_session self env path).
Proof.
  unfold backup_session.
  apply preserves_bind; [by intros ? |]. intros t.
  apply preserves_bind; [apply preserves_read_session |]. intros c.
  apply preserves_bind; [by intros ? |]. intros _.
  cbv zeta. apply preserves_bind; [by intros ? |]. intros parent.
  apply preserves_bind.
  { apply preserves_if; [| apply preserves_ret].
    intros s Hs. simpl. set_solver. }
  intros _. apply preserves_bind; [by intros ? |]. intros _.
  intros s Hs. unfold write_session. by case_bool_decide.
Qed.

Lemma dirs_save_session self env name session_filter d :
  preserves (λ s, d ∈ dirs s) (save_session self env name session_filter).
Proof.
  unfold save_session.
  apply preserves_bind.
  { intros s Hs.
    by destruct (get_session_details_outside env false
                   (Some [session_filter]) s) as (_ & -> & _). }
  intros cfg. cbv zeta. apply preserves_bind; [by intros ? |]. intros _.
  apply preserves_bind; [by intros ? |]. intros parent.
  apply preserves_bind.
  { apply preserves_if; [intros s Hs; simpl; set_solver |].
    apply preserves_bind; [by intros ? |]. intros found.
    apply preserves_if; [apply dirs_backup_session | apply preserves_ret]. }
  intros _. apply preserves_bind; [by intros ? |]. intros now.
  apply preserves_bind; [by intros ? |]. intros _.
  apply preserves_bind; [| intros _; by intros ?].
  intros s Hs. unfold write_session. by case_bool_decide.
Qed.

Lemma save_session_without_backup self env name session_filter s sg config :
  get_session_details env false (Some [session_filter]) s = (sg, Ok config) →
  base_location_of_sessions self ∉ dirs s
  ∨ files s !! (base_location_of_sessions self, name) = None →
  ∃ s',
    save_session self env name session_filter s = (s', Ok tt)
    ∧ files s'
      = <[(base_location_of_sessions self, name)
          := {| session_name := name;
                session_create_time :=
                  Some (strftime_stamp (time env (time_calls s)));
                backup_time := backup_time config;
                x_session_config_objects := x_session_config_objects config |}]>
          (files s)
    ∧ dirs s' = {[base_location_of_sessions self]} ∪ dirs s.
Proof.
  intros Hcapture Hcase.
  pose proof (get_session_details_outside env false (Some [session_filter]) s)
    as (Hf & Hd & Ht).
  rewrite Hcapture in Hf, Hd, Ht. simpl in Hf, Hd, Ht.
  unfold save_session. erewrite bind_Ok by exact Hcapture. cbv zeta.
  erewrite bind_Ok by reflexivity. erewrite bind_Ok by reflexivity.
  cbn [dirs print emit set_trace fst]. rewrite Hd.
  set (s1 := set_trace _ sg).
  assert (∃ s2,
            (if negb (bool_decide (base_location_of_sessions self ∈ dirs s))
             then mkdir (base_location_of_sessions self)
             else found <- path_exists (base_location_of_sessions self, name) ;;
                  if found
                  then backup_session self env
                         (base_location_of_sessions self, name)
                  else ret tt) s1 = (s2, Ok tt)
            ∧ files s2 = files s
            ∧ dirs s2 = {[base_location_of_sessions self]} ∪ dirs s
            ∧ time_calls s2 = time_calls s) as (s2 & Hstep & Hf2 & Hd2 & Ht2).
  { destruct (decide (base_location_of_sessions self ∈ dirs s)) as [Hin|Hin].
    - destruct Hcase as [? | Hnone]; [done |].
      rewrite bool_decide_eq_true_2 by done. cbn [negb].
      exists s1. split; [| subst s1; cbn [files dirs time_calls set_trace];
                            rewrite Hf, Hd, Ht; split; [done |];
                            split; [set_solver | done]].
      assert (path_exists (base_location_of_sessions self, name) s1
              = (s1, Ok false)) as Hfound.
      { unfold path_exists. rewrite bool_decide_eq_false_2; [done |].
        subst s1. cbn [files set_trace]. rewrite Hf, Hnone. by intros [? ?]. }
      by erewrite bind_Ok by exact Hfound.
    - rewrite bool_decide_eq_false_2 by done. cbn [negb].
      eexists. split; [reflexivity |]. subst s1.
      cbn [files dirs time_calls mkdir set_dirs set_trace fst].
      by rewrite Hf, Hd, Ht. }
  erewrite bind_Ok by exact Hstep.
  erewrite bind_Ok by reflexivity. erewrite bind_Ok by reflexivity.
  erewrite bind_Ok; cycle 1.
  { apply write_session_Ok.
    cbn [dirs print emit read_time set_trace set_time_calls fst].
    rewrite Hd2. set_solver. }
  eexists. split; [reflexivity |].
  cbn [files dirs time_calls print emit read_time set_trace set_time_calls
       set_files fst].
  by rewrite Hf2, Hd2, Ht2.
Qed.

(** Whenever the capture succeeds, [save_session] succeeds too, whether the
    sessions directory exists or not and whether there is an old session or
    not, and it leaves at the session path a session that can be read back:
    the captured records under the given name.  If there was no old session
    no other file is written. *)
Theorem save_session_leaves_a_session_that_reads_back self env name
    session_filter s sg config :
  get_session_details env false (Some [session_filter]) s = (sg, Ok config) →
  ∃ s' stamp,
    save_session self env name session_filter s = (s', Ok tt)
    ∧ read_session (base_location_of_sessions self, name) s'
      = (s', Ok {| session_name := name;
                   session_create_time := Some stamp;
                   backup_time := backup_time config;
                   x_session_config_objects :=
                     x_session_config_objects config |})
    ∧ base_location_of_sessions self ∈ dirs s'
    ∧ (files s !! (base_location_of_sessions self, name) = None →
       ∀ p, p ≠ (base_location_of_sessions self, name) →
            files s' !! p = files s !! p).
Proof.
  intros Hcapture.
  destruct (decide (base_location_of_sessions self ∈ dirs s)) as [Hin|Hin];
    [destruct (files s !! (base_location_of_sessions self, name))
       as [old|] eqn:Hfile |].
  - destruct (save_session_over_existing self env name session_filter s old
                sg config Hcapture Hfile Hin) as (s' & Hsave & Hfiles & _).
    exists s', (strftime_stamp (time env (S (time_calls s)))).
    split; [done |]. split; [| split; [| done]].
    + unfold read_session. by rewrite Hfiles, lookup_insert_eq.
    + pose proof (dirs_save_session self env name session_filter
                    (base_location_of_sessions self) s Hin) as Hkeep.
      by rewrite Hsave in Hkeep.
  - destruct (save_session_without_backup self env name session_filter s
                sg config Hcapture (or_intror Hfile))
      as (s' & Hsave & Hfiles & Hdirs).
    exists s', (strftime_stamp (time env (time_calls s))).
    split; [done |]. split; [| split].
    + unfold read_session. by rewrite Hfiles, lookup_insert_eq.
    + rewrite Hdirs. set_solver.
    + intros _ p Hp. by rewrite Hfiles, lookup_insert_ne.
  - destruct (save_session_without_backup self env name session_filter s
                sg config Hcapture (or_introl Hin))
      as (s' & Hsave & Hfiles & Hdirs).
    exists s', (strftime_stamp (time env (time_calls s))).
    split; [done |]. split; [| split].
    + unfold read_session. by rewrite Hfiles, lookup_insert_eq.
    + rewrite Hdirs. set_solver.
    + intros _ p Hp. by rewrite Hfiles, lookup_insert_ne.
Qed.

Lemma save_session_leaves_a_session_that_reads_back_witness :
  ∃ s' stamp,
    save_session manager (desk [editor_window]) "work" None fresh = (s', Ok tt)
    ∧ read_session (base_location_of_sessions manager, "work") s'
      = (s', Ok {| session_name := "work";
                   session_create_time := Some stamp;
                   backup_time := None;
                   x_session_config_objects :=
                     [ {| window_id := "0x04600003";
                          window_id_the_int_type := 73400323;
                          desktop_number := 0; pid := PInt 1200;
                          window_title := "notes.txt - Editor";
                          app_name := "editor";
                          cmd := ["editor"; "notes.txt"];
                          process_create_time :=
                            Some "2020-05-01 11:59:58" |} ] |})
    ∧ base_location_of_sessions manager ∈ dirs s'
    ∧ (files fresh !! (base_location_of_sessions manager, "work") = None →
       ∀ p, p ≠ (base_location_of_sessions manager, "work") →
            files s' !! p = files fresh !! p).
Proof.
  apply (save_session_leaves_a_session_that_reads_back manager
           (desk [editor_window]) "work" None fresh
           (get_session_details (desk [editor_window]) false (Some [None])
              fresh).1
           {| session_name := ""; session_create_time := None;
              backup_time := None;
              x_session_config_objects :=
                [ {| window_id := "0x04600003";
                     window_id_the_int_type := 73400323;
                     desktop_number := 0; pid := PInt 1200;
                     window_title := "notes.txt - Editor";
                     app_name := "editor";
                     cmd := ["editor"; "notes.txt"];
                     process_create_time := Some "2020-05-01 11:59:58" |} ] |}).
  reflexivity.
Defined.

(** ** Deduplicating twice *)

(** Deduplication by process id changes nothing exactly when the process
    ids of the records are distinct; so it is idempotent, and it never makes
    the list longer. *)
Theorem restore_dedup_is_idempotent objs :
  remove_duplicates_according_to_pid (remove_duplicates_according_to_pid objs)
  = remove_duplicates_according_to_pid objs
  ∧ (remove_duplicates_according_to_pid objs = objs ↔ NoDup (pid <$> objs))
  ∧ (length (remove_duplicates_according_to_pid objs) ≤ length objs)%nat.
Proof.
  assert (NoDup (pid <$> remove_duplicates_according_to_pid objs)) as Hnd.
  { rewrite kept_pids. unfold in_order_of_first_occurrence.
    rewrite reverse_Permutation. apply NoDup_remove_dups. }
  split; [by apply remove_duplicates_NoDup |]. split.
  - split; [by intros <- | apply remove_duplicates_NoDup].
  - rewrite <- (length_fmap pid), <- (length_fmap pid objs), kept_pids.
    unfold in_order_of_first_occurrence.
    rewrite length_reverse, <- (length_reverse (pid <$> objs)).
    generalize (reverse (pid <$> objs)). intros l.
    induction l as [|k l IH]; simpl; [done |].
    destruct (decide_rel elem_of k l); simpl; lia.
Qed.

(** ** The pause after a launch (lines 170-171) *)

Lemma clock__move_window_async c world obj p :
  preserves (λ s, (c <= clock s)%Q) (_move_window_async world obj p).
Proof.
  unfold _move_window_async. apply preserves_do_retry.
  - intros env. apply preserves__move_window;
      [apply clock_print | apply clock_move_one].
  - apply preserves_sleep. intros s Hs. simpl. apply (Qle_trans _ _ _ Hs).
    rewrite <- (Qplus_0_r (clock s)) at 1. by apply Qplus_le_r.
Qed.

Lemma restore_each_waits world restoring_interval objs s :
  (0 <= restoring_interval)%Q →
  ∃ cs,
    started (trace (restore_each world restoring_interval objs s).1)
    = started (trace s) ++ cs
    ∧ (clock s + inject_Z (Z.of_nat (length cs)) * restoring_interval
       <= clock (restore_each world restoring_interval objs s).1)%Q.
Proof.
  intros Hri. revert s. induction objs as [|obj objs IH]; intros s.
  - exists []. simpl. rewrite app_nil_r. split; [done |].
    rewrite Qmult_0_l, Qplus_0_r. apply Qle_refl.
  - destruct (decide (cmd obj = [])) as [Hc|Hc].
    + rewrite restore_each_skips by done.
      destruct (IH (print (Failure_empty_commandline (app_name obj))
                      (print (Restoring_application (app_name obj)) s).1).1)
        as (cs & Hst & Hclock).
      exists cs. split; [| done].
      rewrite Hst. simpl. by rewrite !started_app, !app_nil_r.
    + rewrite restore_each_launches by done. cbv zeta.
      set (s1 := (print (Restoring_application (app_name obj)) s).1).
      destruct (run_cmd_pid (world (clock s1)) (cmd obj)) as [child|e].
      * rewrite (proj2 (Qle_bool_iff 0 restoring_interval) Hri).
        set (s2 := (emit (RunCmd (cmd obj) (Ok child)) s1).1).
        pose proof (clock__move_window_async (clock s) world obj child s2
                      (Qle_refl _)) as Hclock3.
        pose proof (started__move_window_async world obj child s2) as Hst3.
        set (s3 := (_move_window_async world obj child s2).1) in *.
        destruct (IH (slept restoring_interval s3)) as (cs & Hst & Hclock).
        exists (cmd obj :: cs). split.
        -- rewrite Hst. cbn [slept trace set_trace set_clock].
           rewrite started_app, Hst3. subst s2 s1. simpl.
           rewrite !started_app. simpl. by rewrite !app_nil_r, <- app_assoc.
        -- eapply Qle_trans; [| exact Hclock].
           cbn [slept clock set_trace set_clock length].
           rewrite Nat2Z.inj_succ, <- Z.add_1_l, inject_Z_plus.
           eapply Qle_trans;
             [| apply Qplus_le_l, Qplus_le_l, Hclock3].
           apply Qle_lteq. right. ring.
      * exists []. subst s1. simpl. split.
        -- by rewrite !started_app, !app_nil_r.
        -- rewrite Qmult_0_l, Qplus_0_r. apply Qle_refl.
Qed.

(** With an interval that is not negative, the loop of [restore_sessions]
    lets at least the interval pass for every process that it starts: when
    it ends, however it ends, the clock has advanced by at least the
    interval times the number of processes started; and when every command
    line can be started, by at least the interval times the number of
    records with a command line. *)
Theorem restore_waits_after_every_launch world restoring_interval objs s :
  (0 <= restoring_interval)%Q →
  (∃ cs,
      started (trace (restore_each world restoring_interval objs s).1)
      = started (trace s) ++ cs
      ∧ (clock s + inject_Z (Z.of_nat (length cs)) * restoring_interval
         <= clock (restore_each world restoring_interval objs s).1)%Q)
  ∧ (can_start world objs →
     (clock s
      + inject_Z (Z.of_nat (length (List.filter has_command objs)))
        * restoring_interval
      <= clock (restore_each world restoring_interval objs s).1)%Q).
Proof.
  intros Hri. split; [by apply restore_each_waits |]. intros Hstart.
  destruct (restore_each_waits world restoring_interval objs s Hri)
    as (cs & Hst & Hclock).
  destruct (restore_each_started world restoring_interval objs s Hri Hstart)
    as [_ Hall].
  rewrite Hall in Hst. apply app_inv_head in Hst. subst cs.
  by rewrite length_fmap in Hclock.
Qed.

Lemma restore_waits_after_every_launch_witness :
  (clock fresh
   + inject_Z (Z.of_nat (length (List.filter has_command
                                   [mail_inbox; unrestorable; editor_record])))
     * 2
   <= clock (restore_each (λ _, desk []) 2
               [mail_inbox; unrestorable; editor_record] fresh).1)%Q.
Proof.
  apply restore_waits_after_every_launch; [discriminate |].
  intros t obj _ _. by exists 1200.
Defined.

(** ** [close_windows] (lines 207-234) *)

(** What [close_windows] prints and asks of the window manager, in order;
    the log of [State] has no entry for these, so they are the value of the
    computation.  The pauses are slept in the state. *)
Inductive close_step : Type :=
| No_application_to_close
| Closing (app wid : string) (p : pyval)
| CloseWindowGracefully (wid : Z).

(** [list.sort(key=...)]: a stable sort, [leb x y] telling that [x] may
    stand before [y]. *)
Fixpoint insert_sorted {A} (leb : A → A → bool) (x : A) (l : list A) : list A :=
  match l with
  | [] => [x]
  | y :: l' => if leb x y then x :: y :: l' else y :: insert_sorted leb x l'
  end.

Definition stable_sort {A} (leb : A → A → bool) (l : list A) : list A :=
  foldr (insert_sorted leb) [] l.

Definition is_int (v : pyval) : bool :=
  match v with
  | PInt _ => true
  | PStr _ => false
  end.

(** [<=] on process ids of one type. *)
Definition pid_leb (a b : XSessionConfigObject) : bool :=
  match pid a, pid b with
  | PInt x, PInt y => x <=? y
  | PStr x, PStr y => String.leb x y
  | _, _ => false
  end.

(** Line 216: [sessions.sort(key=attrgetter('pid'))]; comparing an [int]
    with a [str] raises [TypeError]. *)
Definition sort_by_pid (l : list XSessionConfigObject)
  : result (list XSessionConfigObject) :=
  if forallb (λ o, is_int (pid o)) l || forallb (λ o, negb (is_int (pid o))) l
  then Ok (stable_sort pid_leb l)
  else Raise TypeError.

(** Line 220: [sort(key=attrgetter('window_id'), reverse=True)]. *)
Definition sort_by_window_id_reversed (l : list XSessionConfigObject)
  : list XSessionConfigObject :=
  stable_sort (λ a b, String.leb (window_id b) (window_id a)) l.

(** Line 217: [groupby(sessions, key=attrgetter('pid'))], the runs of
    records with one process id. *)
Fixpoint groupby_pid (l : list XSessionConfigObject)
  : list (pyval * list XSessionConfigObject) :=
  match l with
  | [] => []
  | x :: l' =>
      match groupby_pid l' with
      | (k, g) :: gs =>
          if bool_decide (pid x = k) then (k, x :: g) :: gs
          else (pid x, [x]) :: (k, g) :: gs
      | [] => [(pid x, [x])]
      end
  end.

(** Lines 223-227 and 230-231. *)
Definition close_one (session : XSessionConfigObject) : list close_step :=
  [Closing (app_name session) (window_id session) (pid session);
   CloseWindowGracefully (window_id_the_int_type session)].

(** Lines 218-234: the windows of one process, then the pause. *)
Definition close_process (a_process_with_many_windows : list XSessionConfigObject)
  : M (list close_step) :=
  let steps :=
    if bool_decide (1 < length a_process_with_many_windows)%nat then
      flat_map close_one
        (sort_by_window_id_reversed a_process_with_many_windows)
    else
      match a_process_with_many_windows with
      | session :: _ => close_one session
      | [] => []
      end in
  sleep (1 # 4) ;; ret steps.

(** Lines 207-234. *)
Definition close_windows (self : XSessionManager) (env : Env)
  : M (list close_step) :=
  x_session_config <- get_session_details env false (session_filters self) ;;
  let sessions := x_session_config_objects x_session_config in
  if bool_decide (length sessions = 0%nat) then ret [No_application_to_close]
  else
    match sort_by_pid sessions with
    | Raise e => raise e
    | Ok sorted =>
        steps <- map_M (λ group, close_process group.2) (groupby_pid sorted) ;;
        ret (concat steps)
    end.

(** The windows that are asked to close, in order. *)
Fixpoint closed (steps : list close_step) : list Z :=
  match steps with
  | [] => []
  | CloseWindowGracefully wid :: steps' => wid :: closed steps'
  | _ :: steps' => closed steps'
  end.

(** The number of pauses in a log. *)
Fixpoint pauses (t : list event) : nat :=
  match t with
  | [] => 0
  | Sleep _ :: t' => S (pauses t')
  | _ :: t' => pauses t'
  end.

Section closing.

Implicit Types (l g : list XSessionConfigObject) (x y : XSessionConfigObject).

Lemma insert_sorted_Permutation {A} (leb : A → A → bool) a (k : list A) :
  insert_sorted leb a k ≡ₚ a :: k.
Proof.
  induction k as [|b k IH]; simpl; [done |].
  destruct (leb a b); [done |]. rewrite IH. apply Permutation_swap.
Qed.

Lemma stable_sort_Permutation {A} (leb : A → A → bool) (k : list A) :
  stable_sort leb k ≡ₚ k.
Proof.
  induction k as [|a k IH]; simpl; [done |].
  by rewrite insert_sorted_Permutation, IH.
Qed.

Lemma closed_app steps1 steps2 :
  closed (steps1 ++ steps2) = closed steps1 ++ closed steps2.
Proof. induction steps1 as [|[] steps1 IH]; simpl; try done. by rewrite IH. Qed.

Lemma closed_close_all l :
  closed (flat_map close_one l) = window_id_the_int_type <$> l.
Proof. induction l as [|x l IH]; simpl; [done | by rewrite IH]. Qed.

Lemma pauses_app t1 t2 : pauses (t1 ++ t2) = (pauses t1 + pauses t2)%nat.
Proof. induction t1 as [|[] t1 IH]; simpl; try done. by rewrite IH. Qed.

Lemma groupby_pid_concat l : concat (groupby_pid l).*2 = l.
Proof.
  induction l as [|x l IH]; [done |]. cbn [groupby_pid].
  destruct (groupby_pid l) as [|[k g] gs]; [by rewrite <- IH |].
  case_bool_decide; simpl in *; by rewrite <- IH.
Qed.

Lemma groupby_pid_nonempty l : Forall (λ kg, kg.2 ≠ []) (groupby_pid l).
Proof.
  induction l as [|x l IH]; [constructor |]. cbn [groupby_pid].
  destruct (groupby_pid l) as [|[k g] gs]; [by repeat constructor |].
  apply Forall_cons in IH as [Hg Hgs].
  case_bool_decide; by repeat constructor.
Qed.

(** One process: its windows are asked to close, each once, and one pause
    follows. *)
Lemma close_process_spec g s :
  g ≠ [] →
  ∃ s' steps,
    close_process g s = (s', Ok steps)
    ∧ closed steps ≡ₚ window_id_the_int_type <$> g
    ∧ pauses (trace s') = S (pauses (trace s)).
Proof.
  intros Hg. unfold close_process. cbv zeta. unfold bind. simpl.
  eexists _, _. split; [reflexivity |]. split.
  - case_bool_decide as Hlen.
    + rewrite closed_close_all. unfold sort_by_window_id_reversed.
      by rewrite stable_sort_Permutation.
    + destruct g as [|x [|y g]]; [done | done | simpl in Hlen; lia].
  - simpl. rewrite pauses_app. simpl. lia.
Qed.

Lemma close_processes_spec (groups : list (pyval * list XSessionConfigObject)) s :
  Forall (λ kg, kg.2 ≠ []) groups →
  ∃ s' steps,
    map_M (λ group, close_process group.2) groups s = (s', Ok steps)
    ∧ closed (concat steps) ≡ₚ window_id_the_int_type <$> concat groups.*2
    ∧ pauses (trace s') = (pauses (trace s) + length groups)%nat.
Proof.
  intros Hgroups. revert s.
  induction Hgroups as [|[k g] groups Hg _ IH]; intros s.
  - exists s, []. simpl. split; [done |]. split; [done | lia].
  - destruct (close_process_spec g s Hg) as (s1 & steps1 & H1 & Hc1 & Hp1).
    destruct (IH s1) as (s2 & steps2 & H2 & Hc2 & Hp2).
    exists s2, (steps1 :: steps2). split; [| split].
    + cbn [map_M]. erewrite bind_Ok by exact H1.
      by erewrite bind_Ok by exact H2.
    + simpl. rewrite closed_app, fmap_app. by rewrite Hc1, Hc2.
    + simpl. lia.
Qed.

(** The order of [int] process ids. *)
Definition pid_le x y : Prop :=
  ∃ a b, pid x = PInt a ∧ pid y = PInt b ∧ a ≤ b.

Lemma insert_sorted_pid_sorted x l :
  is_int (pid x) = true → Forall (λ y, is_int (pid y) = true) l →
  StronglySorted pid_le l → StronglySorted pid_le (insert_sorted pid_leb x l).
Proof.
  intros Hx Hl Hs. induction Hs as [|y l Hs IH Hy]; simpl;
    [by repeat constructor |].
  apply Forall_cons in Hl as [Hyi Hl]. unfold pid_leb at 1.
  destruct (pid x) as [a|] eqn:Hpx; [| done].
  destruct (pid y) as [b|] eqn:Hpy; [| done].
  destruct (Z.leb_spec a b) as [Hab|Hab].
  - constructor; [by constructor |]. constructor.
    + exists a, b. by repeat split.
    + eapply Forall_impl; [exact Hy |]. simpl.
      intros z (b' & c & Hb' & Hc & Hle). rewrite Hpy in Hb'.
      injection Hb' as <-. exists a, c. repeat split; [done | done | lia].
  - constructor; [by apply IH |]. rewrite insert_sorted_Permutation.
    constructor; [| done]. exists b, a. repeat split; [done | done | lia].
Qed.

Lemma stable_sort_pid_sorted l :
  Forall (λ y, is_int (pid y) = true) l →
  StronglySorted pid_le (stable_sort pid_leb l).
Proof.
  induction 1 as [|x l Hx Hl IH]; simpl; [constructor |].
  apply insert_sorted_pid_sorted; [done | | done].
  by rewrite stable_sort_Permutation.
Qed.

(** On a list sorted by process id every process id has one group. *)
Lemma groupby_pid_sorted_keys l :
  StronglySorted pid_le l →
  NoDup (groupby_pid l).*1
  ∧ (∀ k, k ∈ (groupby_pid l).*1 ↔ k ∈ pid <$> l)
  ∧ head (groupby_pid l).*1 = head (pid <$> l).
Proof.
  induction 1 as [|x l Hs (Hnd & Hin & Hhead) Hx]; [| cbn [groupby_pid]].
  { split; [constructor |]. by split. }
  destruct (groupby_pid l) as [|[k g] gs] eqn:Hgroups.
  { assert (l = []) as ->.
    { rewrite <- (groupby_pid_concat l), Hgroups. done. }
    simpl. split; [apply NoDup_singleton |]. by split. }
  destruct l as [|h l]; [done |]. simpl in Hhead. injection Hhead as ->.
  clear Hgroups. case_bool_decide as Hxk.
  - rewrite !fmap_cons in *. cbn [fst head] in *.
    split; [done |]. split; [| by rewrite Hxk].
    intros k'. rewrite Hin, !elem_of_cons, Hxk. tauto.
  - rewrite !fmap_cons in *. cbn [fst head] in *.
    split; [| split; [| done]].
    + apply NoDup_cons. split; [| done]. intros Hxin. apply Hxk.
      apply Hin in Hxin.
      apply Forall_cons in Hx as [(a & b & Ha & Hb & Hab) Hx].
      apply StronglySorted_inv in Hs as [_ Hh].
      apply elem_of_cons in Hxin as [Heq | Hxin]; [done |].
      apply list_elem_of_fmap in Hxin as (y & Hy & Hyl).
      destruct (proj1 (Forall_forall _ _) Hh y Hyl)
        as (b' & c & Hb' & Hc & Hbc).
      destruct (proj1 (Forall_forall _ _) Hx y Hyl)
        as (a' & c' & Ha' & Hc' & Hac).
      rewrite Ha, Hb. f_equal.
      assert (b' = b) by congruence. assert (a' = a) by congruence.
      assert (c' = c) by congruence. assert (c = a) by congruence. lia.
    + intros k'. rewrite (elem_of_cons _ k' (pid x)), Hin.
      rewrite (elem_of_cons _ k' (pid x)). tauto.
Qed.

Lemma groupby_pid_sorted_length l :
  StronglySorted pid_le l →
  length (groupby_pid l) = length (remove_dups (pid <$> l)).
Proof.
  intros (Hnd & Hin & _)%groupby_pid_sorted_keys.
  rewrite <- (length_fmap fst). apply Permutation_length.
  apply NoDup_Permutation; [done | apply NoDup_remove_dups |].
  intros k. by rewrite Hin, elem_of_remove_dups.
Qed.

End closing.

Lemma remove_dups_length_Permutation (l1 l2 : list pyval) :
  l1 ≡ₚ l2 → length (remove_dups l1) = length (remove_dups l2).
Proof.
  intros Hp. apply Permutation_length.
  apply NoDup_Permutation; [apply NoDup_remove_dups.. |].
  intros k. by rewrite !elem_of_remove_dups, Hp.
Qed.

(** When the capture succeeds and leaves records whose process ids are
    [int]s, [close_windows] returns normally; every captured window is asked
    to close exactly once; and it pauses once per process, not once per
    window. *)
Theorem close_windows_closes_every_window_once self env s sg config :
  get_session_details env false (session_filters self) s = (sg, Ok config) →
  Forall (λ o, is_int (pid o) = true) (x_session_config_objects config) →
  ∃ s' steps,
    close_windows self env s = (s', Ok steps)
    ∧ closed steps
      ≡ₚ window_id_the_int_type <$> x_session_config_objects config
    ∧ pauses (trace s')
      = (pauses (trace sg)
         + length (remove_dups (pid <$> x_session_config_objects config)))%nat.
Proof.
  intros Hcapture Hint. unfold close_windows.
  erewrite bind_Ok by exact Hcapture. cbv zeta.
  case_bool_decide as Hlen.
  - destruct (x_session_config_objects config); [| done].
    exists sg, [No_application_to_close]. split; [done |]. split; [done |].
    simpl. lia.
  - unfold sort_by_pid.
    rewrite (proj2 (forallb_forall _ _)), orb_true_l; cycle 1.
    { intros o Ho%list_elem_of_In.
      by apply (proj1 (Forall_forall _ _) Hint). }
    pose proof (stable_sort_Permutation pid_leb
                  (x_session_config_objects config)) as Hperm.
    pose proof (stable_sort_pid_sorted _ Hint) as Hsorted.
    destruct (close_processes_spec
                (groupby_pid (stable_sort pid_leb
                                (x_session_config_objects config))) sg
                (groupby_pid_nonempty _))
      as (s' & steps & Hclose & Hclosed & Hpauses).
    exists s', (concat steps). split; [| split].
    + by erewrite bind_Ok by exact Hclose.
    + by rewrite Hclosed, groupby_pid_concat, Hperm.
    + rewrite Hpauses, groupby_pid_sorted_length by done.
      f_equal. apply remove_dups_length_Permutation. by rewrite Hperm.
Qed.

Lemma close_windows_closes_every_window_once_witness :
  ∃ s' steps,
    close_windows manager (desk [editor_window; editor_preferences]) fresh
    = (s', Ok steps)
    ∧ closed steps ≡ₚ [73400323; 73400329]
    ∧ pauses (trace s')
      = (pauses
           (trace (get_session_details
                     (desk [editor_window; editor_preferences]) false None
                     fresh).1)
         + length (remove_dups [PInt 1200; PInt 1200]))%nat.
Proof.
  apply (close_windows_closes_every_window_once manager
           (desk [editor_window; editor_preferences]) fresh
           (get_session_details (desk [editor_window; editor_preferences])
              false None fresh).1
           {| session_name := ""; session_create_time := None;
              backup_time := None;
              x_session_config_objects :=
                [ {| window_id := "0x04600003";
                     window_id_the_int_type := 73400323;
                     desktop_number := 0; pid := PInt 1200;
                     window_title := "notes.txt - Editor";
                     app_name := "editor";
                     cmd := ["editor"; "notes.txt"];
                     process_create_time := Some "2020-05-01 11:59:58" |};
                  {| window_id := "0x04600009";
                     window_id_the_int_type := 73400329;
                     desktop_number := 0; pid := PInt 1200;
                     window_title := "Preferences";
                     app_name := "editor";
                     cmd := ["editor"; "notes.txt"];
                     process_create_time := Some "2020-05-01 11:59:58" |} ] |}).
  - reflexivity.
  - by repeat constructor.
Defined.

(** ** Marked windows are moved (lines 316-329) *)

Lemma for_each_move_one_moves_or_skips desktop ws s w :
  w ∈ ws →
  window_id w ∈ _moved_windowids_cache s
  ∨ (window_id w, desktop)
    ∈ move_commands (trace (for_each ws (move_one desktop) s).1).
Proof.
  revert s. induction ws as [|x ws IH]; intros s; [by intros ?%elem_of_nil |].
  intros Hw. cbn [for_each]. unfold bind.
  assert (∀ s0 c, c ∈ move_commands (trace s0) →
                  c ∈ move_commands (trace (for_each ws (move_one desktop) s0).1))
    as Hkeep.
  { intros s0 c Hc.
    destruct (for_each_move_one_commands desktop ws s0) as (new & -> & _).
    apply elem_of_app. by left. }
  destruct (decide (window_id x ∈ _moved_windowids_cache s)) as [Hin|Hin].
  - rewrite move_one_cached by done.
    apply elem_of_cons in Hw as [->|Hw]; [by left | by apply IH].
  - rewrite move_one_fresh by done.
    apply elem_of_cons in Hw as [->|Hw].
    + right. apply Hkeep. simpl. rewrite move_commands_app. simpl.
      apply elem_of_app. right. left.
    + match goal with |- context [for_each ws _ ?s1] =>
        destruct (IH s1 Hw) as [Hc|Hm] end; [| by right].
      simpl in Hc. apply elem_of_app in Hc as [Hc | Hc%list_elem_of_singleton];
        [by left |].
      right. apply Hkeep. simpl. rewrite move_commands_app. simpl.
      rewrite Hc. apply elem_of_app. right. left.
Qed.

(** If the scan of an attempt marks a window, every marked window is either
    in the cache of moved windows already or gets a move command to the
    desktop of the record, and in both cases it is in the cache when the
    attempt ends; the attempt then returns normally, with or without
    retry. *)
Theorem marked_windows_are_moved_unless_cached env obj pids need_retry s w :
  w ∈ moving_windows (scan_windows obj pids (snapshot env)) →
  (place_windows env obj pids need_retry s).2 = Ok tt
  ∧ (window_id w ∈ _moved_windowids_cache s
     ∨ (window_id w, desktop_number obj)
       ∈ move_commands (trace (place_windows env obj pids need_retry s).1))
  ∧ window_id w
    ∈ _moved_windowids_cache (place_windows env obj pids need_retry s).1.
Proof.
  rewrite scan_windows_moving. intros Hw.
  rewrite place_windows_moves by (by intros Hnil; rewrite Hnil in Hw;
                                  apply elem_of_nil in Hw).
  split; [apply for_each_move_one_Ok |]. split.
  - by apply for_each_move_one_moves_or_skips.
  - by apply for_each_move_one_cache.
Qed.

Lemma marked_windows_are_moved_unless_cached_witness :
  (place_windows (desk [editor_window; editor_preferences]) editor_record
     [PInt 1200] true fresh).2 = Ok tt
  ∧ (window_id editor_window ∈ _moved_windowids_cache fresh
     ∨ (window_id editor_window, desktop_number editor_record)
       ∈ move_commands
           (trace (place_windows (desk [editor_window; editor_preferences])
                     editor_record [PInt 1200] true fresh).1))
  ∧ window_id editor_window
    ∈ _moved_windowids_cache
        (place_windows (desk [editor_window; editor_preferences])
           editor_record [PInt 1200] true fresh).1.
Proof.
  apply marked_windows_are_moved_unless_cached. vm_compute. left.
Defined.

(** ** The workspaces of a restore (lines 173-175) *)

Definition settings_as (requests : list event) (dynamic : bool) (number : Z)
    (s : State) : Prop :=
  workspace_requests (trace s) = requests
  ∧ dynamic_workspaces s = dynamic
  ∧ workspaces_number s = number.

Lemma settings_restore_sessions requests dynamic number world
    restoring_interval objs :
  preserves (settings_as requests dynamic number)
    (restore_sessions world restoring_interval objs).
Proof.
  assert (∀ e, workspace_requests [e] = [] →
               preserves (settings_as requests dynamic number) (emit e)) as He.
  { intros e He s (<- & <- & <-). unfold settings_as. simpl.
    by rewrite workspace_requests_app, He, app_nil_r. }
  unfold restore_sessions. apply preserves_bind; [by apply He |]. intros _.
  apply preserves_restore_each.
  - intros m. by apply He.
  - intros desktop w s (<- & <- & <-).
    destruct (decide (window_id w ∈ _moved_windowids_cache s)) as [Hin|Hin].
    + by rewrite move_one_cached.
    + rewrite move_one_fresh by done. unfold settings_as. simpl.
      by rewrite workspace_requests_app, app_nil_r.
  - intros d. apply preserves_sleep. intros s (<- & <- & <-).
    unfold settings_as. simpl.
    by rewrite workspace_requests_app, app_nil_r.
  - intros env c. by apply preserves_run_cmd, He.
Qed.

Lemma create_enough_workspaces_dynamic env n body s :
  is_gnome env = true →
  dynamic_workspaces s = true →
  get_workspace_count env < n →
  create_enough_workspaces env n body s
  = match body (set_workspaces_number n (disable_dynamic_workspaces s).1).1 with
    | (s1, Ok _) => ((enable_dynamic_workspaces s1).1, Ok tt)
    | (s1, Raise e) =>
        ((print (Traceback e) (enable_dynamic_workspaces s1).1).1, Ok tt)
    end.
Proof.
  intros Hgnome Hdyn Hcount. unfold create_enough_workspaces. rewrite Hgnome.
  rewrite bool_decide_eq_false_2 by lia.
  unfold bind at 1. unfold is_dynamic_workspaces. rewrite Hdyn.
  unfold bind at 1. simpl. unfold try_except, bind, try_finally. simpl.
  by destruct (body _) as [s1 [[]|e]].
Qed.

Lemma _get_max_desktop_number_bound objs s :
  objs ≠ [] →
  ∃ n, _get_max_desktop_number objs s = (s, Ok n)
       ∧ ∀ o, o ∈ objs → desktop_number o < n.
Proof.
  intros Hne. destruct objs as [|o objs]; [done |].
  unfold _get_max_desktop_number. rewrite fmap_cons.
  destruct (foldl_max_bounds (desktop_number o) (desktop_number <$> objs))
    as (Hd & Hall & _).
  eexists. split; [reflexivity |].
  intros o' [->|Ho']%elem_of_cons; [lia |].
  assert (desktop_number o' ≤ foldl Z.max (desktop_number o)
                                (desktop_number <$> objs)); [| lia].
  apply Hall. by apply list_elem_of_fmap_2.
Qed.

(** In a GNOME session with dynamic sizing and fewer workspaces than the
    records need, a restore of records asks the workspace settings for
    exactly this: dynamic sizing off, the number of workspaces set to one
    more than the greatest desktop number of the records, and, after the
    launches, dynamic sizing on again; and dynamic sizing is on when it
    returns.  This holds also when a launch or the pause after it raises:
    the scope turns dynamic sizing on again and prints the traceback. *)
Theorem restore_session_fixes_enough_workspaces_and_restores self world name
    restoring_interval s config :
  files s !! (base_location_of_sessions self, name) = Some config →
  records_to_restore self config ≠ [] →
  is_gnome (world (clock s)) = true →
  dynamic_workspaces s = true →
  (∀ n, (_get_max_desktop_number (records_to_restore self config) s).2 = Ok n →
        get_workspace_count (world (clock s)) < n) →
  ∃ n,
    (_get_max_desktop_number (records_to_restore self config) s).2 = Ok n
    ∧ (∀ o, o ∈ records_to_restore self config → desktop_number o < n)
    ∧ workspace_requests
        (trace (restore_session self world name restoring_interval s).1)
      = workspace_requests (trace s)
        ++ [DisableDynamicWorkspaces; SetWorkspacesNumber n;
            EnableDynamicWorkspaces]
    ∧ dynamic_workspaces
        (restore_session self world name restoring_interval s).1 = true.
Proof.
  intros Hfile Hne Hgnome Hdyn Hcount.
  destruct (_get_max_desktop_number_bound
              (records_to_restore self config) s Hne) as (n & Hn & Hall).
  exists n. rewrite Hn. split; [done |]. split; [done |].
  specialize (Hcount n). rewrite Hn in Hcount. specialize (Hcount eq_refl).
  rewrite (restore_session_loaded self world name restoring_interval
             s config Hfile).
  rewrite bool_decide_eq_false_2 by (by destruct (records_to_restore self config)).
  set (s1 := (print _ s).1).
  assert (_get_max_desktop_number (records_to_restore self config) s1
          = (s1, Ok n)) as Hn1.
  { unfold _get_max_desktop_number in *.
    destruct (desktop_number <$> records_to_restore self config); [done |].
    by injection Hn as <-. }
  pose proof (settings_restore_sessions
                (workspace_requests (trace s)
                 ++ [DisableDynamicWorkspaces; SetWorkspacesNumber n])
                false n world restoring_interval
                (records_to_restore self config)
                (set_workspaces_number n (disable_dynamic_workspaces s1).1).1)
    as Hbody.
  destruct Hbody as (Hreq & _ & _).
  { split; [| done]. subst s1. simpl.
    by rewrite !workspace_requests_app, !app_nil_r, <- app_assoc. }
  assert (∃ s3, (max_desktop_number <-
                     _get_max_desktop_number (records_to_restore self config) ;;
                   at_now world (λ env,
                     create_enough_workspaces env max_desktop_number
                       (restore_sessions world restoring_interval
                          (records_to_restore self config))) ;;
                   print Done) s1 = (s3, Ok tt)
                  ∧ workspace_requests (trace s3)
                    = workspace_requests (trace s)
                      ++ [DisableDynamicWorkspaces; SetWorkspacesNumber n;
                          EnableDynamicWorkspaces]
                  ∧ dynamic_workspaces s3 = true) as (s3 & -> & Hs3 & Hd3);
    [| by split].
  erewrite bind_Ok by exact Hn1.
  pose proof (create_enough_workspaces_dynamic (world (clock s)) n
                (restore_sessions world restoring_interval
                   (records_to_restore self config)) s1 Hgnome Hdyn Hcount)
    as Hscope.
  destruct (restore_sessions _ _ _ _) as [s2 r]. cbn [fst] in Hreq.
  destruct r as [[]|e];
    (erewrite bind_Ok by (unfold at_now; exact Hscope));
    eexists; (split; [reflexivity |]); simpl;
    rewrite !workspace_requests_app, Hreq; simpl;
    by rewrite ?app_nil_r, <- ?app_assoc.
Qed.

(** A GNOME desktop with one workspace. *)
Definition gnome_desk : Env :=
  {| running_windows := [];
     children := λ _, None;
     process_iter := [];
     process_info := λ _, None;
     run_cmd_pid := λ _, Ok 1200;
     is_gnome := true;
     get_workspace_count := 1;
     time := λ _, noon |}.

Lemma restore_session_fixes_enough_workspaces_and_restores_witness :
  ∃ n,
    (_get_max_desktop_number (records_to_restore manager work_session)
       with_work_session).2 = Ok n
    ∧ (∀ o, o ∈ records_to_restore manager work_session → desktop_number o < n)
    ∧ workspace_requests
        (trace (restore_session manager (λ _, gnome_desk) "work" 2
                  with_work_session).1)
      = workspace_requests (trace with_work_session)
        ++ [DisableDynamicWorkspaces; SetWorkspacesNumber n;
            EnableDynamicWorkspaces]
    ∧ dynamic_workspaces
        (restore_session manager (λ _, gnome_desk) "work" 2
           with_work_session).1 = true.
Proof.
  apply restore_session_fixes_enough_workspaces_and_restores.
  - reflexivity.
  - discriminate.
  - reflexivity.
  - reflexivity.
  - intros n [= <-]. reflexivity.
Defined.

(** ** The windows of one process are closed from the last one (lines 219-227) *)

Lemma insert_sorted_by_window_id x l :
  StronglySorted (λ a b, String.le (window_id b) (window_id a)) l →
  StronglySorted (λ a b, String.le (window_id b) (window_id a))
    (insert_sorted (λ a b, String.leb (window_id b) (window_id a)) x l).
Proof.
  induction 1 as [|y l Hs IH Hy]; simpl; [by repeat constructor |].
  destruct (String.leb (window_id y) (window_id x)) eqn:Hle.
  - constructor; [by constructor |]. constructor.
    + unfold String.le. by rewrite Hle.
    + eapply Forall_impl; [exact Hy |]. simpl. intros z Hz.
      etrans; [exact Hz |]. unfold String.le. by rewrite Hle.
  - constructor; [done |]. rewrite insert_sorted_Permutation.
    constructor; [| done].
    destruct (String.leb_total (window_id y) (window_id x)) as [Hyx|Hxy];
      [congruence |]. unfold String.le. by rewrite Hxy.
Qed.

Lemma sort_by_window_id_reversed_sorted l :
  StronglySorted (λ a b, String.le (window_id b) (window_id a))
    (sort_by_window_id_reversed l).
Proof.
  unfold sort_by_window_id_reversed.
  induction l as [|x l IH]; [constructor |]. cbn [stable_sort foldr].
  apply insert_sorted_by_window_id, IH.
Qed.

Lemma stable_sort_one_process l z :
  Forall (λ o, pid o = PInt z) l → stable_sort pid_leb l = l.
Proof.
  induction 1 as [|x l Hx Hl IH]; [done |]. simpl. rewrite IH.
  destruct Hl as [|y l Hy Hl]; [done |]. simpl. unfold pid_leb.
  by rewrite Hx, Hy, Z.leb_refl.
Qed.

Lemma groupby_pid_one_process l z :
  l ≠ [] → Forall (λ o, pid o = PInt z) l → groupby_pid l = [(PInt z, l)].
Proof.
  intros Hne Hl. induction Hl as [|x l Hx Hl IH]; [done |].
  cbn [groupby_pid]. destruct Hl as [|y l Hy Hl]; [by rewrite <- Hx |].
  rewrite IH by done. by rewrite bool_decide_eq_true_2.
Qed.

(** When all the captured windows belong to one process and there are
    several of them, they are asked to close in the descending order of
    their window ids (as strings), windows with one id in their captured
    order, and one pause follows. *)
Theorem close_windows_closes_a_process_from_its_last_window
    self env s sg config z :
  get_session_details env false (session_filters self) s = (sg, Ok config) →
  Forall (λ o, pid o = PInt z) (x_session_config_objects config) →
  (1 < length (x_session_config_objects config))%nat →
  ∃ s' steps,
    close_windows self env s = (s', Ok steps)
    ∧ closed steps
      = window_id_the_int_type
          <$> sort_by_window_id_reversed (x_session_config_objects config)
    ∧ StronglySorted (λ a b, String.le (window_id b) (window_id a))
        (sort_by_window_id_reversed (x_session_config_objects config))
    ∧ sort_by_window_id_reversed (x_session_config_objects config)
      ≡ₚ x_session_config_objects config
    ∧ pauses (trace s') = S (pauses (trace sg)).
Proof.
  intros Hcapture Hone Hlen. unfold close_windows.
  erewrite bind_Ok by exact Hcapture. cbv zeta.
  rewrite bool_decide_eq_false_2 by lia. unfold sort_by_pid.
  rewrite (proj2 (forallb_forall _ _)), orb_true_l; cycle 1.
  { intros o Ho%list_elem_of_In.
    by rewrite (proj1 (Forall_forall _ _) Hone o Ho). }
  rewrite (stable_sort_one_process _ z) by done.
  rewrite (groupby_pid_one_process _ z);
    [| intros Heq; rewrite Heq in Hlen; simpl in Hlen; lia | done].
  cbn [map_M]. unfold close_process. cbv zeta. cbn [snd].
  rewrite bool_decide_eq_true_2 by done.
  eexists _, _. split; [reflexivity |]. split; [| split; [| split]].
  - simpl. by rewrite app_nil_r, closed_close_all.
  - apply sort_by_window_id_reversed_sorted.
  - apply stable_sort_Permutation.
  - simpl. rewrite pauses_app. simpl. lia.
Qed.

Lemma close_windows_closes_a_process_from_its_last_window_witness :
  ∃ s' steps,
    close_windows manager (desk [editor_window; editor_preferences]) fresh
    = (s', Ok steps)
    ∧ closed steps = [73400329; 73400323].
Proof.
  destruct (close_windows_closes_a_process_from_its_last_window manager
              (desk [editor_window; editor_preferences]) fresh
              (get_session_details (desk [editor_window; editor_preferences])
                 false None fresh).1
              {| session_name := ""; session_create_time := None;
                 backup_time := None;
                 x_session_config_objects :=
                   [ {| window_id := "0x04600003";
                        window_id_the_int_type := 73400323;
                        desktop_number := 0; pid := PInt 1200;
                        window_title := "notes.txt - Editor";
                        app_name := "editor";
                        cmd := ["editor"; "notes.txt"];
                        process_create_time := Some "2020-05-01 11:59:58" |};
                     {| window_id := "0x04600009";
                        window_id_the_int_type := 73400329;
                        desktop_number := 0; pid := PInt 1200;
                        window_title := "Preferences";
                        app_name := "editor";
                        cmd := ["editor"; "notes.txt"];
                        process_create_time :=
                          Some "2020-05-01 11:59:58" |} ] |} 1200)
    as (s' & steps & Hclose & Hclosed & _).
  - reflexivity.
  - by repeat constructor.
  - simpl. lia.
  - exists s', steps. split; [exact Hclose | exact Hclosed].
Defined.
